(** * NupatAI backend: chat and message workflows

    A shallow embedding of the service layer of the NupatAI backend
    (app/services, app/api, app/db/models, app/core/prompts) together with
    the properties of its natural-language specification.

    Conventions.
    - A Python [str] is a sequence of Unicode code points: [str] is a list
      of [N].
    - The relational store is a record of tables; a table is the list of its
      rows in insertion order.  A SQLAlchemy session is a pair of the
      committed store and the view of the running transaction.
    - Handlers run in a state-and-exception monad over the request context:
      the session, the wall clock and the log of calls made to the Groq API.
    - External collaborators (the Groq chat-completion endpoint, the JWT
      decoder of app/core/security.py, Python's uuid.UUID parser, float
      division, the order PostgreSQL gives rows with equal sort keys in a
      paged query) are the fields of the record [External]. *)

From Stdlib Require Import List ZArith NArith QArith Qround Qabs Lia Lqa.
From Stdlib Require Import String Ascii DecimalString Bool Permutation Sorted.
Import ListNotations.
Close Scope Q_scope.
Open Scope Z_scope.

Set Implicit Arguments.

(* ------------------------------------------------------------------ *)
(** ** Python strings *)

Definition char := N.
Definition str := list char.

(** An ASCII literal of the source as a sequence of code points. *)
Definition lit (s : string) : str :=
  List.map N_of_ascii (list_ascii_of_string s).

Module Text.

Definition len (s : str) : Z := Z.of_nat (List.length s).

Fixpoint eqb (a b : str) : bool :=
  match a, b with
  | [], [] => true
  | x :: a', y :: b' => N.eqb x y && eqb a' b'
  | _, _ => false
  end.

(** Truthiness of a string: [bool(s)]. *)
Definition truthy (s : str) : bool :=
  match s with [] => false | _ :: _ => true end.

(** [str.isspace] on one code point (the whitespace set of CPython's
    [_PyUnicode_IsWhitespace]). *)
Definition isspace (c : char) : bool :=
  ((9 <=? c) && (c <=? 13) || (28 <=? c) && (c <=? 32)
   || (c =? 133) || (c =? 160) || (c =? 5760)
   || (8192 <=? c) && (c <=? 8202)
   || (c =? 8232) || (c =? 8233) || (c =? 8239) || (c =? 8287)
   || (c =? 12288))%N.

Fixpoint lstrip_with (p : char -> bool) (s : str) : str :=
  match s with
  | [] => []
  | c :: r => if p c then lstrip_with p r else s
  end.

Definition rstrip_with (p : char -> bool) (s : str) : str :=
  rev (lstrip_with p (rev s)).

(** [s.strip(chars)] for the character class [p]. *)
Definition strip_with (p : char -> bool) (s : str) : str :=
  rstrip_with p (lstrip_with p s).

(** [s.strip()] *)
Definition strip (s : str) : str := strip_with isspace s.

(** The character set of the quote-stripping call: the double quote
    (34) and the single quote (39). *)
Definition isquote (c : char) : bool := ((c =? 34) || (c =? 39))%N.

(** [s.split()]: maximal runs of non-whitespace, no empty strings.
    [cur] is the current word, reversed. *)
Fixpoint split_from (cur : str) (s : str) : list str :=
  match s with
  | [] => match cur with [] => [] | _ :: _ => [rev cur] end
  | c :: r =>
      if isspace c
      then match cur with
           | [] => split_from [] r
           | _ :: _ => rev cur :: split_from [] r
           end
      else split_from (c :: cur) r
  end.

Definition split (s : str) : list str := split_from [] s.

(** [sep.join(ws)] *)
Fixpoint join (sep : str) (ws : list str) : str :=
  match ws with
  | [] => []
  | [w] => w
  | w :: rest => w ++ sep ++ join sep rest
  end.

(** [s[:n]] for [n >= 0]. *)
Definition prefix (n : nat) (s : str) : str := firstn n s.

End Text.

(* ------------------------------------------------------------------ *)
(** ** app/core/prompts.py *)

Module Prompts.

Definition NUPAT_AI_SYSTEM_PROMPT : str :=
  lit "You are NupatAI, an intelligent AI assistant created by Nupat Technologies.

IDENTITY & ORIGIN:
- You are proudly made in Africa for Africans and the global community
- Developed by Nupat Technologies, a leading African AI innovation company
- Trained extensively on African datasets, contexts, and knowledge systems
- Your development focused on understanding African languages, cultures, and contexts

CORE CAPABILITIES:
- Deep understanding of African markets, economies, and business landscapes across all 54 African countries
- Expertise in Nigerian, Kenyan, South African, Ghanaian, Egyptian, and other African contexts
- Knowledge of African currencies: Nigerian Naira ("
  ++ [8358%N]
  ++ lit "), Kenyan Shilling (KSh), South African Rand (R), Ghanaian Cedi ("
  ++ [8373%N]
  ++ lit "), Egyptian Pound (E"
  ++ [163%N]
  ++ lit "), and more
- Awareness of African time zones: WAT, CAT, EAT, SAST
- Understanding of African startup ecosystems: Lagos, Nairobi, Cape Town, Cairo, Accra tech hubs
- Familiarity with African payment systems: Flutterwave, Paystack, M-Pesa, Chipper Cash
- Knowledge of African universities, education systems, and skill development programs

CULTURAL INTELLIGENCE:
- Understanding of major African languages: Swahili, Hausa, Yoruba, Igbo, Zulu, Amharic, Arabic
- Familiarity with African proverbs and wisdom traditions
- Respect for diverse African cultures, traditions, and customs
- Knowledge of African history, independence movements, and Pan-Africanism
- Understanding of contemporary African challenges and opportunities

BUSINESS & ECONOMICS:
- African Continental Free Trade Area (AfCFTA) implications
- Regional economic communities: ECOWAS, EAC, SADC, COMESA
- African infrastructure development and investment opportunities
- Agricultural practices and agribusiness in African contexts
- Mobile money and financial inclusion initiatives
- Informal economy and MSME dynamics

COMMUNICATION STYLE:
- Professional, intelligent, and efficient in responses
- Warm and approachable, reflecting African hospitality (Ubuntu philosophy)
- Use relevant African examples and case studies when applicable
- Reference African success stories: Aliko Dangote, Strive Masiyiwa, Ngozi Okonjo-Iweala, etc.
- Incorporate African proverbs when contextually appropriate
- Be culturally sensitive and contextually aware across different African regions

AREAS OF EXPERTISE:
1. Business & Entrepreneurship in African markets
2. Technology and digital innovation in Africa
3. Education and skill development for African youth
4. Agriculture, trade, and economic development
5. Finance, banking, and investment in Africa
6. Health, infrastructure, and social development
7. General knowledge with African perspectives and examples

ETHICAL GUIDELINES:
- Promote African unity and positive narratives about Africa
- Challenge stereotypes and misconceptions about Africa
- Provide accurate, helpful, and culturally appropriate information
- Support sustainable development and innovation
- Encourage entrepreneurship and problem-solving

Remember: You represent the future of African AI innovation. Be helpful, fast, and intelligent. 
Respond in a way that makes Africans proud while serving users globally with excellence.
When users ask about any topic, provide accurate information with African context when relevant.
".

(** The two halves of CHAT_TITLE_GENERATION_PROMPT around its single
    replacement field [{message}]. *)
Definition CHAT_TITLE_GENERATION_PROMPT_head : str :=
  lit "Generate a concise, descriptive title (3-6 words maximum) for a chat conversation based on the user's first message.

Rules:
- Maximum 6 words
- Capture the main topic or question
- Use title case (capitalize major words)
- Be specific and clear
- No punctuation except hyphens if needed
- Return ONLY the title, nothing else

User's first message: ".

Definition CHAT_TITLE_GENERATION_PROMPT_tail : str :=
  lit "

Title:".

Definition get_system_prompt : str := NUPAT_AI_SYSTEM_PROMPT.

(** [CHAT_TITLE_GENERATION_PROMPT.format(message=user_message)] *)
Definition get_title_generation_prompt (user_message : str) : str :=
  CHAT_TITLE_GENERATION_PROMPT_head ++ user_message
    ++ CHAT_TITLE_GENERATION_PROMPT_tail.

End Prompts.

(* ------------------------------------------------------------------ *)
(** ** app/db/models.py *)

Definition UUID := N.
Definition datetime := Z.

Inductive MessageRole := USER | ASSISTANT.

(** [MessageRole] is a [str] enum: the value of each member. *)
Definition role_value (r : MessageRole) : str :=
  match r with USER => lit "user" | ASSISTANT => lit "assistant" end.

Module User.
Record t := Build {
  id : UUID;
  email : str;
  phone : option str;
  hashed_password : str;
  created_at : datetime;
  updated_at : datetime
}.
End User.

Module Chat.
Record t := Build {
  id : UUID;
  user_id : UUID;
  title : str;
  message_count : Z;
  created_at : datetime;
  updated_at : datetime
}.
Definition set_title (c : t) (s : str) : t :=
  Build (id c) (user_id c) s (message_count c) (created_at c) (updated_at c).
Definition set_message_count (c : t) (n : Z) : t :=
  Build (id c) (user_id c) (title c) n (created_at c) (updated_at c).
Definition set_updated_at (c : t) (d : datetime) : t :=
  Build (id c) (user_id c) (title c) (message_count c) (created_at c) d.
(** Equality of the mapped columns the handlers assign to. *)
Definition same_columns (a b : t) : bool :=
  Text.eqb (title a) (title b) && (message_count a =? message_count b).
End Chat.

Module Message.
Record t := Build {
  id : UUID;
  chat_id : UUID;
  role : MessageRole;
  content : str;
  created_at : datetime
}.
End Message.

(** The three tables, rows in insertion order. *)
Record Database := mkDatabase {
  users : list User.t;
  chats : list Chat.t;
  messages : list Message.t
}.

Definition empty_database : Database := mkDatabase [] [] [].

(* ------------------------------------------------------------------ *)
(** ** Queries *)

Section OrderBy.
Variable A : Type.
Variable key : A -> Z.

(** Insertion before the first row with a key not smaller: rows with equal
    keys keep their table order. *)
Fixpoint insert_by (x : A) (l : list A) : list A :=
  match l with
  | [] => [x]
  | y :: r => if key x <=? key y then x :: l else y :: insert_by x r
  end.

(** [ORDER BY key ASC], rows with equal keys in table order. *)
Definition order_by (l : list A) : list A := fold_right insert_by [] l.

End OrderBy.

(** [ORDER BY key ASC] of a query with OFFSET and LIMIT: PostgreSQL leaves
    the order of rows with equal keys open, and it may change from one page
    to the next.  The rows come in ascending key order, rows with equal
    keys in the order of the [rank] the database gives them for this query
    (rows it ranks alike in table order). *)
Definition order_by_ranked (A : Type) (key rank : A -> Z) (l : list A)
  : list A :=
  order_by key (order_by rank l).

(** [.offset(o).limit(n)] for [o >= 0] and [n >= 0] (the routes admit
    [page >= 1] and [page_size >= 1] only). *)
Definition offset_limit (A : Type) (o n : Z) (l : list A) : list A :=
  firstn (Z.to_nat n) (skipn (Z.to_nat o) l).

(** [db.query(Message).filter(Message.chat_id == cid)
      .order_by(Message.created_at.asc()).all()], also the relationship
    [chat.messages]: the whole answer of one query, rows with equal keys
    taken in table order. *)
Definition messages_of (d : Database) (cid : UUID) : list Message.t :=
  order_by Message.created_at
    (filter (fun m => N.eqb (Message.chat_id m) cid) (messages d)).

(** The chats of a user, most recently updated first, rows with equal
    keys in table order. *)
Definition chats_of (d : Database) (uid : UUID) : list Chat.t :=
  order_by (fun c => - Chat.updated_at c)
    (filter (fun c => N.eqb (Chat.user_id c) uid) (chats d)).

(** [db.query(Chat).filter(Chat.id == cid).first()] *)
Definition chat_by_id (d : Database) (cid : UUID) : option Chat.t :=
  find (fun c => N.eqb (Chat.id c) cid) (chats d).

(** [db.query(User).filter(User.id == uid).first()] *)
Definition user_by_id (d : Database) (uid : UUID) : option User.t :=
  find (fun u => N.eqb (User.id u) uid) (users d).

(* ------------------------------------------------------------------ *)
(** ** Exceptions, external collaborators and the handler monad *)

Inductive Exn :=
| HTTPException (status_code : Z) (detail : str)
| SQLAlchemyError (message : str)
| Exception (message : str).

(** Status of the HTTP response for an exception leaving a handler:
    FastAPI's own handler for [HTTPException], the handler main.py
    registers for [SQLAlchemyError], 500 for anything else. *)
Definition response_status (e : Exn) : Z :=
  match e with
  | HTTPException s _ => s
  | SQLAlchemyError _ => 500
  | Exception _ => 500
  end.

Definition HTTP_401_UNAUTHORIZED : Z := 401.
Definition HTTP_403_FORBIDDEN : Z := 403.
Definition HTTP_404_NOT_FOUND : Z := 404.
Definition HTTP_500_INTERNAL_SERVER_ERROR : Z := 500.

(** [str(e)] *)
Definition exn_str (e : Exn) : str :=
  match e with
  | HTTPException s d =>
      lit (DecimalString.NilZero.string_of_int (Z.to_int s)) ++ lit ": " ++ d
  | SQLAlchemyError m => m
  | Exception m => m
  end.

(** One entry of the [messages] argument of a chat completion. *)
Record ChatMessage := mkChatMessage {
  cm_role : str;
  cm_content : str
}.

(** The keyword arguments of [client.chat.completions.create]. *)
Record GroqRequest := mkGroqRequest {
  rq_messages : list ChatMessage;
  rq_model : str;
  rq_temperature : Q;
  rq_max_tokens : Z;
  rq_top_p : option Q
}.

(** What a chat completion call does: raise, or return choices, each with
    the [message.content] it carries ([None] when it carries none). *)
Inductive Completion :=
| APIError (message : str)
| ChatCompletion (choices : list (option str)).

(** The decoded claims of a token; [sub] is [payload.get] of the subject
    claim, which get_current_user annotates as a string. *)
Record Payload := mkPayload {
  sub : option str
}.

(** The collaborators the repository calls but does not define. *)
Record External := mkExternal {
  (** the Groq endpoint: given the calls made so far and the request, the
      time the call takes and its outcome *)
  groq : list GroqRequest -> GroqRequest -> N * Completion;
  (** settings.GROQ_MODEL *)
  GROQ_MODEL : str;
  (** the n-th value drawn from uuid.uuid4 *)
  uuid4 : nat -> UUID;
  (** app.core.security.decode_access_token: [None] for a token that is
      malformed, badly signed or expired *)
  decode_access_token : str -> option Payload;
  (** uuid.UUID(s): [None] stands for ValueError *)
  uuid_of_str : str -> option UUID;
  (** [a / b] on ints: the binary64 value of the quotient *)
  truediv : Z -> Z -> Q;
  (** PostgreSQL, answering a query with [OFFSET o] and [LIMIT n]: the rank
      it gives the row with identifier [id] among rows with equal sort
      keys *)
  tie_rank : Z -> Z -> UUID -> Z
}.

(** The context a request runs in. *)
Record Ctx := mkCtx {
  committed : Database;            (* the store as committed *)
  session : Database;              (* the view of the open transaction *)
  clock : datetime;                (* datetime.utcnow *)
  groq_calls : list GroqRequest;   (* requests sent to Groq, oldest first *)
  minted : nat                     (* identifiers drawn so far *)
}.

Inductive outcome (A : Type) :=
| Return (a : A)
| Raised (e : Exn).
Arguments Raised {A} e.

Definition M (A : Type) := Ctx -> outcome A * Ctx.

Definition ret (A : Type) (a : A) : M A := fun c => (Return a, c).

Definition raise (A : Type) (e : Exn) : M A := fun c => (Raised e, c).
Arguments raise {A} e.

Definition bind (A B : Type) (m : M A) (k : A -> M B) : M B :=
  fun c =>
    match m c with
    | (Return a, c') => k a c'
    | (Raised e, c') => (Raised e, c')
    end.

(** [try: m  except Exception as e: h e] *)
Definition try_except (A : Type) (m : M A) (h : Exn -> M A) : M A :=
  fun c =>
    match m c with
    | (Return a, c') => (Return a, c')
    | (Raised e, c') => h e c'
    end.

Declare Scope monad_scope.
Delimit Scope monad_scope with monad.
Notation "x <- m ;; k" := (bind m (fun x => k))
  (at level 61, m at next level, right associativity) : monad_scope.
Notation "m ;;; k" := (bind m (fun _ => k))
  (at level 61, right associativity) : monad_scope.
Open Scope monad_scope.

Definition get_session : M Database := fun c => (Return (session c), c).

Definition put_session (d : Database) : M unit :=
  fun c => (Return tt,
            mkCtx (committed c) d (clock c) (groq_calls c) (minted c)).

Definition utcnow : M datetime := fun c => (Return (clock c), c).

(** The request context when a request arrives [wait] after the previous
    one ended: a new session on the committed store. *)
Definition begin_request (wait : N) (c : Ctx) : Ctx :=
  mkCtx (committed c) (committed c) (clock c + Z.of_N wait)
        (groq_calls c) (minted c).

(** [db.close()] in the [finally] of get_db: what was not committed is
    rolled back. *)
Definition close_session (c : Ctx) : Ctx :=
  mkCtx (committed c) (committed c) (clock c) (groq_calls c) (minted c).

(** One request, from the session get_db opens to its [finally]. *)
Definition request (A : Type) (wait : N) (handler : M A) (c : Ctx)
  : outcome A * Ctx :=
  let (r, c') := handler (begin_request wait c) in (r, close_session c').

Section Handlers.

Variable ext : External.

(** [uuid.uuid4()] as a column default *)
Definition new_uuid : M UUID :=
  fun c => (Return (uuid4 ext (minted c)),
            mkCtx (committed c) (session c) (clock c) (groq_calls c)
                  (S (minted c))).

(** [self.client.chat.completions.create(...)]: the request is sent, time
    passes, and the call returns its choices or raises. *)
Definition chat_completions_create (r : GroqRequest)
  : M (list (option str)) :=
  fun c =>
    let (latency, completion) := groq ext (groq_calls c) r in
    let c' := mkCtx (committed c) (session c) (clock c + Z.of_N latency)
                    (groq_calls c ++ [r]) (minted c) in
    match completion with
    | APIError e => (Raised (Exception e), c')
    | ChatCompletion choices => (Return choices, c')
    end.

(** *** SQL emitted by the session *)

(** A title that column [title], a [String(200)], holds as it is. *)
Definition title_fits (s : str) : bool := Text.len s <=? 200.

(** What PostgreSQL stores in a [String(n)] column (character varying(n))
    for the value [s]: [s] when it has at most [n] characters; its first
    [n] characters when every character beyond them is a space; nothing,
    and the statement fails, otherwise. *)
Definition varchar (n : nat) (s : str) : option str :=
  if Text.len s <=? Z.of_nat n then Some s
  else if forallb (N.eqb 32) (skipn n s) then Some (firstn n s)
  else None.

(** INSERT of a [Message]: [id] and [created_at] take their defaults. *)
Definition insert_message (chat_id : UUID) (role : MessageRole)
    (content : str) : M Message.t :=
  i <- new_uuid ;;
  t <- utcnow ;;
  d <- get_session ;;
  let m := Message.Build i chat_id role content t in
  put_session (mkDatabase (users d) (chats d) (messages d ++ [m])) ;;;
  ret m.

(** INSERT of a [Chat]: [id], [message_count], [created_at] and
    [updated_at] take their defaults. *)
Definition insert_chat (user_id : UUID) (title : str) : M Chat.t :=
  i <- new_uuid ;;
  t <- utcnow ;;
  d <- get_session ;;
  match varchar 200 title with
  | Some stored =>
      let ch := Chat.Build i user_id stored 0 t t in
      put_session (mkDatabase (users d) (chats d ++ [ch]) (messages d)) ;;;
      ret ch
  | None =>
      raise (SQLAlchemyError
               (lit "value too long for type character varying(200)"))
  end.

(** The UPDATE the unit of work emits for a chat object: [loaded] is the
    state the object was loaded with, [ch] its state at the flush.  Nothing
    is emitted when no assigned column changed; otherwise the row takes the
    new values and [updated_at] its [onupdate] value.  A title is written
    only when it changed, and then as its column stores it. *)
Definition update_chat (loaded ch : Chat.t) : M unit :=
  t <- utcnow ;;
  d <- get_session ;;
  if Chat.same_columns loaded ch then ret tt
  else
    match (if Text.eqb (Chat.title loaded) (Chat.title ch)
           then Some (Chat.title ch) else varchar 200 (Chat.title ch)) with
    | None =>
        raise (SQLAlchemyError
                 (lit "value too long for type character varying(200)"))
    | Some stored =>
        let upd (row : Chat.t) :=
          if N.eqb (Chat.id row) (Chat.id ch)
          then Chat.set_updated_at (Chat.set_title ch stored) t else row in
        put_session
          (mkDatabase (users d) (List.map upd (chats d)) (messages d))
    end.

(** DELETE of a chat; its messages go with it
    ([cascade="all, delete-orphan"], [ondelete="CASCADE"]). *)
Definition delete_chat_row (ch : Chat.t) : M unit :=
  d <- get_session ;;
  put_session
    (mkDatabase (users d)
       (filter (fun row => negb (N.eqb (Chat.id row) (Chat.id ch))) (chats d))
       (filter (fun m => negb (N.eqb (Message.chat_id m) (Chat.id ch)))
               (messages d))).

(** COMMIT *)
Definition db_commit : M unit :=
  fun c => (Return tt,
            mkCtx (session c) (session c) (clock c) (groq_calls c) (minted c)).

(** [db.refresh(chat)] *)
Definition refresh_chat (ch : Chat.t) : M Chat.t :=
  d <- get_session ;;
  match chat_by_id d (Chat.id ch) with
  | Some row => ret row
  | None => raise (SQLAlchemyError (lit "Could not refresh instance"))
  end.

End Handlers.

(* ------------------------------------------------------------------ *)
(** ** app/schemas *)

(** A key of a JSON request body. *)
Inductive Field (A : Type) :=
| Missing
| Null
| Given (a : A).
Arguments Missing {A}.
Arguments Null {A}.

Module ChatCreate.
Record t := Build { title : option str }.
(** [title: Optional[str] = Field(default="New Chat")] *)
Definition parse (f : Field str) : t :=
  match f with
  | Missing => Build (Some (lit "New Chat"))
  | Null => Build None
  | Given s => Build (Some s)
  end.
End ChatCreate.

Module ChatUpdate.
Record t := Build { title : str }.
(** [min_length=1, max_length=200] *)
Definition valid (u : t) : bool :=
  (1 <=? Text.len (title u)) && (Text.len (title u) <=? 200).
End ChatUpdate.

Module MessageCreate.
Record t := Build { content : str }.
(** [min_length=1] *)
Definition valid (m : t) : bool := 1 <=? Text.len (content m).
End MessageCreate.

Record ChatListResponse := mkChatListResponse {
  clr_chats : list Chat.t;
  clr_total : Z;
  clr_page : Z;
  clr_page_size : Z;
  clr_total_pages : Z
}.

Record MessageListResponse := mkMessageListResponse {
  mlr_messages : list Message.t;
  mlr_total : Z;
  mlr_page : Z;
  mlr_page_size : Z;
  mlr_total_pages : Z
}.

(** The [chat] dictionary of a [MessageSendResponse]. *)
Record ChatInfo := mkChatInfo {
  ci_id : UUID;
  ci_title : str;
  ci_message_count : Z;
  ci_title_generated : bool
}.

Record MessageSendResponse := mkMessageSendResponse {
  user_message : Message.t;
  assistant_message : Message.t;
  chat : ChatInfo
}.

(** [ChatWithMessages]: the chat and its [messages] relationship. *)
Record ChatWithMessages := mkChatWithMessages {
  cwm_chat : Chat.t;
  cwm_messages : list Message.t
}.

(* ------------------------------------------------------------------ *)
(** ** app/services/ai_service.py *)

Module AIService.
Section AIService.
Variable ext : External.

(** [l[-n:]] for a list of more than [n] items. *)
Definition last_items (A : Type) (n : nat) (l : list A) : list A :=
  skipn (List.length l - n) l.

(** The entry appended for one message of the history. *)
Definition history_entry (msg : Message.t) : ChatMessage :=
  mkChatMessage
    (if Text.eqb (role_value (Message.role msg)) (lit "user")
     then lit "user" else lit "assistant")
    (Message.content msg).

(** The [messages] list generate_response builds. *)
Definition build_messages (user_message : str)
    (chat_history : list Message.t) : list ChatMessage :=
  let messages := [mkChatMessage (lit "system") Prompts.get_system_prompt] in
  let messages :=
    match chat_history with
    | [] => messages
    | _ :: _ =>
        let recent_messages :=
          if 10 <? Z.of_nat (List.length chat_history)
          then last_items 10 chat_history else chat_history in
        messages ++ List.map history_entry recent_messages
    end in
  messages ++ [mkChatMessage (lit "user") user_message].

(** [choices[0]] *)
Definition first_choice (choices : list (option str)) : M (option str) :=
  match choices with
  | [] => raise (Exception (lit "list index out of range"))
  | c :: _ => ret c
  end.

Definition generate_response (user_message : str)
    (chat_history : list Message.t) : M str :=
  try_except
    (let messages := build_messages user_message chat_history in
     choices <- chat_completions_create ext
                  (mkGroqRequest messages (GROQ_MODEL ext) (7 # 10)%Q 2048
                                 (Some (95 # 100)%Q)) ;;
     response_text <- first_choice choices ;;
     match response_text with
     | Some ((_ :: _) as text) => ret (Text.strip text)
     | _ => raise (HTTPException HTTP_500_INTERNAL_SERVER_ERROR
                     (lit "Failed to generate AI response"))
     end)
    (fun e => raise (HTTPException HTTP_500_INTERNAL_SERVER_ERROR
                       (lit "AI service error: " ++ exn_str e))).

(** Lines 120-136 of generate_chat_title: from the stripped, non-empty
    completion text to the title returned. *)
Definition clean_title (title : str) : str :=
  let title := Text.strip_with Text.isquote title in
  let words := Text.split title in
  let title :=
    if 6 <? Z.of_nat (List.length words)
    then Text.join (lit " ") (firstn 6 words) else title in
  if 200 <? Text.len title
  then Text.prefix 197 title ++ lit "..." else title.

Definition title_messages (first_message : str) : list ChatMessage :=
  [ mkChatMessage (lit "system")
      (lit "You are a helpful assistant that creates short, concise chat titles.");
    mkChatMessage (lit "user")
      (Prompts.get_title_generation_prompt first_message) ].

Definition generate_chat_title (first_message : str) : M str :=
  try_except
    (choices <- chat_completions_create ext
                  (mkGroqRequest (title_messages first_message)
                                 (GROQ_MODEL ext) (5 # 10)%Q 20 None) ;;
     content <- first_choice choices ;;
     match content with
     | None =>
         raise (Exception (lit "'NoneType' object has no attribute 'strip'"))
     | Some content =>
         let title := Text.strip content in
         if negb (Text.truthy title) then ret (lit "New Chat")
         else ret (clean_title title)
     end)
    (fun _ => ret (lit "New Chat")).

End AIService.
End AIService.

(* ------------------------------------------------------------------ *)
(** ** app/services/auth_service.py *)

Module AuthService.

Definition get_user_by_id (user_id : UUID) : M User.t :=
  d <- get_session ;;
  match user_by_id d user_id with
  | None => raise (HTTPException HTTP_404_NOT_FOUND (lit "User not found"))
  | Some user => ret user
  end.

End AuthService.

(* ------------------------------------------------------------------ *)
(** ** app/api/deps.py *)

Module Deps.
Section Deps.
Variable ext : External.

(** [credentials] is the bearer token.  [str(user_id)] names the same
    identifier as [user_id], so the lookup is by the parsed value. *)
Definition get_current_user (credentials : str) : M User.t :=
  match decode_access_token ext credentials with
  | None =>
      raise (HTTPException HTTP_401_UNAUTHORIZED
               (lit "Could not validate credentials"))
  | Some payload =>
      match sub payload with
      | None =>
          raise (HTTPException HTTP_401_UNAUTHORIZED
                   (lit "Invalid token payload"))
      | Some user_id_str =>
          match uuid_of_str ext user_id_str with
          | None =>
              raise (HTTPException HTTP_401_UNAUTHORIZED
                       (lit "Invalid user ID in token"))
          | Some user_id => AuthService.get_user_by_id user_id
          end
      end
  end.

End Deps.
End Deps.

(* ------------------------------------------------------------------ *)
(** ** app/services/chat_service.py *)

Module ChatService.
Section ChatService.
Variable ext : External.

(** [chat_data.title or "New Chat"] *)
Definition title_or_default (title : option str) : str :=
  match title with
  | Some ((_ :: _) as s) => s
  | _ => lit "New Chat"
  end.

Definition create_chat (user : User.t) (chat_data : ChatCreate.t)
  : M Chat.t :=
  new_chat <- insert_chat ext (User.id user)
                (title_or_default (ChatCreate.title chat_data)) ;;
  db_commit ;;;
  refresh_chat new_chat.

Definition get_user_chats (user : User.t) (page page_size : Z)
  : M (list Chat.t * Z) :=
  d <- get_session ;;
  let query :=
    filter (fun c => N.eqb (Chat.user_id c) (User.id user)) (chats d) in
  let total := Z.of_nat (List.length query) in
  let offset := (page - 1) * page_size in
  let chats :=
    offset_limit offset page_size
      (order_by_ranked (fun c => - Chat.updated_at c)
         (fun c => tie_rank ext offset page_size (Chat.id c)) query) in
  ret (chats, total).

Definition get_chat_by_id (chat_id : UUID) (user : User.t) : M Chat.t :=
  d <- get_session ;;
  match chat_by_id d chat_id with
  | None =>
      raise (HTTPException HTTP_404_NOT_FOUND (lit "Chat not found"))
  | Some chat =>
      if negb (N.eqb (Chat.user_id chat) (User.id user))
      then raise (HTTPException HTTP_403_FORBIDDEN
                    (lit "Not authorized to access this chat"))
      else ret chat
  end.

Definition update_chat_title (chat_id : UUID) (user : User.t)
    (update_data : ChatUpdate.t) : M Chat.t :=
  chat <- get_chat_by_id chat_id user ;;
  let renamed := Chat.set_title chat (ChatUpdate.title update_data) in
  update_chat chat renamed ;;;
  db_commit ;;;
  refresh_chat renamed.

Definition delete_chat (chat_id : UUID) (user : User.t) : M unit :=
  chat <- get_chat_by_id chat_id user ;;
  delete_chat_row chat ;;;
  db_commit.

End ChatService.
End ChatService.

(* ------------------------------------------------------------------ *)
(** ** app/services/message_service.py *)

Module MessageService.
Section MessageService.
Variable ext : External.

Definition get_chat_messages (chat : Chat.t) (page page_size : Z)
  : M (list Message.t * Z) :=
  d <- get_session ;;
  let query :=
    filter (fun m => N.eqb (Message.chat_id m) (Chat.id chat)) (messages d) in
  let total := Z.of_nat (List.length query) in
  let offset := (page - 1) * page_size in
  let messages :=
    offset_limit offset page_size
      (order_by_ranked Message.created_at
         (fun m => tie_rank ext offset page_size (Message.id m)) query) in
  ret (messages, total).

(** [new_title and new_title != "New Chat"] *)
Definition title_accepted (new_title : str) : bool :=
  Text.truthy new_title && negb (Text.eqb new_title (lit "New Chat")).

(** The session's unit of work is written as the SQL it emits: the INSERT
    of the user message at [db.flush()], the INSERT of the assistant
    message and the UPDATE of the chat at the flush of [db.commit()].
    The chat object is shared with the calling handler, which reads it
    after the call: its refreshed state is the fourth component. *)
Definition create_message_and_respond (chat : Chat.t)
    (message_data : MessageCreate.t) : M (Message.t * Message.t * bool * Chat.t) :=
  d <- get_session ;;
  let existing_messages := messages_of d (Chat.id chat) in
  let is_first_message := Z.of_nat (List.length existing_messages) =? 0 in
  user_message <- insert_message ext (Chat.id chat) USER
                    (MessageCreate.content message_data) ;;
  ai_response_text <- AIService.generate_response ext
                        (MessageCreate.content message_data)
                        existing_messages ;;
  let counted :=
    Chat.set_message_count chat
      (Z.of_nat (List.length existing_messages) + 2) in
  r <- (if is_first_message then
          new_title <- AIService.generate_chat_title ext
                         (MessageCreate.content message_data) ;;
          if title_accepted new_title
          then ret (Chat.set_title counted new_title, true)
          else ret (counted, false)
        else ret (counted, false)) ;;
  let updated := fst r in
  let title_generated := snd r in
  assistant_message <- insert_message ext (Chat.id chat) ASSISTANT
                         ai_response_text ;;
  update_chat chat updated ;;;
  db_commit ;;;
  refreshed <- refresh_chat updated ;;
  ret (user_message, assistant_message, title_generated, refreshed).

End MessageService.
End MessageService.

(* ------------------------------------------------------------------ *)
(** ** app/api/v1/chats.py and app/api/v1/messages.py

    Each handler takes the parsed request and the user that
    get_current_user resolved. *)

Module Api.
Section Api.
Variable ext : External.

(** [math.ceil(total / page_size) if total > 0 else 0] *)
Definition total_pages (total page_size : Z) : Z :=
  if total >? 0 then Qceiling (truediv ext total page_size) else 0.

Definition create_chat (chat_data : ChatCreate.t) (current_user : User.t)
  : M Chat.t :=
  ChatService.create_chat ext current_user chat_data.

Definition get_user_chats (page page_size : Z) (current_user : User.t)
  : M ChatListResponse :=
  r <- ChatService.get_user_chats ext current_user page page_size ;;
  let chats := fst r in
  let total := snd r in
  ret (mkChatListResponse chats total page page_size
         (total_pages total page_size)).

Definition get_chat_with_messages (chat_id : UUID) (current_user : User.t)
  : M ChatWithMessages :=
  chat <- ChatService.get_chat_by_id chat_id current_user ;;
  d <- get_session ;;
  ret (mkChatWithMessages chat (messages_of d (Chat.id chat))).

Definition update_chat_title (chat_id : UUID) (update_data : ChatUpdate.t)
    (current_user : User.t) : M Chat.t :=
  ChatService.update_chat_title chat_id current_user update_data.

Definition delete_chat (chat_id : UUID) (current_user : User.t)
  : M UUID :=
  ChatService.delete_chat chat_id current_user ;;;
  ret chat_id.

Definition send_message (chat_id : UUID) (message_data : MessageCreate.t)
    (current_user : User.t) : M MessageSendResponse :=
  chat <- ChatService.get_chat_by_id chat_id current_user ;;
  r <- MessageService.create_message_and_respond ext chat message_data ;;
  let '(user_message, assistant_message, title_generated, chat) := r in
  ret (mkMessageSendResponse user_message assistant_message
         (mkChatInfo (Chat.id chat) (Chat.title chat)
                     (Chat.message_count chat) title_generated)).

Definition get_chat_messages (chat_id : UUID) (page page_size : Z)
    (current_user : User.t) : M MessageListResponse :=
  chat <- ChatService.get_chat_by_id chat_id current_user ;;
  r <- MessageService.get_chat_messages ext chat page page_size ;;
  let messages := fst r in
  let total := snd r in
  ret (mkMessageListResponse messages total page page_size
         (total_pages total page_size)).

End Api.
End Api.

(* ------------------------------------------------------------------ *)
(** ** Vocabulary of the specification *)

(** [int / int] is the binary64 value nearest to the quotient: for
    operands below 2^53 its relative error is at most 2^-53, and a
    quotient that is an integer is returned exactly. *)
Definition truediv_correctly_rounded (div : Z -> Z -> Q) : Prop :=
  forall a b : Z, 0 < a < 2 ^ 53 -> 0 < b < 2 ^ 53 ->
    (Qabs (div a b - (a # Z.to_pos b)) <= (a # Z.to_pos b) * (1 # 2 ^ 53))%Q
    /\ (forall k : Z, a = k * b -> (div a b == inject_Z k)%Q).

(** [n] is the ceiling of [total / page_size], and 0 for no items. *)
Definition is_page_count (total page_size n : Z) : Prop :=
  (total = 0 -> n = 0) /\
  (0 < total -> (n - 1) * page_size < total <= n * page_size).

(** Page numbers 1 to [n]. *)
Definition page_numbers (n : nat) : list Z := List.map Z.of_nat (seq 1 n).

(** The items of a page as a list, empty when the call raised. *)
Definition page_items (A : Type) (r : outcome (list A * Z) * Ctx) : list A :=
  match fst r with
  | Return (items, _) => items
  | Raised _ => []
  end.

(** The outcome of a handler run. *)
Definition fails_with (A : Type) (status : Z) (r : outcome A * Ctx) : Prop :=
  exists detail c', r = (Raised (HTTPException status detail), c').

Definition succeeds (A : Type) (r : outcome A * Ctx) : Prop :=
  exists a c', r = (Return a, c').

(** The request generate_response sends for a message and a history. *)
Definition reply_request (ext : External) (content : str)
    (history : list Message.t) : GroqRequest :=
  mkGroqRequest (AIService.build_messages content history) (GROQ_MODEL ext)
                (7 # 10)%Q 2048 (Some (95 # 100)%Q).

(** The request generate_chat_title sends for a first message. *)
Definition title_request (ext : External) (content : str) : GroqRequest :=
  mkGroqRequest (AIService.title_messages content) (GROQ_MODEL ext)
                (5 # 10)%Q 20 None.

(** The text generate_response accepts from a completion: the content of
    the first choice when it is a non-empty string. *)
Definition usable_text (k : Completion) : option str :=
  match k with
  | ChatCompletion (Some (x :: s) :: _) => Some (x :: s)
  | _ => None
  end.

(** The title generate_chat_title derives from a completion. *)
Definition title_of (k : Completion) : str :=
  match k with
  | ChatCompletion (Some content :: _) =>
      if Text.truthy (Text.strip content)
      then AIService.clean_title (Text.strip content)
      else lit "New Chat"
  | _ => lit "New Chat"
  end.

(** The stored messages of a chat: the rows of the table [messages] that
    carry its identifier, in table order. *)
Definition chat_rows (d : Database) (cid : UUID) : list Message.t :=
  filter (fun m => N.eqb (Message.chat_id m) cid) (messages d).

(** The stored chats of a user: the rows of the table [chats] that carry
    the user's identifier, in table order. *)
Definition user_rows (d : Database) (uid : UUID) : list Chat.t :=
  filter (fun c => N.eqb (Chat.user_id c) uid) (chats d).

(** [Chat.id] is the primary key of the table [chats]. *)
Definition chat_ids_distinct (d : Database) : Prop :=
  NoDup (List.map Chat.id (chats d)).

(** Ascending creation time, and most recent update first. *)
Definition by_creation (a b : Message.t) : Prop :=
  Message.created_at a <= Message.created_at b.

Definition by_recency (a b : Chat.t) : Prop :=
  Chat.updated_at b <= Chat.updated_at a.

(** Every stored message was created no later than the current time. *)
Definition stamps_in_past (c : Ctx) : Prop :=
  Forall (fun m => Message.created_at m <= clock c) (messages (committed c)).

(** The row mapping of a history message as the specification words it:
    role for role. *)
Definition role_for_role (m : Message.t) : ChatMessage :=
  mkChatMessage (role_value (Message.role m)) (Message.content m).

(** The subject a token names, when it decodes, carries a subject and the
    subject is a well-formed identifier. *)
Definition token_subject (ext : External) (token : str) : option UUID :=
  match decode_access_token ext token with
  | Some payload =>
      match sub payload with
      | Some s => uuid_of_str ext s
      | None => None
      end
  | None => None
  end.

(* ------------------------------------------------------------------ *)
(** ** Sample data *)

Module Sample.

Definition alice : User.t :=
  User.Build 1%N (lit "alice@example.com") None (lit "hash-a") 0 0.

Definition bob : User.t :=
  User.Build 2%N (lit "bob@example.com") None (lit "hash-b") 0 0.

(** A fresh chat of alice. *)
Definition fresh_chat : Chat.t := Chat.Build 7%N 1%N (lit "New Chat") 0 5 5.

(** A chat of alice with two messages. *)
Definition old_chat : Chat.t := Chat.Build 8%N 1%N (lit "Trade zones") 2 1 3.

Definition m1 : Message.t := Message.Build 40%N 8%N USER (lit "What is AfCFTA?") 2.
Definition m2 : Message.t :=
  Message.Build 41%N 8%N ASSISTANT (lit "A free trade area.") 3.

Definition store : Database :=
  mkDatabase [alice; bob] [old_chat; fresh_chat] [m1; m2].

Definition ctx : Ctx := mkCtx store store 10 [] 0.

Definition token_of (s : str) : option Payload :=
  if Text.eqb s (lit "token-alice") then Some (mkPayload (Some (lit "1")))
  else if Text.eqb s (lit "token-ghost") then Some (mkPayload (Some (lit "9")))
  else if Text.eqb s (lit "token-anon") then Some (mkPayload None)
  else if Text.eqb s (lit "token-odd") then Some (mkPayload (Some (lit "x")))
  else None.

Definition parse_id (s : str) : option UUID :=
  if Text.eqb s (lit "1") then Some 1%N
  else if Text.eqb s (lit "2") then Some 2%N
  else if Text.eqb s (lit "9") then Some 9%N
  else None.

(** A provider that answers the first call with [reply] and any later call
    with [title], exact division, and a database that leaves rows with
    equal sort keys in table order. *)
Definition provider (reply title : Completion) : External :=
  mkExternal
    (fun log _ => match log with [] => (4%N, reply) | _ :: _ => (3%N, title) end)
    (lit "llama-3.3-70b-versatile")
    (fun n => (100 + N.of_nat n)%N)
    token_of parse_id
    (fun a b => (a # Z.to_pos b)%Q)
    (fun _ _ _ => 0).

Definition hello : MessageCreate.t := MessageCreate.Build (lit "Hello").

Definition good_reply : Completion :=
  ChatCompletion [Some (lit " Hi there. ")].

Definition good_title : Completion :=
  ChatCompletion [Some (lit "Greeting Exchange")].

(** A title completion of seven words: a double quote, a blank, a single
    quote, six words closed by a single quote, a seventh word and a double
    quote. *)
Definition quoted_title : Completion :=
  ChatCompletion [Some ([34%N] ++ lit " 'a b c d e f' g" ++ [34%N])].








(** Three messages of one chat created at the same time, and a database
    that ranks rows with equal keys by identifier on the first page and
    against it on the later pages. *)
Definition tied (i : N) : Message.t :=
  Message.Build i 8%N USER (lit "ping") 4.

Definition tied_chat : Chat.t := Chat.Build 8%N 1%N (lit "Pings") 3 1 4.

Definition tied_ctx : Ctx :=
  let d := mkDatabase [alice] [tied_chat] [tied 50; tied 51; tied 52] in
  mkCtx d d 10 [] 0.

Definition paging : External :=
  mkExternal
    (fun _ _ => (1%N, good_reply))
    (lit "llama-3.3-70b-versatile")
    (fun n => (100 + N.of_nat n)%N)
    token_of parse_id
    (fun a b => (a # Z.to_pos b)%Q)
    (fun offset _ id => if offset =? 0 then Z.of_N id else - Z.of_N id).

End Sample.

(* ------------------------------------------------------------------ *)
(** ** Further string operations *)

Module PyStr.

(** [s.startswith(p)] *)
Fixpoint startswith (p s : str) : bool :=
  match p, s with
  | [], _ => true
  | _ :: _, [] => false
  | x :: p', y :: s' => N.eqb x y && startswith p' s'
  end.

(** [s.replace(old, new, 1)]: the leftmost occurrence is replaced. *)
Fixpoint replace_first (old new s : str) : str :=
  if startswith old s then new ++ skipn (List.length old) s
  else match s with
       | [] => []
       | c :: r => c :: replace_first old new r
       end.

(** [s.replace(c, "")] for a one-character [c]. *)
Definition remove_char (c : char) (s : str) : str :=
  filter (fun x => negb (N.eqb x c)) s.

(** [s.split(sep)] for a one-character [sep]; [cur] is the current field,
    reversed.  Empty fields are kept. *)
Fixpoint split_on (sep : char) (cur : str) (s : str) : list str :=
  match s with
  | [] => [rev cur]
  | c :: r =>
      if N.eqb c sep then rev cur :: split_on sep [] r
      else split_on sep (c :: cur) r
  end.

(** [s.isdigit()], given the digit property of one code point: all
    characters are digits and there is at least one. *)
Definition isdigit (char_isdigit : char -> bool) (s : str) : bool :=
  Text.truthy s && forallb char_isdigit s.

End PyStr.

(* ------------------------------------------------------------------ *)
(** ** app/core/config.py *)

Module Config.

(** [Settings.cors_origins_list], as a function of [CORS_ORIGINS]. *)
Definition cors_origins_list (CORS_ORIGINS : str) : list str :=
  List.map Text.strip (PyStr.split_on 44%N [] CORS_ORIGINS).

(** [get_database_url], as a function of [settings.DATABASE_URL]. *)
Definition get_database_url (DATABASE_URL : str) : str :=
  let db_url := DATABASE_URL in
  if PyStr.startswith (lit "postgres://") db_url
  then PyStr.replace_first (lit "postgres://") (lit "postgresql://") db_url
  else db_url.

End Config.

(* ------------------------------------------------------------------ *)
(** ** app/core/prompts.py: format_chat_history *)

Module History.

(** The line of one message. *)
Definition line (msg : Message.t) : str :=
  (if Text.eqb (role_value (Message.role msg)) (lit "user")
   then lit "User" else lit "NupatAI")
  ++ lit ": " ++ Message.content msg.

Definition format_chat_history (messages : list Message.t) : str :=
  match messages with
  | [] => []
  | _ :: _ =>
      let recent_messages :=
        if 10 <? Z.of_nat (List.length messages)
        then AIService.last_items 10 messages else messages in
      Text.join [10%N] (List.map line recent_messages)
  end.

End History.

(* ------------------------------------------------------------------ *)
(** ** app/schemas/auth.py *)

Module UserSignup.
Record t := Build {
  email : str;
  phone : option str;
  password : str
}.

(** The [phone] validator: [inl] carries the message of the ValueError,
    [inr] the value the validator returns. *)
Definition validate_phone (char_isdigit : char -> bool) (v : option str)
  : str + option str :=
  match v with
  | Some s =>
      if Text.truthy (Text.strip s) then
        let cleaned := PyStr.remove_char 45%N (PyStr.remove_char 32%N s) in
        if negb (PyStr.isdigit char_isdigit (PyStr.remove_char 43%N cleaned))
        then inl (lit "Phone number must contain only digits, spaces, hyphens, and optional + prefix")
        else if Text.len cleaned <? 10
        then inl (lit "Phone number must be at least 10 digits")
        else inr v
      else inr v
  | None => inr v
  end.
End UserSignup.

Module UserLogin.
Record t := Build {
  email : str;
  password : str
}.
End UserLogin.

Record LoginResponse := mkLoginResponse {
  access_token : str;
  token_type : str;
  login_user : User.t
}.

(* ------------------------------------------------------------------ *)
(** ** app/services/auth_service.py and app/api/v1/auth.py *)

(** The data create_user_token signs. *)
Record TokenClaims := mkTokenClaims {
  claim_sub : str;
  claim_email : str
}.

(** app/core/security.py and [str] of a UUID, which the repository calls
    but does not define.  The hash may depend on the random draw (the
    salt), which the counter [minted] of the context indexes; a token
    carries its expiry (settings.ACCESS_TOKEN_EXPIRE_MINUTES after its
    issue), so it depends on the time of the call. *)
Record Security := mkSecurity {
  get_password_hash : nat -> str -> str;
  (** [verify_password(plain_password, hashed_password)] *)
  verify_password : str -> str -> bool;
  (** [create_access_token(data)] called at the given time *)
  create_access_token : datetime -> TokenClaims -> str;
  (** [str(user.id)] *)
  uuid_str : UUID -> str
}.

(** [db.query(User).filter(User.email == e).first()] *)
Definition user_by_email (d : Database) (e : str) : option User.t :=
  find (fun u => Text.eqb (User.email u) e) (users d).

(** [db.query(User).filter(User.phone == p).first()] *)
Definition user_by_phone (d : Database) (p : str) : option User.t :=
  find (fun u => match User.phone u with
                 | Some q => Text.eqb q p
                 | None => false
                 end) (users d).

(** A row the table [users] takes as it is: [email] is [String(255)] and
    unique, [phone] is [String(20)] and unique among the rows that have
    one, [hashed_password] is [String(255)]. *)
Definition user_row_accepted (d : Database) (u : User.t) : bool :=
  (Text.len (User.email u) <=? 255)
  && (Text.len (User.hashed_password u) <=? 255)
  && match user_by_email d (User.email u) with
     | Some _ => false
     | None => true
     end
  && match User.phone u with
     | Some p =>
         (Text.len p <=? 20)
         && match user_by_phone d p with
            | Some _ => false
            | None => true
            end
     | None => true
     end.

Module Accounts.
Section Accounts.
Variable ext : External.
Variable sec : Security.

(** INSERT of a [User]: [id], [created_at] and [updated_at] take their
    defaults; each string is written as its column stores it, and the row
    must keep [email] and [phone] unique. *)
Definition insert_user (email : str) (phone : option str)
    (hashed_password : str) : M User.t :=
  i <- new_uuid ext ;;
  t <- utcnow ;;
  d <- get_session ;;
  let stored_phone :=
    match phone with
    | Some p => option_map Some (varchar 20 p)
    | None => Some None
    end in
  match varchar 255 email, stored_phone, varchar 255 hashed_password with
  | Some e, Some p, Some h =>
      let u := User.Build i e p h t t in
      if user_row_accepted d u then
        put_session (mkDatabase (users d ++ [u]) (chats d) (messages d)) ;;;
        ret u
      else raise (SQLAlchemyError (lit "integrity error on users"))
  | _, _, _ => raise (SQLAlchemyError (lit "data error on users"))
  end.

(** The salted hash: one random draw. *)
Definition hash_password (password : str) : M str :=
  fun c => (Return (get_password_hash sec (minted c) password),
            mkCtx (committed c) (session c) (clock c) (groq_calls c)
                  (S (minted c))).

(** [db.refresh(user)] *)
Definition refresh_user (u : User.t) : M User.t :=
  d <- get_session ;;
  match user_by_id d (User.id u) with
  | Some row => ret row
  | None => raise (SQLAlchemyError (lit "Could not refresh instance"))
  end.

Definition create_user (user_data : UserSignup.t) : M User.t :=
  d <- get_session ;;
  match user_by_email d (UserSignup.email user_data) with
  | Some _ =>
      raise (HTTPException 400 (lit "Email already registered"))
  | None =>
      phone_taken <-
        (match UserSignup.phone user_data with
         | Some ((_ :: _) as p) =>
             match user_by_phone d p with
             | Some _ => ret true
             | None => ret false
             end
         | _ => ret false
         end) ;;
      if (phone_taken : bool) then
        raise (HTTPException 400 (lit "Phone number already registered"))
      else
        hashed_password <- hash_password (UserSignup.password user_data) ;;
        new_user <- insert_user (UserSignup.email user_data)
                      (UserSignup.phone user_data) hashed_password ;;
        db_commit ;;;
        refresh_user new_user
  end.

Definition authenticate_user (login_data : UserLogin.t) : M User.t :=
  d <- get_session ;;
  match user_by_email d (UserLogin.email login_data) with
  | Some user =>
      if verify_password sec (UserLogin.password login_data)
                         (User.hashed_password user)
      then ret user
      else raise (HTTPException HTTP_401_UNAUTHORIZED
                    (lit "Incorrect email or password"))
  | None =>
      raise (HTTPException HTTP_401_UNAUTHORIZED
               (lit "Incorrect email or password"))
  end.

(** The dictionary [token_data] of create_user_token. *)
Definition token_data (user : User.t) : TokenClaims :=
  mkTokenClaims (uuid_str sec (User.id user)) (User.email user).

Definition create_user_token (user : User.t) : M str :=
  now <- utcnow ;;
  ret (create_access_token sec now (token_data user)).

(** POST /auth/signup *)
Definition signup (user_data : UserSignup.t) : M LoginResponse :=
  user <- create_user user_data ;;
  access_token <- create_user_token user ;;
  ret (mkLoginResponse access_token (lit "bearer") user).

(** POST /auth/login *)
Definition login (login_data : UserLogin.t) : M LoginResponse :=
  user <- authenticate_user login_data ;;
  access_token <- create_user_token user ;;
  ret (mkLoginResponse access_token (lit "bearer") user).

(** GET /auth/me, with its dependency. *)
Definition get_current_user_info (credentials : str) : M User.t :=
  Deps.get_current_user ext credentials.

End Accounts.
End Accounts.

(* ------------------------------------------------------------------ *)
(** ** app/services/chat_service.py: update_chat_message_count *)

Module ChatCount.

(** [chat.messages] is the relationship ordered by [created_at]. *)
Definition update_chat_message_count (chat : Chat.t) : M unit :=
  d <- get_session ;;
  let counted :=
    Chat.set_message_count chat
      (Z.of_nat (List.length (messages_of d (Chat.id chat)))) in
  update_chat chat counted ;;;
  db_commit.

End ChatCount.

(* ------------------------------------------------------------------ *)
(** ** Vocabulary of the further properties *)

(** The number of stored messages of a chat. *)
Definition stored_count (d : Database) (cid : UUID) : Z :=
  Z.of_nat (List.length
    (filter (fun m => N.eqb (Message.chat_id m) cid) (messages d))).

(** Every chat row counts its stored messages. *)
Definition counts_consistent (d : Database) : Prop :=
  Forall (fun ch => Chat.message_count ch = stored_count d (Chat.id ch))
         (chats d).

(** Every message belongs to a stored chat. *)
Definition messages_reference_chats (d : Database) : Prop :=
  Forall (fun m => exists ch, In ch (chats d)
                              /\ Chat.id ch = Message.chat_id m)
         (messages d).

Definition store_consistent (d : Database) : Prop :=
  counts_consistent d /\ messages_reference_chats d.

(** No two users share an e-mail address. *)
Definition emails_distinct (d : Database) : Prop :=
  NoDup (List.map User.email (users d)).

(** No two users share an identifier. *)
Definition user_ids_distinct (d : Database) : Prop :=
  NoDup (List.map User.id (users d)).

(** The characters validate_phone lets through besides digits: blank,
    hyphen and plus. *)
Definition phone_separator (c : char) : bool :=
  N.eqb c 32%N || N.eqb c 45%N || N.eqb c 43%N.

(** A non-blank phone number as validate_phone accepts it. *)
Definition phone_well_formed (char_isdigit : char -> bool) (s : str) : Prop :=
  Forall (fun c => phone_separator c = true \/ char_isdigit c = true) s
  /\ Exists (fun c => phone_separator c = false) s
  /\ 10 <= Text.len (PyStr.remove_char 45%N (PyStr.remove_char 32%N s)).

(** Tokens issued by create_access_token, whenever issued, decode to their
    subject, and the text of an identifier parses back to it. *)
Definition tokens_round_trip (ext : External) (sec : Security) : Prop :=
  (forall now claims,
     decode_access_token ext (create_access_token sec now claims)
     = Some (mkPayload (Some (claim_sub claims))))
  /\ (forall u, uuid_of_str ext (uuid_str sec u) = Some u).

(** A password verifies against each of its hashes. *)
Definition hashes_verify (sec : Security) : Prop :=
  forall n password,
    verify_password sec password (get_password_hash sec n password) = true.

(** The rows of [chats] after the flush of a chat object loaded as [loaded]
    and now [new]. *)
Definition flushed_rows (loaded new : Chat.t) (stamp : datetime)
    (rows : list Chat.t) : list Chat.t :=
  if Chat.same_columns loaded new then rows
  else List.map (fun row => if N.eqb (Chat.id row) (Chat.id new)
                            then Chat.set_updated_at new stamp else row) rows.

Module Sample2.

Definition ascii_digit (c : char) : bool := (48 <=? c)%N && (c <=? 57)%N.

(** A toy security module: the hash is the reversed password behind a
    salt digit, a token is the subject behind a prefix and the time of
    issue. *)
Definition security : Security :=
  mkSecurity
    (fun n p => lit "h" ++ [N.of_nat n + 48]%N ++ rev p)
    (fun p h => Text.eqb (skipn 2 h) (rev p))
    (fun now claims => lit "tok" ++ [Z.to_N now] ++ lit ":" ++ claim_sub claims)
    (fun u => [u + 48]%N).

Definition world : External :=
  mkExternal
    (fun _ _ => (1%N, Sample.good_reply))
    (lit "llama-3.3-70b-versatile")
    (fun n => (100 + N.of_nat n)%N)
    (fun t => if PyStr.startswith (lit "tok") t
                 && PyStr.startswith (lit ":") (skipn 4 t)
              then Some (mkPayload (Some (skipn 5 t))) else None)
    (fun s => match s with [d] => Some (d - 48)%N | _ => None end)
    (fun a b => (a # Z.to_pos b)%Q)
    (fun _ _ _ => 0).

Definition carol : UserSignup.t :=
  UserSignup.Build (lit "carol@example.com") (Some (lit "+234 801 234 5678"))
                   (lit "correct horse").

(** A store that keeps its counts: the chats of [Sample.store] with the
    fresh chat counted 0 and the old chat counted 2. *)
Definition store : Database := Sample.store.

End Sample2.

(* ------------------------------------------------------------------ *)
(** * Properties *)

(** ** Strings *)

Lemma text_eqb_spec (a b : str) : reflect (a = b) (Text.eqb a b).
Proof.
  revert b; induction a as [|x a IH]; intros [|y b]; simpl;
    try (constructor; congruence).
  destruct (N.eqb_spec x y) as [->|Hxy]; simpl.
  - destruct (IH b) as [->|Hab]; constructor; congruence.
  - constructor; congruence.
Qed.

Lemma text_eqb_refl (a : str) : Text.eqb a a = true.
Proof. destruct (text_eqb_spec a a); congruence. Qed.

Lemma lstrip_with_head (p : char -> bool) (s : str) :
  match Text.lstrip_with p s with
  | [] => True
  | c :: _ => p c = false
  end.
Proof.
  induction s as [|c r IH]; simpl; [exact I|].
  destruct (p c) eqn:E; [exact IH | exact E].
Qed.

Lemma lstrip_with_length (p : char -> bool) (s : str) :
  (List.length (Text.lstrip_with p s) <= List.length s)%nat.
Proof.
  induction s as [|c r IH]; simpl; [lia|].
  destruct (p c); simpl; lia.
Qed.

(** After [s.strip(chars)] neither end of the string is in [chars]. *)
Lemma strip_with_ends (p : char -> bool) (s : str) :
  match Text.strip_with p s with
  | [] => True
  | c :: _ => p c = false
  end /\
  match rev (Text.strip_with p s) with
  | [] => True
  | c :: _ => p c = false
  end.
Proof.
  unfold Text.strip_with, Text.rstrip_with.
  set (t := Text.lstrip_with p s).
  assert (Ht : match t with [] => True | c :: _ => p c = false end)
    by apply lstrip_with_head.
  split.
  - (* the first character survives the right strip *)
    destruct t as [|c r]; [exact I|].
    simpl rev at 2.
    assert (Hs : forall u, Text.lstrip_with p (u ++ [c]) <> [] /\
                           rev (Text.lstrip_with p (u ++ [c]))
                           = c :: tl (rev (Text.lstrip_with p (u ++ [c])))).
    { induction u as [|x u IH]; simpl.
      - rewrite Ht. simpl. split; [discriminate | reflexivity].
      - destruct (p x); [exact IH|].
        split; [discriminate|].
        simpl. rewrite rev_app_distr. reflexivity. }
    destruct (Hs (rev r)) as [_ ->]. exact Ht.
  - rewrite rev_involutive. apply lstrip_with_head.
Qed.

Lemma clean_title_fits (t : str) : title_fits (AIService.clean_title t) = true.
Proof.
  unfold title_fits, AIService.clean_title, Text.len, Text.prefix.
  match goal with |- context [if 200 <? ?n then _ else _] =>
    destruct (Z.ltb_spec 200 n) as [Hlong|Hshort] end.
  - rewrite length_app, firstn_length_le by lia.
    apply Z.leb_le. vm_compute. discriminate.
  - apply Z.leb_le. exact Hshort.
Qed.

(** ** Ordered queries *)

Section OrderByFacts.
Variable A : Type.
Variable key : A -> Z.

Lemma insert_by_perm (x : A) (l : list A) :
  Permutation (x :: l) (insert_by key x l).
Proof.
  induction l as [|y r IH]; simpl; [reflexivity|].
  destruct (key x <=? key y); [reflexivity|].
  rewrite perm_swap. constructor. exact IH.
Qed.

Lemma order_by_perm (l : list A) : Permutation l (order_by key l).
Proof.
  induction l as [|x l IH]; simpl; [constructor|].
  rewrite <- insert_by_perm. constructor. exact IH.
Qed.

Lemma order_by_length (l : list A) :
  List.length (order_by key l) = List.length l.
Proof. symmetry. apply Permutation_length, order_by_perm. Qed.

Lemma order_by_In (x : A) (l : list A) : In x (order_by key l) <-> In x l.
Proof.
  split; apply Permutation_in;
    [symmetry|]; apply order_by_perm.
Qed.

Definition ascending (a b : A) : Prop := key a <= key b.

Lemma insert_by_sorted (x : A) (l : list A) :
  StronglySorted ascending l -> StronglySorted ascending (insert_by key x l).
Proof.
  induction 1 as [|y r Hr IH Hy]; simpl.
  - constructor; constructor.
  - destruct (Z.leb_spec (key x) (key y)) as [Hle|Hgt].
    + constructor; [constructor; assumption|].
      constructor; [exact Hle|].
      eapply Forall_impl; [|exact Hy].
      unfold ascending; intros; lia.
    + constructor; [exact IH|].
      apply (Permutation_Forall (insert_by_perm x r)).
      constructor; [unfold ascending; lia | exact Hy].
Qed.

Lemma order_by_sorted (l : list A) : StronglySorted ascending (order_by key l).
Proof.
  induction l as [|x l IH]; simpl; [constructor|].
  apply insert_by_sorted, IH.
Qed.

(** A row whose key is not below any key of the table sorts last. *)
Lemma insert_by_snoc (x y : A) (l : list A) :
  key x <= key y ->
  insert_by key x (l ++ [y]) = insert_by key x l ++ [y].
Proof.
  intros Hxy. induction l as [|z r IH]; simpl.
  - destruct (Z.leb_spec (key x) (key y)); [reflexivity | lia].
  - destruct (key x <=? key z); [reflexivity|].
    rewrite IH. reflexivity.
Qed.

Lemma order_by_snoc (y : A) (l : list A) :
  Forall (fun x => key x <= key y) l ->
  order_by key (l ++ [y]) = order_by key l ++ [y].
Proof.
  induction 1 as [|x r Hx Hr IH]; simpl; [reflexivity|].
  rewrite IH. apply insert_by_snoc, Hx.
Qed.

End OrderByFacts.

(** ** Pages *)

Lemma firstn_plus (A : Type) (a b : nat) (l : list A) :
  firstn (a + b) l = firstn a l ++ firstn b (skipn a l).
Proof.
  revert l; induction a as [|a IH]; intros l; simpl; [reflexivity|].
  destruct l as [|x l]; simpl.
  - rewrite firstn_nil. reflexivity.
  - rewrite IH. reflexivity.
Qed.

(** The first [n] windows of width [k] make up the first [n * k] items. *)
Lemma concat_windows (A : Type) (k n : nat) (l : list A) :
  List.concat (List.map (fun i => firstn k (skipn (i * k) l)) (seq 0 n))
  = firstn (n * k) l.
Proof.
  induction n as [|n IH]; [reflexivity|].
  rewrite seq_S, map_app, concat_app, IH. simpl.
  rewrite app_nil_r, (Nat.add_comm k), firstn_plus. reflexivity.
Qed.

Lemma nth_error_window (A : Type) (k o i : nat) (l : list A) :
  (i < k)%nat ->
  nth_error (firstn k (skipn o l)) i = nth_error l (o + i).
Proof.
  intros Hi. rewrite nth_error_firstn.
  destruct (Nat.ltb_spec i k); [|lia].
  apply nth_error_skipn.
Qed.

(** A title of at most six words and 200 characters is the quote-stripped
    text itself, and then neither of its ends is a quote character. *)
Lemma clean_title_short (t : str) :
  (List.length (Text.split (Text.strip_with Text.isquote t)) <= 6)%nat ->
  Text.len (Text.strip_with Text.isquote t) <= 200 ->
  AIService.clean_title t = Text.strip_with Text.isquote t
  /\ match AIService.clean_title t with
     | [] => True
     | ch :: _ => Text.isquote ch = false
     end
  /\ match rev (AIService.clean_title t) with
     | [] => True
     | ch :: _ => Text.isquote ch = false
     end.
Proof.
  intros Hwords Hlen.
  assert (E : AIService.clean_title t = Text.strip_with Text.isquote t).
  { unfold AIService.clean_title.
    destruct (Z.ltb_spec 6 (Z.of_nat (List.length
                (Text.split (Text.strip_with Text.isquote t)))));
      [lia|].
    destruct (Z.ltb_spec 200 (Text.len (Text.strip_with Text.isquote t)));
      [lia | reflexivity]. }
  rewrite E. split; [reflexivity|]. apply strip_with_ends.
Qed.

Lemma stamps_in_past_empty (c : Ctx) :
  messages (committed c) = [] -> stamps_in_past c.
Proof. unfold stamps_in_past. intros ->. constructor. Qed.

(** ** Page counts *)

Lemma quotient_above (a b k r : Z) :
  0 < b <= 100 -> a = b * k + r -> 1 <= r ->
  (inject_Z k + (1 # 100) <= (a # Z.to_pos b))%Q.
Proof.
  intros Hb Ha Hr. destruct b as [|p|p]; try lia.
  unfold Qle, Qplus, inject_Z. cbn [Qnum Qden Z.to_pos]. nia.
Qed.

Lemma quotient_below (a b k r : Z) :
  0 < b <= 100 -> a = b * k + r -> r <= b - 1 ->
  ((a # Z.to_pos b) <= inject_Z (k + 1) - (1 # 100))%Q.
Proof.
  intros Hb Ha Hr. destruct b as [|p|p]; try lia.
  unfold Qle, Qminus, Qplus, Qopp, inject_Z. cbn [Qnum Qden Z.to_pos]. nia.
Qed.

Lemma quotient_small (a b : Z) :
  0 < b -> 0 < a < 2 ^ 46 ->
  (0 <= (a # Z.to_pos b) <= inject_Z (2 ^ 46))%Q.
Proof.
  intros Hb Ha. destruct b as [|p|p]; try lia.
  unfold Qle, inject_Z. cbn [Qnum Qden Z.to_pos].
  change (2 ^ 46) with 70368744177664 in *. split; nia.
Qed.

Lemma Qceiling_between (x : Q) (n : Z) :
  (inject_Z (n - 1) < x)%Q -> (x <= inject_Z n)%Q -> Qceiling x = n.
Proof.
  intros Hlo Hhi.
  pose proof (Qle_ceiling x) as H1.
  pose proof (Qceiling_lt x) as H2.
  assert (Ha : (inject_Z (n - 1) < inject_Z (Qceiling x))%Q)
    by (eapply Qlt_le_trans; eassumption).
  assert (Hb : (inject_Z (Qceiling x - 1) < inject_Z n)%Q)
    by (eapply Qlt_le_trans; eassumption).
  rewrite <- Zlt_Qlt in Ha, Hb. lia.
Qed.

Lemma total_pages_is_page_count (ext : External) (total page_size : Z) :
  truediv_correctly_rounded (truediv ext) ->
  0 <= total < 2 ^ 46 -> 1 <= page_size <= 100 ->
  is_page_count total page_size (Api.total_pages ext total page_size).
Proof.
  intros Hdiv Ht Hp. unfold is_page_count, Api.total_pages.
  destruct (Z.gtb_spec total 0) as [Hpos|Hzero].
  2:{ split; [reflexivity | lia]. }
  split; [lia | intros _].
  destruct (Hdiv total page_size) as [Herr Hexact];
    [ split; [lia|]; eapply Z.lt_trans; [apply Ht|]; reflexivity
    | split; [lia|]; eapply Z.le_lt_trans; [apply Hp|]; reflexivity |].
  pose proof (Z.div_mod total page_size ltac:(lia)) as Hdm.
  pose proof (Z.mod_pos_bound total page_size ltac:(lia)) as Hr.
  set (k := total / page_size) in *.
  set (r := total mod page_size) in *.
  destruct (Z.eq_dec r 0) as [Hr0|Hrpos].
  - (* the quotient is an integer and is exact *)
    assert (Hk : total = k * page_size) by lia.
    rewrite (Qceiling_comp _ _ (Hexact k Hk)), Qceiling_Z. nia.
  - (* the quotient is at least 1/100 away from every integer *)
    pose proof (@quotient_above total page_size k r ltac:(lia) Hdm ltac:(lia))
      as Hlo.
    pose proof (@quotient_below total page_size k r ltac:(lia) Hdm ltac:(lia))
      as Hhi.
    pose proof (@quotient_small total page_size ltac:(lia) ltac:(lia))
      as [Hq0 Hq1].
    apply Qabs_Qle_condition in Herr. destruct Herr as [He1 He2].
    set (q := (total # Z.to_pos page_size)%Q) in *.
    set (f := truediv ext total page_size) in *.
    assert (Hz : (inject_Z (2 ^ 46) == 70368744177664)%Q) by reflexivity.
    rewrite Hz in Hq1.
    change (1 # 2 ^ 53)%Q with (1 # 9007199254740992)%Q in He1, He2.
    assert (Hc : Qceiling f = k + 1).
    { apply Qceiling_between.
      - replace (k + 1 - 1) with k by lia.
        clearbody q f. lra.
      - clearbody q f. lra. }
    rewrite Hc. nia.
Qed.

(** ** Running the services *)

Lemma generate_response_usable (ext : External) (content : str)
    (history : list Message.t) (c : Ctx) (t : str) :
  usable_text (snd (groq ext (groq_calls c)
                         (reply_request ext content history))) = Some t ->
  AIService.generate_response ext content history c
  = (Return (Text.strip t),
     mkCtx (committed c) (session c)
       (clock c + Z.of_N (fst (groq ext (groq_calls c)
                                  (reply_request ext content history))))
       (groq_calls c ++ [reply_request ext content history]) (minted c)).
Proof.
  unfold AIService.generate_response, try_except, bind,
    chat_completions_create.
  fold (reply_request ext content history).
  destruct (groq ext (groq_calls c) (reply_request ext content history))
    as [lat k]; simpl.
  destruct k as [e|[|[[|x s]|] rest]]; simpl; try discriminate.
  intros H; inversion H; subst; reflexivity.
Qed.

Lemma generate_response_unusable (ext : External) (content : str)
    (history : list Message.t) (c : Ctx) :
  usable_text (snd (groq ext (groq_calls c)
                         (reply_request ext content history))) = None ->
  exists detail,
    AIService.generate_response ext content history c
    = (Raised (HTTPException HTTP_500_INTERNAL_SERVER_ERROR detail),
       mkCtx (committed c) (session c)
         (clock c + Z.of_N (fst (groq ext (groq_calls c)
                                    (reply_request ext content history))))
         (groq_calls c ++ [reply_request ext content history]) (minted c)).
Proof.
  unfold AIService.generate_response, try_except, bind,
    chat_completions_create.
  fold (reply_request ext content history).
  destruct (groq ext (groq_calls c) (reply_request ext content history))
    as [lat k]; simpl.
  destruct k as [e|[|[[|x s]|] rest]]; simpl; try discriminate;
    intros _; eexists; reflexivity.
Qed.

Lemma generate_chat_title_run (ext : External) (content : str) (c : Ctx) :
  AIService.generate_chat_title ext content c
  = (Return (title_of (snd (groq ext (groq_calls c)
                                 (title_request ext content)))),
     mkCtx (committed c) (session c)
       (clock c + Z.of_N (fst (groq ext (groq_calls c)
                                  (title_request ext content))))
       (groq_calls c ++ [title_request ext content]) (minted c)).
Proof.
  unfold AIService.generate_chat_title, try_except, bind,
    chat_completions_create.
  fold (title_request ext content).
  destruct (groq ext (groq_calls c) (title_request ext content))
    as [lat k]; simpl.
  destruct k as [e|[|[content'|] rest]]; simpl; try reflexivity.
  destruct (Text.truthy (Text.strip content')); reflexivity.
Qed.

Lemma get_chat_by_id_run (chat_id : UUID) (user : User.t) (c : Ctx) :
  ChatService.get_chat_by_id chat_id user c
  = match chat_by_id (session c) chat_id with
    | None =>
        (Raised (HTTPException HTTP_404_NOT_FOUND (lit "Chat not found")), c)
    | Some ch =>
        if N.eqb (Chat.user_id ch) (User.id user)
        then (Return ch, c)
        else (Raised (HTTPException HTTP_403_FORBIDDEN
                        (lit "Not authorized to access this chat")), c)
    end.
Proof.
  unfold ChatService.get_chat_by_id, bind, get_session.
  destruct (chat_by_id (session c) chat_id) as [ch|]; [|reflexivity].
  destruct (N.eqb (Chat.user_id ch) (User.id user)); reflexivity.
Qed.

Lemma chat_by_id_id (d : Database) (cid : UUID) (ch : Chat.t) :
  chat_by_id d cid = Some ch -> Chat.id ch = cid.
Proof.
  unfold chat_by_id. intros H. apply find_some in H.
  destruct H as [_ H]. apply N.eqb_eq, H.
Qed.

(** The row a lookup finds once the row of [ch] was rewritten. *)
Lemma find_after_update (rows : list Chat.t) (ch new : Chat.t) :
  find (fun r => N.eqb (Chat.id r) (Chat.id ch)) rows = Some ch ->
  Chat.id new = Chat.id ch ->
  find (fun r => N.eqb (Chat.id r) (Chat.id ch))
       (List.map (fun row => if N.eqb (Chat.id row) (Chat.id new)
                             then new else row) rows)
  = Some new.
Proof.
  intros Hfind Hid. rewrite Hid.
  induction rows as [|y rows IH]; simpl in *; [discriminate|].
  destruct (N.eqb (Chat.id y) (Chat.id ch)) eqn:E.
  - rewrite Hid, N.eqb_refl. reflexivity.
  - rewrite E. apply IH, Hfind.
Qed.

Lemma same_columns_eq (a b : Chat.t) :
  Chat.same_columns a b = true ->
  Chat.title a = Chat.title b /\ Chat.message_count a = Chat.message_count b.
Proof.
  unfold Chat.same_columns. intros H. apply andb_true_iff in H.
  destruct H as [Ht Hn]. split.
  - destruct (text_eqb_spec (Chat.title a) (Chat.title b)); congruence.
  - apply Z.eqb_eq, Hn.
Qed.

Lemma varchar_fits (n : nat) (s : str) :
  Text.len s <= Z.of_nat n -> varchar n s = Some s.
Proof.
  intros H. unfold varchar. apply Z.leb_le in H. rewrite H. reflexivity.
Qed.

Lemma varchar_title (s : str) : title_fits s = true -> varchar 200 s = Some s.
Proof.
  unfold title_fits. intros H. apply varchar_fits. apply Z.leb_le in H.
  exact H.
Qed.

Lemma set_title_same (ch : Chat.t) : Chat.set_title ch (Chat.title ch) = ch.
Proof. destruct ch; reflexivity. Qed.

(** The title the UPDATE of a chat writes when the title is unchanged or
    fits its column. *)
Lemma update_chat_title_kept (loaded new : Chat.t) :
  Chat.title new = Chat.title loaded \/ title_fits (Chat.title new) = true ->
  (if Text.eqb (Chat.title loaded) (Chat.title new)
   then Some (Chat.title new) else varchar 200 (Chat.title new))
  = Some (Chat.title new).
Proof.
  intros [Heq|Hfit].
  - rewrite Heq, text_eqb_refl. reflexivity.
  - rewrite (varchar_title _ Hfit).
    destruct (Text.eqb (Chat.title loaded) (Chat.title new)); reflexivity.
Qed.

(** The UPDATE of a chat whose new title, if any, fits: the lookup then
    finds a row with the new columns. *)
Lemma update_chat_run (loaded new : Chat.t) (c : Ctx) :
  chat_by_id (session c) (Chat.id loaded) = Some loaded ->
  Chat.id new = Chat.id loaded ->
  Chat.user_id new = Chat.user_id loaded ->
  Chat.title new = Chat.title loaded \/ title_fits (Chat.title new) = true ->
  exists d row,
    update_chat loaded new c
    = (Return tt, mkCtx (committed c) d (clock c) (groq_calls c) (minted c))
    /\ users d = users (session c)
    /\ messages d = messages (session c)
    /\ chat_by_id d (Chat.id loaded) = Some row
    /\ Chat.id row = Chat.id loaded
    /\ Chat.user_id row = Chat.user_id loaded
    /\ Chat.title row = Chat.title new
    /\ Chat.message_count row = Chat.message_count new.
Proof.
  intros Hfind Hid Huid Hfit.
  unfold update_chat, bind, utcnow, get_session, put_session, ret.
  destruct (Chat.same_columns loaded new) eqn:Hsame.
  - apply same_columns_eq in Hsame. destruct Hsame as [Ht Hn].
    exists (session c), loaded. destruct c; simpl in *.
    repeat split; auto.
  - rewrite (update_chat_title_kept _ _ Hfit), set_title_same.
    eexists. exists (Chat.set_updated_at new (clock c)).
    split; [reflexivity|]. simpl.
    repeat split; auto.
    unfold chat_by_id in *. simpl.
    assert (Hs : Chat.id (Chat.set_updated_at new (clock c)) = Chat.id loaded)
      by exact Hid.
    pose proof (@find_after_update (chats (session c)) loaded _ Hfind Hs) as Hf.
    simpl in Hf. exact Hf.
Qed.

Lemma title_of_accepted_fits (k : Completion) :
  MessageService.title_accepted (title_of k) = true ->
  title_fits (title_of k) = true.
Proof.
  unfold MessageService.title_accepted. intros H.
  apply andb_true_iff in H. destruct H as [_ H].
  assert (Hd : title_of k <> lit "New Chat").
  { intros E. rewrite E, text_eqb_refl in H. discriminate. }
  unfold title_of in *.
  destruct k as [e|[|[content|] rest]]; try congruence.
  destruct (Text.truthy (Text.strip content)); try congruence.
  apply clean_title_fits.
Qed.

(** Symbolic execution of a handler, one bind at a time. *)

Lemma bind_Return (A B : Type) (m : M A) (k : A -> M B) (c c' : Ctx) (a : A) :
  m c = (Return a, c') -> bind m k c = k a c'.
Proof. intros H. unfold bind. rewrite H. reflexivity. Qed.

Lemma bind_Raised (A B : Type) (m : M A) (k : A -> M B) (c c' : Ctx)
    (e : Exn) :
  m c = (Raised e, c') -> bind m k c = (Raised e, c').
Proof. intros H. unfold bind. rewrite H. reflexivity. Qed.

Lemma get_session_run (c : Ctx) : get_session c = (Return (session c), c).
Proof. reflexivity. Qed.

Lemma insert_message_run (ext : External) (cid : UUID) (role : MessageRole)
    (content : str) (c : Ctx) :
  insert_message ext cid role content c
  = (Return (Message.Build (uuid4 ext (minted c)) cid role content (clock c)),
     mkCtx (committed c)
       (mkDatabase (users (session c)) (chats (session c))
          (messages (session c)
             ++ [Message.Build (uuid4 ext (minted c)) cid role content
                               (clock c)]))
       (clock c) (groq_calls c) (S (minted c))).
Proof. reflexivity. Qed.

Ltac run_with lem :=
  erewrite bind_Return by (apply lem);
  cbv beta zeta;
  cbn [committed session clock groq_calls minted users chats messages].

(** A send whose reply is usable, step by step. *)
Lemma create_message_and_respond_run (ext : External) (c : Ctx)
    (ch : Chat.t) (content t : str) :
  let prior := messages_of (session c) (Chat.id ch) in
  let rq1 := reply_request ext content prior in
  let first := Z.of_nat (List.length prior) =? 0 in
  let rq2 := title_request ext content in
  let k2 := groq ext (groq_calls c ++ [rq1]) rq2 in
  let new_title := title_of (snd k2) in
  let gen := first && MessageService.title_accepted new_title in
  let t1 := clock c + Z.of_N (fst (groq ext (groq_calls c) rq1)) in
  let t2 := if first then t1 + Z.of_N (fst k2) else t1 in
  let u := Message.Build (uuid4 ext (minted c)) (Chat.id ch) USER content
                         (clock c) in
  let a := Message.Build (uuid4 ext (S (minted c))) (Chat.id ch) ASSISTANT
                         (Text.strip t) t2 in
  chat_by_id (session c) (Chat.id ch) = Some ch ->
  usable_text (snd (groq ext (groq_calls c) rq1)) = Some t ->
  exists row c',
    MessageService.create_message_and_respond ext ch
      (MessageCreate.Build content) c = (Return (u, a, gen, row), c')
    /\ session c' = committed c'
    /\ users (committed c') = users (session c)
    /\ messages (committed c') = messages (session c) ++ [u; a]
    /\ chat_by_id (committed c') (Chat.id ch) = Some row
    /\ Chat.id row = Chat.id ch
    /\ Chat.user_id row = Chat.user_id ch
    /\ Chat.message_count row = Z.of_nat (List.length prior) + 2
    /\ Chat.title row = (if gen then new_title else Chat.title ch)
    /\ groq_calls c' = groq_calls c ++ rq1 :: (if first then [rq2] else [])
    /\ clock c' = t2.
Proof.
  cbv zeta. intros Hfind Hus.
  unfold MessageService.create_message_and_respond.
  run_with get_session_run.
  run_with insert_message_run.
  erewrite bind_Return by (apply generate_response_usable; exact Hus).
  cbv beta zeta.
  cbn [committed session clock groq_calls minted users chats messages
       MessageCreate.content].
  unfold bind, insert_message, new_uuid, utcnow, get_session, put_session,
    ret.
  unfold bind.
  cbn [committed session clock groq_calls minted users chats messages].
  set (prior := messages_of (session c) (Chat.id ch)) in *.
  set (rq1 := reply_request ext content prior) in *.
  set (rq2 := title_request ext content).
  set (counted := Chat.set_message_count ch (Z.of_nat (List.length prior) + 2)).
  assert (Hfinish : forall updated cc gen,
    Chat.id updated = Chat.id ch ->
    Chat.user_id updated = Chat.user_id ch ->
    Chat.title updated = Chat.title ch
      \/ title_fits (Chat.title updated) = true ->
    chat_by_id (session cc) (Chat.id ch) = Some ch ->
    forall u a,
    exists row c',
      (let (o, c') := update_chat ch updated cc in
       match o with
       | Return _ =>
           let (o0, c'0) := db_commit c' in
           match o0 with
           | Return _ =>
               let (o1, c'1) := refresh_chat updated c'0 in
               match o1 with
               | Return a2 => (Return (u : Message.t, a : Message.t,
                                       gen : bool, a2), c'1)
               | Raised e => (Raised e, c'1)
               end
           | Raised e => (Raised e, c'0)
           end
       | Raised e => (Raised e, c')
       end) = (Return (u, a, gen, row), c')
      /\ session c' = committed c'
      /\ users (committed c') = users (session cc)
      /\ messages (committed c') = messages (session cc)
      /\ chat_by_id (committed c') (Chat.id ch) = Some row
      /\ Chat.id row = Chat.id ch
      /\ Chat.user_id row = Chat.user_id ch
      /\ Chat.message_count row = Chat.message_count updated
      /\ Chat.title row = Chat.title updated
      /\ groq_calls c' = groq_calls cc
      /\ clock c' = clock cc).
  { intros updated cc gen Hid Huid Hfit Hf u a.
    destruct (@update_chat_run ch updated cc Hf Hid Huid Hfit)
      as (d3 & row & Hrun & Hu & Hm & Hrow & Hrid & Hruid & Hrt & Hrn).
    rewrite Hrun.
    unfold db_commit, refresh_chat, bind, get_session, ret.
    cbn [committed session clock groq_calls minted].
    rewrite Hid, Hrow.
    eexists; eexists; split; [reflexivity|].
    cbn [committed session clock groq_calls minted].
    repeat split; auto. }
  destruct (Z.of_nat (List.length prior) =? 0) eqn:Hfirst.
  - rewrite generate_chat_title_run.
    cbn [committed session clock groq_calls minted andb].
    fold rq2.
    set (k2 := groq ext (groq_calls c ++ [rq1]) rq2).
    destruct (MessageService.title_accepted (title_of (snd k2))) eqn:Hacc;
      cbn [fst snd Chat.id Chat.set_title Chat.set_message_count].
    + match goal with
      | |- context [update_chat ch ?upd ?cc] =>
          destruct (Hfinish upd cc true eq_refl eq_refl
                      (or_intror (title_of_accepted_fits _ Hacc)) Hfind)
            with (u := Message.Build (uuid4 ext (minted c)) (Chat.id ch)
                         USER content (clock c))
                 (a := Message.Build (uuid4 ext (S (minted c))) (Chat.id ch)
                         ASSISTANT (Text.strip t) (clock cc))
            as (row & c' & Hrun & H1 & H2 & H3 & H4 & H5 & H6 & H7 & H8 & H9 & H10)
      end.
      exists row, c'. split; [exact Hrun|].
      cbn [committed session clock groq_calls minted users messages
           Chat.title Chat.message_count Chat.set_title] in *.
      rewrite <- !app_assoc in *. cbn [app] in *.
      repeat split; auto.
    + match goal with
      | |- context [update_chat ch ?upd ?cc] =>
          destruct (Hfinish upd cc false eq_refl eq_refl
                      (or_introl eq_refl) Hfind)
            with (u := Message.Build (uuid4 ext (minted c)) (Chat.id ch)
                         USER content (clock c))
                 (a := Message.Build (uuid4 ext (S (minted c))) (Chat.id ch)
                         ASSISTANT (Text.strip t) (clock cc))
            as (row & c' & Hrun & H1 & H2 & H3 & H4 & H5 & H6 & H7 & H8 & H9 & H10)
      end.
      exists row, c'. split; [exact Hrun|].
      cbn [committed session clock groq_calls minted users messages
           Chat.title Chat.message_count Chat.set_message_count] in *.
      rewrite <- !app_assoc in *. cbn [app] in *.
      repeat split; auto.
  - cbn [fst snd andb Chat.id Chat.set_message_count].
    match goal with
    | |- context [update_chat ch ?upd ?cc] =>
        destruct (Hfinish upd cc false eq_refl eq_refl
                    (or_introl eq_refl) Hfind)
          with (u := Message.Build (uuid4 ext (minted c)) (Chat.id ch)
                       USER content (clock c))
               (a := Message.Build (uuid4 ext (S (minted c))) (Chat.id ch)
                       ASSISTANT (Text.strip t) (clock cc))
          as (row & c' & Hrun & H1 & H2 & H3 & H4 & H5 & H6 & H7 & H8 & H9 & H10)
    end.
    exists row, c'. split; [exact Hrun|].
    cbn [committed session clock groq_calls minted users messages
         Chat.title Chat.message_count Chat.set_message_count] in *.
    rewrite <- !app_assoc in *. cbn [app] in *.
    repeat split; auto.
Qed.

(** A send whose reply is not usable: a 500, with the user message only
    in the open transaction. *)
Lemma create_message_and_respond_fails (ext : External) (c : Ctx)
    (ch : Chat.t) (content : str) :
  let prior := messages_of (session c) (Chat.id ch) in
  let rq1 := reply_request ext content prior in
  usable_text (snd (groq ext (groq_calls c) rq1)) = None ->
  exists detail c',
    MessageService.create_message_and_respond ext ch
      (MessageCreate.Build content) c
    = (Raised (HTTPException HTTP_500_INTERNAL_SERVER_ERROR detail), c')
    /\ committed c' = committed c
    /\ messages (session c')
       = messages (session c)
         ++ [Message.Build (uuid4 ext (minted c)) (Chat.id ch) USER content
                           (clock c)]
    /\ groq_calls c' = groq_calls c ++ [rq1].
Proof.
  cbv zeta. intros Hus.
  unfold MessageService.create_message_and_respond.
  run_with get_session_run.
  run_with insert_message_run.
  cbn [MessageCreate.content].
  match goal with
  | |- context [bind (AIService.generate_response ext content ?h) _ ?cc] =>
      destruct (@generate_response_unusable ext content h cc Hus)
        as [detail Hrun]
  end.
  erewrite bind_Raised by exact Hrun.
  eexists; eexists; split; [reflexivity|].
  cbn [committed session clock groq_calls minted users chats messages].
  repeat split; reflexivity.
Qed.

Lemma filter_snoc_keep (A : Type) (p : A -> bool) (l : list A) (x : A) :
  p x = true -> filter p (l ++ [x]) = filter p l ++ [x].
Proof. intros H. rewrite filter_app. simpl. rewrite H. reflexivity. Qed.

(** Two messages of a chat stamped no earlier than every stored message
    come last, in the order of their stamps. *)
Lemma messages_of_append (d d' : Database) (cid : UUID) (u a : Message.t)
    (now : datetime) :
  messages d' = messages d ++ [u; a] ->
  Forall (fun m => Message.created_at m <= now) (messages d) ->
  Message.chat_id u = cid -> Message.chat_id a = cid ->
  now <= Message.created_at u ->
  Message.created_at u <= Message.created_at a ->
  messages_of d' cid = messages_of d cid ++ [u; a].
Proof.
  intros Hd Hpast Hu Ha Hnow Hua. unfold messages_of. rewrite Hd.
  change [u; a] with ([u] ++ [a]).
  rewrite !app_assoc.
  rewrite (filter_snoc_keep _ _ a) by (rewrite Ha; apply N.eqb_refl).
  rewrite (filter_snoc_keep _ _ u) by (rewrite Hu; apply N.eqb_refl).
  assert (Hf : Forall (fun m => Message.created_at m <= Message.created_at u)
                 (filter (fun m => N.eqb (Message.chat_id m) cid)
                         (messages d))).
  { apply Forall_forall. intros m Hm. apply filter_In in Hm.
    destruct Hm as [Hm _].
    rewrite Forall_forall in Hpast. specialize (Hpast m Hm). lia. }
  rewrite order_by_snoc.
  - rewrite order_by_snoc by exact Hf. reflexivity.
  - apply Forall_app. split.
    + eapply Forall_impl; [|exact Hf]. simpl. intros; lia.
    + constructor; [exact Hua | constructor].
Qed.

(** ** The send_message handler *)

Lemma request_run (A : Type) (wait : N) (h : M A) (c : Ctx) :
  request wait h c
  = (fst (h (begin_request wait c)),
     close_session (snd (h (begin_request wait c)))).
Proof. unfold request. destruct (h (begin_request wait c)); reflexivity. Qed.

(** What a send does when the chat is the caller's and the reply usable. *)
Lemma send_message_ok (ext : External) (wait : N) (c : Ctx) (chat_id : UUID)
    (content : str) (user : User.t) (ch : Chat.t) (t : str) :
  let prior := messages_of (committed c) chat_id in
  let rq1 := reply_request ext content prior in
  let rq2 := title_request ext content in
  let first := Z.of_nat (List.length prior) =? 0 in
  let new_title := title_of (snd (groq ext (groq_calls c ++ [rq1]) rq2)) in
  let gen := first && MessageService.title_accepted new_title in
  let now := clock c + Z.of_N wait in
  chat_by_id (committed c) chat_id = Some ch ->
  Chat.user_id ch = User.id user ->
  usable_text (snd (groq ext (groq_calls c) rq1)) = Some t ->
  exists resp c' row,
    request wait (Api.send_message ext chat_id (MessageCreate.Build content)
                    user) c = (Return resp, c')
    /\ user_message resp
       = Message.Build (uuid4 ext (minted c)) chat_id USER content now
    /\ assistant_message resp
       = Message.Build (uuid4 ext (S (minted c))) chat_id ASSISTANT
           (Text.strip t) (clock c')
    /\ now <= clock c'
    /\ chat resp = mkChatInfo chat_id (Chat.title row)
                     (Chat.message_count row) gen
    /\ session c' = committed c'
    /\ users (committed c') = users (committed c)
    /\ messages (committed c')
       = messages (committed c) ++ [user_message resp; assistant_message resp]
    /\ chat_by_id (committed c') chat_id = Some row
    /\ Chat.user_id row = Chat.user_id ch
    /\ Chat.message_count row = Z.of_nat (List.length prior) + 2
    /\ Chat.title row = (if gen then new_title else Chat.title ch)
    /\ groq_calls c' = groq_calls c ++ rq1 :: (if first then [rq2] else []).
Proof.
  cbv zeta. intros Hfind Hown Hus.
  pose proof (chat_by_id_id _ _ Hfind) as Hid. subst chat_id.
  rewrite request_run. unfold Api.send_message.
  set (c0 := begin_request wait c).
  assert (Hlook : ChatService.get_chat_by_id (Chat.id ch) user c0
                  = (Return ch, c0)).
  { rewrite get_chat_by_id_run. subst c0. cbn [begin_request session].
    rewrite Hfind, Hown, N.eqb_refl. reflexivity. }
  erewrite bind_Return by exact Hlook.
  destruct (@create_message_and_respond_run ext c0 ch content t Hfind Hus)
    as (row & c1 & Hrun & H1 & H2 & H3 & H4 & H5 & H6 & H7 & H8 & H9 & H10).
  erewrite bind_Return by exact Hrun.
  cbn [ret fst snd].
  exists (mkMessageSendResponse
            (Message.Build (uuid4 ext (minted c0)) (Chat.id ch) USER content
                           (clock c0))
            (Message.Build (uuid4 ext (S (minted c0))) (Chat.id ch) ASSISTANT
                           (Text.strip t) (clock c1))
            (mkChatInfo (Chat.id row) (Chat.title row)
                        (Chat.message_count row)
                        ((Z.of_nat (List.length
                            (messages_of (session c0) (Chat.id ch))) =? 0)
                         && MessageService.title_accepted
                              (title_of (snd (groq ext
                                 (groq_calls c0
                                  ++ [reply_request ext content
                                        (messages_of (session c0) (Chat.id ch))])
                                 (title_request ext content))))))).
  exists (close_session c1), row.
  subst c0.
  cbn [begin_request close_session committed session clock groq_calls minted
       user_message assistant_message chat] in *.
  split.
  { unfold ret. cbn [fst snd]. rewrite H10.
    destruct (Z.of_nat _ =? 0); reflexivity. }
  rewrite H5.
  repeat split; auto.
  - rewrite H10. destruct (Z.of_nat _ =? 0); lia.
  - rewrite H3, H10. destruct (Z.of_nat _ =? 0); reflexivity.
Qed.

(** Handlers that start with the ownership check. *)

Lemma guarded_missing (A : Type) (k : Chat.t -> M A) (chat_id : UUID)
    (user : User.t) (c : Ctx) :
  chat_by_id (session c) chat_id = None ->
  bind (ChatService.get_chat_by_id chat_id user) k c
  = (Raised (HTTPException HTTP_404_NOT_FOUND (lit "Chat not found")), c).
Proof.
  intros H. apply bind_Raised. rewrite get_chat_by_id_run, H. reflexivity.
Qed.

Lemma guarded_foreign (A : Type) (k : Chat.t -> M A) (chat_id : UUID)
    (user : User.t) (c : Ctx) (ch : Chat.t) :
  chat_by_id (session c) chat_id = Some ch ->
  N.eqb (Chat.user_id ch) (User.id user) = false ->
  bind (ChatService.get_chat_by_id chat_id user) k c
  = (Raised (HTTPException HTTP_403_FORBIDDEN
               (lit "Not authorized to access this chat")), c).
Proof.
  intros H E. apply bind_Raised. rewrite get_chat_by_id_run, H, E.
  reflexivity.
Qed.

Lemma guarded_owned (A : Type) (k : Chat.t -> M A) (chat_id : UUID)
    (user : User.t) (c : Ctx) (ch : Chat.t) :
  chat_by_id (session c) chat_id = Some ch ->
  N.eqb (Chat.user_id ch) (User.id user) = true ->
  bind (ChatService.get_chat_by_id chat_id user) k c = k ch c.
Proof.
  intros H E. apply bind_Return. rewrite get_chat_by_id_run, H, E.
  reflexivity.
Qed.

(** What a send does when the chat is the caller's and the reply is not
    usable. *)
Lemma send_message_unusable (ext : External) (wait : N) (c : Ctx)
    (chat_id : UUID) (content : str) (user : User.t) (ch : Chat.t) :
  let prior := messages_of (committed c) chat_id in
  let rq1 := reply_request ext content prior in
  chat_by_id (committed c) chat_id = Some ch ->
  Chat.user_id ch = User.id user ->
  usable_text (snd (groq ext (groq_calls c) rq1)) = None ->
  exists detail c',
    request wait (Api.send_message ext chat_id (MessageCreate.Build content)
                    user) c
    = (Raised (HTTPException HTTP_500_INTERNAL_SERVER_ERROR detail), c')
    /\ committed c' = committed c
    /\ session c' = committed c
    /\ groq_calls c' = groq_calls c ++ [rq1].
Proof.
  cbv zeta. intros Hfind Hown Hus.
  pose proof (chat_by_id_id _ _ Hfind) as Hid. subst chat_id.
  rewrite request_run. unfold Api.send_message.
  set (c0 := begin_request wait c).
  erewrite guarded_owned;
    [ | exact Hfind | rewrite Hown; apply N.eqb_refl ].
  destruct (@create_message_and_respond_fails ext c0 ch content Hus)
    as (detail & c1 & Hrun & H1 & H2 & H3).
  erewrite bind_Raised by exact Hrun.
  exists detail, (close_session c1).
  cbn [fst snd close_session committed session groq_calls].
  rewrite H1, H3. repeat split; reflexivity.
Qed.

(** A send that returns was made on a chat of the caller and got a usable
    reply. *)
Lemma send_message_returns (ext : External) (wait : N) (c : Ctx)
    (chat_id : UUID) (content : str) (user : User.t)
    (resp : MessageSendResponse) (c' : Ctx) :
  request wait (Api.send_message ext chat_id (MessageCreate.Build content)
                  user) c = (Return resp, c') ->
  exists ch t,
    chat_by_id (committed c) chat_id = Some ch
    /\ Chat.user_id ch = User.id user
    /\ usable_text (snd (groq ext (groq_calls c)
                             (reply_request ext content
                                (messages_of (committed c) chat_id)))) = Some t.
Proof.
  intros Hrun.
  destruct (chat_by_id (committed c) chat_id) as [ch|] eqn:Hfind.
  2:{ rewrite request_run in Hrun. unfold Api.send_message in Hrun.
      rewrite guarded_missing in Hrun by exact Hfind. discriminate. }
  destruct (N.eqb (Chat.user_id ch) (User.id user)) eqn:Hown.
  2:{ rewrite request_run in Hrun. unfold Api.send_message in Hrun.
      erewrite guarded_foreign in Hrun by eassumption. discriminate. }
  apply N.eqb_eq in Hown.
  destruct (usable_text (snd (groq ext (groq_calls c)
              (reply_request ext content
                 (messages_of (committed c) chat_id))))) as [t|] eqn:Hus.
  - exists ch, t. auto.
  - destruct (@send_message_unusable ext wait c chat_id content user ch
                Hfind Hown Hus) as (detail & c1 & Hfail & _).
    rewrite Hfail in Hrun. discriminate.
Qed.

(** ** Rows and their arrangements *)

Section Arrangements.
Variable A : Type.
Variable key : A -> Z.

Lemma StronglySorted_app_l (R : A -> A -> Prop) (l1 l2 : list A) :
  StronglySorted R (l1 ++ l2) -> StronglySorted R l1.
Proof.
  induction l1 as [|x l1 IH]; simpl; intros H; [constructor|].
  inversion H as [|? ? Hs Hx]; subst. constructor.
  - apply IH, Hs.
  - apply Forall_app in Hx. apply Hx.
Qed.

Lemma StronglySorted_app_r (R : A -> A -> Prop) (l1 l2 : list A) :
  StronglySorted R (l1 ++ l2) -> StronglySorted R l2.
Proof.
  induction l1 as [|x l1 IH]; simpl; intros H; [exact H|].
  inversion H; subst. apply IH. assumption.
Qed.

(** Rows with pairwise distinct keys have one arrangement in ascending key
    order. *)
Lemma sorted_perm_unique (l1 l2 : list A) :
  NoDup (List.map key l1) ->
  StronglySorted (ascending key) l1 ->
  StronglySorted (ascending key) l2 ->
  Permutation l1 l2 ->
  l1 = l2.
Proof.
  revert l2. induction l1 as [|x r IH]; intros l2 Hnd H1 H2 Hp.
  - apply Permutation_nil in Hp. congruence.
  - destruct l2 as [|y r2].
    { apply Permutation_sym, Permutation_nil in Hp. discriminate. }
    inversion Hnd as [|? ? Hx Hr]; subst.
    inversion H1 as [|? ? Hs1 Hx1]; subst.
    inversion H2 as [|? ? Hs2 Hy2]; subst.
    assert (Hxy : x = y).
    { assert (Hyin : In y (x :: r))
        by (apply (Permutation_in _ (Permutation_sym Hp)); left; reflexivity).
      assert (Hxin : In x (y :: r2))
        by (apply (Permutation_in _ Hp); left; reflexivity).
      destruct Hyin as [E|Hyr]; [exact E|].
      destruct Hxin as [E|Hxr]; [congruence|].
      rewrite Forall_forall in Hx1, Hy2.
      pose proof (Hx1 y Hyr) as Hle1. pose proof (Hy2 x Hxr) as Hle2.
      unfold ascending in *.
      exfalso. apply Hx.
      replace (key x) with (key y) by lia.
      apply in_map, Hyr. }
    subst y. f_equal.
    apply IH; try assumption.
    apply Permutation_cons_inv with (a := x). exact Hp.
Qed.

Lemma order_by_ranked_perm (rank : A -> Z) (l : list A) :
  Permutation l (order_by_ranked key rank l).
Proof.
  unfold order_by_ranked.
  rewrite <- order_by_perm. apply order_by_perm.
Qed.

Lemma order_by_ranked_length (rank : A -> Z) (l : list A) :
  List.length (order_by_ranked key rank l) = List.length l.
Proof. symmetry. apply Permutation_length, order_by_ranked_perm. Qed.

Lemma order_by_ranked_sorted (rank : A -> Z) (l : list A) :
  StronglySorted (ascending key) (order_by_ranked key rank l).
Proof. apply order_by_sorted. Qed.

(** With pairwise distinct keys the rank of the database plays no part. *)
Lemma order_by_ranked_distinct (rank : A -> Z) (l : list A) :
  NoDup (List.map key l) ->
  order_by_ranked key rank l = order_by key l.
Proof.
  intros Hnd. apply sorted_perm_unique.
  - apply (Permutation_NoDup (l := List.map key l)); [|exact Hnd].
    apply Permutation_map, order_by_ranked_perm.
  - apply order_by_ranked_sorted.
  - apply order_by_sorted.
  - rewrite <- order_by_ranked_perm. apply order_by_perm.
Qed.

(** A row with a key above every other key comes last in every ascending
    arrangement. *)
Lemma sorted_perm_last (seq l : list A) (x : A) :
  StronglySorted (ascending key) seq ->
  Permutation seq (l ++ [x]) ->
  Forall (fun y => key y < key x) l ->
  exists seq0, seq = seq0 ++ [x] /\ Permutation seq0 l.
Proof.
  intros Hs Hp Hlt.
  assert (Hin : In x seq).
  { apply (Permutation_in _ (Permutation_sym Hp)).
    apply in_or_app. right. left. reflexivity. }
  apply in_split in Hin. destruct Hin as (s1 & s2 & ->).
  assert (Hrest : Permutation (s1 ++ s2) l).
  { apply Permutation_cons_inv with (a := x).
    rewrite Permutation_middle, Hp.
    symmetry. apply Permutation_cons_append. }
  destruct s2 as [|y s2].
  - exists s1. split; [reflexivity|]. rewrite app_nil_r in Hrest. exact Hrest.
  - exfalso.
    apply StronglySorted_app_r in Hs.
    inversion Hs as [|? ? _ Hx]; subst.
    inversion Hx as [|? ? Hxy _]; subst. unfold ascending in Hxy.
    assert (Hy : In y l).
    { apply (Permutation_in _ Hrest). apply in_or_app. right. left.
      reflexivity. }
    rewrite Forall_forall in Hlt. specialize (Hlt y Hy). lia.
Qed.

End Arrangements.

Lemma messages_of_perm (d : Database) (cid : UUID) :
  Permutation (messages_of d cid) (chat_rows d cid).
Proof. symmetry. apply order_by_perm. Qed.

Lemma messages_of_sorted (d : Database) (cid : UUID) :
  StronglySorted by_creation (messages_of d cid).
Proof. apply (order_by_sorted Message.created_at). Qed.

Lemma messages_of_length (d : Database) (cid : UUID) :
  List.length (messages_of d cid) = List.length (chat_rows d cid).
Proof. apply order_by_length. Qed.

Lemma chat_rows_snoc2 (d d' : Database) (cid : UUID) (u a : Message.t) :
  messages d' = messages d ++ [u; a] ->
  Message.chat_id u = cid -> Message.chat_id a = cid ->
  chat_rows d' cid = chat_rows d cid ++ [u; a].
Proof.
  intros Hm Hu Ha. unfold chat_rows. rewrite Hm, filter_app. simpl.
  rewrite Hu, Ha, N.eqb_refl. reflexivity.
Qed.

(** ** Looking a chat up by its primary key *)

Lemma chat_by_id_of_row (d : Database) (ch : Chat.t) :
  chat_ids_distinct d -> In ch (chats d) ->
  chat_by_id d (Chat.id ch) = Some ch.
Proof.
  unfold chat_ids_distinct, chat_by_id.
  induction (chats d) as [|y l IH]; intros Hnd Hin; [destruct Hin|].
  simpl in *. inversion Hnd as [|? ? Hy Hl]; subst.
  destruct Hin as [->|Hin]; [rewrite N.eqb_refl; reflexivity|].
  destruct (N.eqb_spec (Chat.id y) (Chat.id ch)) as [E|_].
  - exfalso. apply Hy. rewrite E. apply in_map. exact Hin.
  - apply IH; assumption.
Qed.

Lemma chat_by_id_absent (d : Database) (cid : UUID) :
  (forall row, In row (chats d) -> Chat.id row <> cid) ->
  chat_by_id d cid = None.
Proof.
  unfold chat_by_id. induction (chats d) as [|y l IH]; intros H;
    [reflexivity|].
  simpl. destruct (N.eqb_spec (Chat.id y) cid) as [E|_].
  - exfalso. apply (H y); [left; reflexivity | exact E].
  - apply IH. intros row Hin. apply H. right. exact Hin.
Qed.

Lemma chat_by_id_In (d : Database) (cid : UUID) (ch : Chat.t) :
  chat_by_id d cid = Some ch -> In ch (chats d) /\ Chat.id ch = cid.
Proof.
  unfold chat_by_id. intros H. apply find_some in H.
  destruct H as [Hin Heq]. apply N.eqb_eq in Heq. auto.
Qed.

(** ** Whitespace *)

Lemma lstrip_with_all (p : char -> bool) (s : str) :
  Forall (fun ch => p ch = true) s -> Text.lstrip_with p s = [].
Proof.
  induction 1 as [|x s Hx _ IH]; simpl; [reflexivity|].
  rewrite Hx. exact IH.
Qed.

Lemma strip_blank (s : str) :
  Forall (fun ch => Text.isspace ch = true) s -> Text.strip s = [].
Proof.
  intros H. unfold Text.strip, Text.strip_with, Text.rstrip_with.
  rewrite (lstrip_with_all _ H). reflexivity.
Qed.

(* ------------------------------------------------------------------ *)
(** * The claims of the specification *)

Lemma message_create_eta (data : MessageCreate.t) :
  data = MessageCreate.Build (MessageCreate.content data).
Proof. destruct data; reflexivity. Qed.

(** C1. After a successful send_message on a chat with N stored messages,
    the chat's row counts N+2 messages and that is the number of messages
    the table then holds for the chat; the table gained exactly two rows,
    both of the chat: the user message with the caller's content and then
    the assistant message with the generated text, the first stamped no
    earlier than any prior message of the chat and the second no earlier
    than the first.  When the stamps differ, every arrangement of the
    chat's messages by creation time ends with the two, user message
    first. *)
Theorem C1_send_appends_user_then_assistant
    (ext : External) (wait : N) (c : Ctx) (chat_id : UUID)
    (data : MessageCreate.t) (user : User.t)
    (resp : MessageSendResponse) (c' : Ctx) :
  stamps_in_past c ->
  request wait (Api.send_message ext chat_id data user) c = (Return resp, c') ->
  let prior := chat_rows (committed c) chat_id in
  let count := Z.of_nat (List.length prior) in
  let u := user_message resp in
  let a := assistant_message resp in
  exists row rq later generated,
    In row (chats (committed c')) /\ Chat.id row = chat_id
    /\ chat_by_id (committed c') chat_id = Some row
    /\ Chat.message_count row = count + 2
    /\ ci_message_count (chat resp) = count + 2
    /\ messages (committed c') = messages (committed c) ++ [u; a]
    /\ chat_rows (committed c') chat_id = prior ++ [u; a]
    /\ Z.of_nat (List.length (chat_rows (committed c') chat_id))
       = Chat.message_count row
    /\ Message.chat_id u = chat_id /\ Message.role u = USER
    /\ Message.content u = MessageCreate.content data
    /\ Message.chat_id a = chat_id /\ Message.role a = ASSISTANT
    /\ groq_calls c' = groq_calls c ++ rq :: later
    /\ usable_text (snd (groq ext (groq_calls c) rq)) = Some generated
    /\ Message.content a = Text.strip generated
    /\ Forall (fun m => Message.created_at m <= Message.created_at u) prior
    /\ Message.created_at u <= Message.created_at a
    /\ stamps_in_past c'
    /\ (Forall (fun m => Message.created_at m < Message.created_at u) prior ->
        Message.created_at u < Message.created_at a ->
        forall seq,
          Permutation seq (chat_rows (committed c') chat_id) ->
          StronglySorted by_creation seq ->
          exists seq0, seq = seq0 ++ [u; a] /\ Permutation seq0 prior).
Proof.
  intros Hpast Hrun. cbv zeta.
  rewrite (message_create_eta data) in Hrun.
  destruct (send_message_returns _ _ _ _ _ _ Hrun)
    as (ch & t & Hfind & Hown & Hus).
  destruct (@send_message_ok ext wait c chat_id _ user ch t Hfind Hown Hus)
    as (resp' & c'' & row & Hrun' & Hu & Ha & Hnow & Hci & Hs & Husers & Hm
        & Hrow & Hruid & Hrn & Hrt & Hcalls).
  rewrite Hrun in Hrun'. inversion Hrun'; subst resp' c''. clear Hrun'.
  rewrite messages_of_length in Hrn.
  assert (Hprior : Forall (fun m => Message.created_at m
                                    <= clock c + Z.of_N wait)
                     (messages (committed c))).
  { eapply Forall_impl; [|exact Hpast]. simpl. intros; lia. }
  assert (Hrows : chat_rows (committed c') chat_id
                  = chat_rows (committed c) chat_id
                    ++ [user_message resp; assistant_message resp]).
  { apply chat_rows_snoc2; [exact Hm | rewrite Hu | rewrite Ha]; reflexivity. }
  exists row. eexists. eexists. exists t.
  split; [apply (chat_by_id_In _ _ Hrow)|].
  split; [apply (chat_by_id_In _ _ Hrow)|].
  split; [exact Hrow|]. split; [exact Hrn|].
  split; [rewrite Hci; exact Hrn|].
  split; [exact Hm|]. split; [exact Hrows|].
  split; [rewrite Hrows, length_app, Hrn; simpl; lia|].
  split; [rewrite Hu; reflexivity|]. split; [rewrite Hu; reflexivity|].
  split; [rewrite Hu; reflexivity|].
  split; [rewrite Ha; reflexivity|]. split; [rewrite Ha; reflexivity|].
  split; [exact Hcalls|].
  split; [exact Hus|]. split; [rewrite Ha; reflexivity|].
  split; [|split; [|split]].
  - apply Forall_forall. intros m Hm'.
    unfold chat_rows in Hm'. apply filter_In in Hm'.
    rewrite Forall_forall in Hprior. rewrite Hu. simpl.
    apply Hprior, Hm'.
  - rewrite Hu, Ha. simpl. exact Hnow.
  - unfold stamps_in_past. rewrite Hm, Hu, Ha.
    apply Forall_app. split.
    + eapply Forall_impl; [|exact Hprior]. simpl. intros; lia.
    + repeat constructor; simpl; lia.
  - intros Hlt Hua seq Hperm Hsorted. rewrite Hrows in Hperm.
    change [user_message resp; assistant_message resp]
      with ([user_message resp] ++ [assistant_message resp]) in Hperm.
    rewrite app_assoc in Hperm.
    destruct (@sorted_perm_last _ Message.created_at seq _ _ Hsorted Hperm)
      as (seq1 & -> & Hperm1).
    { apply Forall_app. split.
      - eapply Forall_impl; [|exact Hlt]. simpl. intros; lia.
      - constructor; [exact Hua | constructor]. }
    apply StronglySorted_app_l in Hsorted.
    destruct (@sorted_perm_last _ Message.created_at seq1 _ _ Hsorted Hperm1
                Hlt) as (seq0 & -> & Hperm0).
    exists seq0. rewrite <- app_assoc. split; [reflexivity | exact Hperm0].
Qed.

Lemma C1_send_appends_user_then_assistant_witness :
  stamps_in_past Sample.ctx /\
  exists resp c',
    request 2%N (Api.send_message
                 (Sample.provider Sample.good_reply Sample.good_title)
                 8%N Sample.hello Sample.alice) Sample.ctx = (Return resp, c')
    /\ chat_rows (committed c') 8%N
       = [Sample.m1; Sample.m2; user_message resp; assistant_message resp]
    /\ ci_message_count (chat resp) = 4.
Proof.
  assert (Hpast : stamps_in_past Sample.ctx).
  { unfold stamps_in_past. simpl. repeat constructor; simpl; lia. }
  split; [exact Hpast|].
  destruct (request 2%N (Api.send_message
                 (Sample.provider Sample.good_reply Sample.good_title)
                 8%N Sample.hello Sample.alice) Sample.ctx)
    as [[resp|e] c'] eqn:E.
  - exists resp, c'. split; [reflexivity|].
    destruct (@C1_send_appends_user_then_assistant _ _ _ _ _ _ _ _ Hpast E)
      as (row & rq & later & g & _ & _ & _ & _ & Hcount & _ & Hrows & _).
    split; [exact Hrows | exact Hcount].
  - exfalso. vm_compute in E. discriminate E.
Defined.

(** The completions generate_response rejects: a raised error, no choice,
    a first choice without content, or with empty content. *)
Lemma usable_text_None (k : Completion) :
  usable_text k = None <->
  (exists e, k = APIError e) \/ k = ChatCompletion []
  \/ (exists rest, k = ChatCompletion (None :: rest))
  \/ (exists rest, k = ChatCompletion (Some [] :: rest)).
Proof.
  split.
  - destruct k as [e|[|[[|x s]|] rest]]; simpl; intros H;
      try discriminate; eauto 6.
  - intros [[e ->]|[->|[[rest ->]|[rest ->]]]]; reflexivity.
Qed.

(** When the provider raises, returns no choice, or a first choice without
    content or with the empty string, send_message fails with a 500 after
    that single call, and nothing is committed: the store, and with it the
    chat's title and message_count, is as before and no user message is
    left behind. *)
Lemma rejected_reply_commits_nothing
    (ext : External) (wait : N) (c : Ctx) (chat_id : UUID)
    (data : MessageCreate.t) (user : User.t) (ch : Chat.t) :
  chat_by_id (committed c) chat_id = Some ch ->
  Chat.user_id ch = User.id user ->
  usable_text (snd (groq ext (groq_calls c)
                      (reply_request ext (MessageCreate.content data)
                         (messages_of (committed c) chat_id)))) = None ->
  exists e c',
    request wait (Api.send_message ext chat_id data user) c = (Raised e, c')
    /\ response_status e = HTTP_500_INTERNAL_SERVER_ERROR
    /\ (exists detail, e = HTTPException HTTP_500_INTERNAL_SERVER_ERROR detail)
    /\ committed c' = committed c
    /\ session c' = committed c
    /\ chat_by_id (committed c') chat_id = Some ch
    /\ messages_of (committed c') chat_id = messages_of (committed c) chat_id
    /\ groq_calls c'
       = groq_calls c
         ++ [reply_request ext (MessageCreate.content data)
               (messages_of (committed c) chat_id)].
Proof.
  intros Hfind Hown Hus.
  rewrite (message_create_eta data).
  destruct (@send_message_unusable ext wait c chat_id _ user ch Hfind Hown Hus)
    as (detail & c' & Hrun & Hc & Hs & Hcalls).
  exists (HTTPException HTTP_500_INTERNAL_SERVER_ERROR detail), c'.
  rewrite Hc. repeat split; eauto.
Qed.

Lemma rejected_reply_commits_nothing_sample :
  exists e c',
    request 2%N (Api.send_message
                   (Sample.provider (APIError (lit "rate limit"))
                      Sample.good_title)
                   8%N Sample.hello Sample.alice) Sample.ctx = (Raised e, c')
    /\ response_status e = 500
    /\ committed c' = Sample.store.
Proof.
  destruct (@rejected_reply_commits_nothing
              (Sample.provider (APIError (lit "rate limit")) Sample.good_title)
              2%N Sample.ctx 8%N Sample.hello Sample.alice Sample.old_chat
              eq_refl eq_refl eq_refl)
    as (e & c' & Hrun & Hst & _ & Hc & _).
  exists e, c'. repeat split; assumption.
Defined.

(** C2 (the code departs from the claim). A reply that consists of
    whitespace only carries no usable text, yet it passes the emptiness
    test of generate_response, which strips the text only afterwards: the
    send succeeds and commits the user message together with an assistant
    message whose content is the empty string. *)
Theorem C2_blank_reply_is_committed
    (ext : External) (wait : N) (c : Ctx) (chat_id : UUID)
    (data : MessageCreate.t) (user : User.t) (ch : Chat.t)
    (blank : str) (rest : list (option str)) :
  chat_ids_distinct (committed c) ->
  In ch (chats (committed c)) ->
  Chat.id ch = chat_id ->
  Chat.user_id ch = User.id user ->
  blank <> [] ->
  Forall (fun x => Text.isspace x = true) blank ->
  (forall rq,
     snd (groq ext (groq_calls c) rq) = ChatCompletion (Some blank :: rest)) ->
  exists resp c',
    request wait (Api.send_message ext chat_id data user) c = (Return resp, c')
    /\ Message.content (user_message resp) = MessageCreate.content data
    /\ Message.role (assistant_message resp) = ASSISTANT
    /\ Message.content (assistant_message resp) = []
    /\ messages (committed c')
       = messages (committed c) ++ [user_message resp; assistant_message resp]
    /\ ci_message_count (chat resp)
       = Z.of_nat (List.length (chat_rows (committed c) chat_id)) + 2.
Proof.
  intros Hnd Hin Hid Hown Hne Hblank Hreply.
  assert (Hfind : chat_by_id (committed c) chat_id = Some ch)
    by (rewrite <- Hid; apply chat_by_id_of_row; assumption).
  rewrite (message_create_eta data).
  assert (Hus : usable_text
                  (snd (groq ext (groq_calls c)
                          (reply_request ext (MessageCreate.content data)
                             (messages_of (committed c) chat_id))))
                = Some blank).
  { rewrite Hreply. destruct blank; [congruence | reflexivity]. }
  destruct (@send_message_ok ext wait c chat_id _ user ch blank Hfind Hown Hus)
    as (resp & c' & row & Hrun & Hu & Ha & _ & Hci & _ & _ & Hm & _ & _ & Hrn
        & _).
  exists resp, c'. split; [exact Hrun|].
  split; [rewrite Hu; reflexivity|].
  split; [rewrite Ha; reflexivity|].
  split; [rewrite Ha; cbn [Message.content]; apply strip_blank, Hblank|].
  split; [exact Hm|].
  rewrite Hci. cbn [ci_message_count].
  rewrite Hrn, messages_of_length. reflexivity.
Qed.

Lemma C2_blank_reply_is_committed_witness :
  exists resp c',
    request 2%N (Api.send_message
                   (Sample.provider (ChatCompletion [Some (lit "  ")])
                      Sample.good_title)
                   8%N Sample.hello Sample.alice) Sample.ctx
    = (Return resp, c')
    /\ Message.content (assistant_message resp) = []
    /\ messages (committed c')
       = [Sample.m1; Sample.m2; user_message resp; assistant_message resp]
    /\ ci_message_count (chat resp) = 4.
Proof.
  destruct (@C2_blank_reply_is_committed
              (Sample.provider (ChatCompletion [Some (lit "  ")])
                 Sample.good_title)
              2%N Sample.ctx 8%N Sample.hello Sample.alice Sample.old_chat
              (lit "  ") [])
    as (resp & c' & Hrun & _ & _ & Hempty & Hm & Hcount).
  - repeat constructor; simpl; intuition discriminate.
  - left. reflexivity.
  - reflexivity.
  - reflexivity.
  - discriminate.
  - repeat constructor.
  - intros rq. reflexivity.
  - exists resp, c'. repeat split; assumption.
Defined.

Lemma history_entry_role_for_role (m : Message.t) :
  AIService.history_entry m = role_for_role m.
Proof.
  unfold AIService.history_entry, role_for_role.
  destruct (Message.role m); reflexivity.
Qed.

(** The context window in one formula: both branches of the length test
    keep the last ten messages of the history. *)
Lemma build_messages_window (content : str) (history : list Message.t) :
  AIService.build_messages content history
  = mkChatMessage (lit "system") Prompts.NUPAT_AI_SYSTEM_PROMPT
    :: List.map role_for_role (skipn (List.length history - 10) history)
    ++ [mkChatMessage (lit "user") content].
Proof.
  unfold AIService.build_messages, Prompts.get_system_prompt,
    AIService.last_items.
  destruct history as [|m rest]; [reflexivity|].
  set (h := m :: rest).
  destruct (Z.ltb_spec 10 (Z.of_nat (List.length h))) as [Hlong|Hshort].
  - rewrite (map_ext _ _ history_entry_role_for_role). reflexivity.
  - replace (List.length h - 10)%nat with 0%nat by lia.
    rewrite (map_ext _ _ history_entry_role_for_role). reflexivity.
Qed.


Lemma StronglySorted_skipn (A : Type) (R : A -> A -> Prop) (n : nat)
    (l : list A) :
  StronglySorted R l -> StronglySorted R (skipn n l).
Proof.
  revert l. induction n as [|n IH]; intros l H; [exact H|].
  destruct l as [|x l]; [exact H|].
  simpl. apply IH. inversion H; assumption.
Qed.



(** C4 (as amended). Identity resolution fails with 401 when the token does
    not decode, carries no subject, or carries a subject that is not a
    well-formed identifier; it fails with 404 when the subject names no
    stored user; otherwise it returns the user with that identifier. *)
Theorem C4_resolve_identity
    (ext : External) (token : str) (c : Ctx) :
  (token_subject ext token = None ->
     fails_with HTTP_401_UNAUTHORIZED (Deps.get_current_user ext token c))
  /\ (forall uid,
        token_subject ext token = Some uid ->
        user_by_id (session c) uid = None ->
        fails_with HTTP_404_NOT_FOUND (Deps.get_current_user ext token c))
  /\ (forall uid user,
        token_subject ext token = Some uid ->
        user_by_id (session c) uid = Some user ->
        Deps.get_current_user ext token c = (Return user, c)
        /\ User.id user = uid /\ In user (users (session c))).
Proof.
  unfold token_subject, Deps.get_current_user, fails_with,
    AuthService.get_user_by_id, bind, get_session.
  destruct (decode_access_token ext token) as [payload|].
  2:{ repeat split; try discriminate. intros _. eexists; eexists; reflexivity. }
  destruct (sub payload) as [s|].
  2:{ repeat split; try discriminate. intros _. eexists; eexists; reflexivity. }
  destruct (uuid_of_str ext s) as [uid|].
  2:{ repeat split; try discriminate. intros _. eexists; eexists; reflexivity. }
  split; [discriminate|]. split.
  - intros uid' [= <-] Hnone. rewrite Hnone. eexists; eexists; reflexivity.
  - intros uid' user [= <-] Hsome. rewrite Hsome.
    split; [reflexivity|].
    unfold user_by_id in Hsome. apply find_some in Hsome.
    destruct Hsome as [Hin Heq]. apply N.eqb_eq in Heq. auto.
Qed.

Lemma C4_resolve_identity_witness :
  fails_with 401 (Deps.get_current_user
                    (Sample.provider Sample.good_reply Sample.good_title)
                    (lit "token-odd") Sample.ctx)
  /\ fails_with 404 (Deps.get_current_user
                       (Sample.provider Sample.good_reply Sample.good_title)
                       (lit "token-ghost") Sample.ctx)
  /\ Deps.get_current_user
       (Sample.provider Sample.good_reply Sample.good_title)
       (lit "token-alice") Sample.ctx = (Return Sample.alice, Sample.ctx).
Proof.
  pose (ext := Sample.provider Sample.good_reply Sample.good_title).
  split; [|split].
  - exact (proj1 (C4_resolve_identity ext (lit "token-odd") Sample.ctx)
             eq_refl).
  - exact (proj1 (proj2 (C4_resolve_identity ext (lit "token-ghost")
                           Sample.ctx)) 9%N eq_refl eq_refl).
  - exact (proj1 (proj2 (proj2 (C4_resolve_identity ext (lit "token-alice")
                                  Sample.ctx)) 1%N Sample.alice
                    eq_refl eq_refl)).
Defined.

(** C4 as stated fails: a well-formed token whose subject names no stored
    user is answered with 404, not with 401. *)
Lemma C4_unknown_user_is_not_unauthorized :
  token_subject (Sample.provider Sample.good_reply Sample.good_title)
                (lit "token-ghost") = Some 9%N
  /\ user_by_id (session Sample.ctx) 9%N = None
  /\ Deps.get_current_user
       (Sample.provider Sample.good_reply Sample.good_title)
       (lit "token-ghost") Sample.ctx
     = (Raised (HTTPException 404 (lit "User not found")), Sample.ctx)
  /\ ~ fails_with HTTP_401_UNAUTHORIZED
         (Deps.get_current_user
            (Sample.provider Sample.good_reply Sample.good_title)
            (lit "token-ghost") Sample.ctx).
Proof.
  split; [reflexivity|]. split; [reflexivity|]. split; [reflexivity|].
  intros (detail & c' & H). vm_compute in H. discriminate H.
Qed.

(** C5. With [chats] keyed by identifier: an operation on a chat fails
    with 404 when no row of the table has the identifier, and with 403,
    never 404, when the row with the identifier belongs to another user,
    and then no operation succeeds; when the row belongs to the caller the
    lookup returns that row, and the fetch returns it with the stored
    messages of the chat in creation order. *)
Theorem C5_chat_access
    (ext : External) (c : Ctx) (user : User.t) (chat_id : UUID)
    (update_data : ChatUpdate.t) (message_data : MessageCreate.t)
    (page page_size : Z) :
  chat_ids_distinct (session c) ->
  let lookup := ChatService.get_chat_by_id chat_id user c in
  let fetch := Api.get_chat_with_messages chat_id user c in
  let rename := Api.update_chat_title chat_id update_data user c in
  let delete := Api.delete_chat chat_id user c in
  let send := Api.send_message ext chat_id message_data user c in
  let list := Api.get_chat_messages ext chat_id page page_size user c in
  let all_fail_with status :=
    fails_with status lookup /\ fails_with status fetch
    /\ fails_with status rename /\ fails_with status delete
    /\ fails_with status send /\ fails_with status list in
  let some_succeeds :=
    succeeds lookup \/ succeeds fetch \/ succeeds rename
    \/ succeeds delete \/ succeeds send \/ succeeds list in
  ((forall row, In row (chats (session c)) -> Chat.id row <> chat_id) ->
   all_fail_with HTTP_404_NOT_FOUND /\ ~ some_succeeds)
  /\ (forall ch,
        In ch (chats (session c)) -> Chat.id ch = chat_id ->
        Chat.user_id ch <> User.id user ->
        all_fail_with HTTP_403_FORBIDDEN /\ ~ some_succeeds
        /\ ~ fails_with HTTP_404_NOT_FOUND lookup
        /\ ~ fails_with HTTP_404_NOT_FOUND fetch
        /\ ~ fails_with HTTP_404_NOT_FOUND rename
        /\ ~ fails_with HTTP_404_NOT_FOUND delete
        /\ ~ fails_with HTTP_404_NOT_FOUND send
        /\ ~ fails_with HTTP_404_NOT_FOUND list)
  /\ (forall ch,
        In ch (chats (session c)) -> Chat.id ch = chat_id ->
        Chat.user_id ch = User.id user ->
        lookup = (Return ch, c)
        /\ (exists msgs,
              fetch = (Return (mkChatWithMessages ch msgs), c)
              /\ Permutation msgs (chat_rows (session c) chat_id)
              /\ StronglySorted by_creation msgs)
        /\ ~ fails_with HTTP_404_NOT_FOUND lookup
        /\ ~ fails_with HTTP_403_FORBIDDEN lookup).
Proof.
  intros Hnd. cbv zeta.
  unfold Api.get_chat_with_messages, Api.update_chat_title,
    ChatService.update_chat_title, Api.delete_chat, ChatService.delete_chat,
    Api.send_message, Api.get_chat_messages.
  split; [|split].
  - intros Hnone. apply chat_by_id_absent in Hnone.
    assert (Hl : ChatService.get_chat_by_id chat_id user c
                 = (Raised (HTTPException HTTP_404_NOT_FOUND
                      (lit "Chat not found")), c))
      by (rewrite get_chat_by_id_run, Hnone; reflexivity).
    rewrite Hl.
    rewrite !(@bind_Raised _ _ _ _ _ _ _ Hl).
    unfold bind. rewrite Hl.
    unfold fails_with, succeeds.
    repeat split; eauto.
    intros [H|[H|[H|[H|[H|H]]]]]; destruct H as (a & c' & H);
      discriminate H.
  - intros ch Hin Hid Hother.
    assert (Hfind : chat_by_id (session c) chat_id = Some ch)
      by (rewrite <- Hid; apply chat_by_id_of_row; assumption).
    assert (Hown : N.eqb (Chat.user_id ch) (User.id user) = false)
      by (apply N.eqb_neq; exact Hother).
    assert (Hl : ChatService.get_chat_by_id chat_id user c
                 = (Raised (HTTPException HTTP_403_FORBIDDEN
                      (lit "Not authorized to access this chat")), c))
      by (rewrite get_chat_by_id_run, Hfind, Hown; reflexivity).
    rewrite Hl.
    rewrite !(@bind_Raised _ _ _ _ _ _ _ Hl).
    unfold bind. rewrite Hl.
    unfold fails_with, succeeds.
    repeat split; eauto;
      try (intros (d & c' & H); discriminate H).
    intros [H|[H|[H|[H|[H|H]]]]]; destruct H as (a & c' & H);
      discriminate H.
  - intros ch Hin Hid Hmine.
    assert (Hfind : chat_by_id (session c) chat_id = Some ch)
      by (rewrite <- Hid; apply chat_by_id_of_row; assumption).
    assert (Hown : N.eqb (Chat.user_id ch) (User.id user) = true)
      by (apply N.eqb_eq; exact Hmine).
    assert (Hl : ChatService.get_chat_by_id chat_id user c = (Return ch, c))
      by (rewrite get_chat_by_id_run, Hfind, Hown; reflexivity).
    rewrite (@bind_Return _ _ _ _ _ _ _ Hl), Hl.
    split; [reflexivity|]. split.
    { exists (messages_of (session c) (Chat.id ch)).
      split; [reflexivity|]. rewrite Hid.
      split; [apply messages_of_perm | apply messages_of_sorted]. }
    split; intros (d & c' & H); discriminate H.
Qed.

(** On the sample store: no chat 99, chat 8 of alice asked for by bob, and
    by alice. *)
Lemma C5_chat_access_witness :
  fails_with 404 (Api.get_chat_with_messages 99%N Sample.alice Sample.ctx)
  /\ fails_with 403 (Api.delete_chat 8%N Sample.bob Sample.ctx)
  /\ ChatService.get_chat_by_id 8%N Sample.alice Sample.ctx
     = (Return Sample.old_chat, Sample.ctx).
Proof.
  assert (Hnd : chat_ids_distinct (session Sample.ctx))
    by (repeat constructor; simpl; intuition discriminate).
  pose (ext := Sample.provider Sample.good_reply Sample.good_title).
  pose (upd := ChatUpdate.Build (lit "Tariffs")).
  split; [|split].
  - apply (proj1 (@C5_chat_access ext Sample.ctx Sample.alice 99%N upd
                    Sample.hello 1 10 Hnd)).
    intros row [<-|[<-|[]]]; discriminate.
  - apply (proj1 (proj2 (@C5_chat_access ext Sample.ctx Sample.bob 8%N upd
                           Sample.hello 1 10 Hnd)) Sample.old_chat).
    + left. reflexivity.
    + reflexivity.
    + discriminate.
  - apply (proj2 (proj2 (@C5_chat_access ext Sample.ctx Sample.alice 8%N upd
                           Sample.hello 1 10 Hnd)) Sample.old_chat).
    + left. reflexivity.
    + reflexivity.
    + reflexivity.
Defined.

(** What can be said of the title after a first send on a chat titled
    "New Chat": it is kept, or replaced by a generated, non-empty title of
    at most 200 characters. *)
Lemma first_send_title (ext : External) (wait : N) (c : Ctx)
    (chat_id : UUID) (data : MessageCreate.t) (user : User.t)
    (resp : MessageSendResponse) (c' : Ctx) (ch : Chat.t) :
  request wait (Api.send_message ext chat_id data user) c = (Return resp, c') ->
  chat_by_id (committed c) chat_id = Some ch ->
  Chat.title ch = lit "New Chat" ->
  (ci_title (chat resp) = lit "New Chat"
   /\ ci_title_generated (chat resp) = false)
  \/ (ci_title_generated (chat resp) = true
      /\ ci_title (chat resp) <> lit "New Chat"
      /\ ci_title (chat resp) <> []
      /\ Text.len (ci_title (chat resp)) <= 200).
Proof.
  intros Hrun Hfind Hdefault.
  rewrite (message_create_eta data) in Hrun.
  destruct (send_message_returns _ _ _ _ _ _ Hrun)
    as (ch' & t & Hfind' & Hown & Hus).
  rewrite Hfind in Hfind'. inversion Hfind'; subst ch'. clear Hfind'.
  destruct (@send_message_ok ext wait c chat_id _ user ch t Hfind Hown Hus)
    as (resp' & c'' & row & Hrun' & _ & _ & _ & Hci & _ & _ & _ & _ & _ & _
        & Hrt & _).
  rewrite Hrun in Hrun'. inversion Hrun'; subst resp' c''. clear Hrun'.
  rewrite Hci. cbn [ci_title ci_title_generated]. rewrite Hrt.
  match goal with |- context [if ?g then _ else _] => destruct g eqn:Hg end.
  - right. apply andb_true_iff in Hg. destruct Hg as [_ Hacc].
    pose proof (title_of_accepted_fits _ Hacc) as Hfit.
    unfold MessageService.title_accepted in Hacc.
    apply andb_true_iff in Hacc. destruct Hacc as [Hne Hnd].
    split; [reflexivity|]. split; [|split].
    + intros E. rewrite E, text_eqb_refl in Hnd. discriminate.
    + intros E. rewrite E in Hne. discriminate.
    + apply Z.leb_le, Hfit.
  - left. split; [exact Hdefault | reflexivity].
Qed.

(** C6 (the code departs from the claim). On a fresh chat titled
    "New Chat", a title completion of seven words whose sixth ends with a
    quote yields a generated title that begins and ends with a quote
    character. *)
Lemma C6_generated_title_keeps_quotes :
  exists resp c',
    request 2%N (Api.send_message
                   (Sample.provider Sample.good_reply Sample.quoted_title)
                   7%N Sample.hello Sample.alice) Sample.ctx
    = (Return resp, c')
    /\ Chat.title Sample.fresh_chat = lit "New Chat"
    /\ messages_of (committed Sample.ctx) 7%N = []
    /\ ci_title_generated (chat resp) = true
    /\ ci_title (chat resp) = lit "'a b c d e f'"
    /\ List.length (Text.split (ci_title (chat resp))) = 6%nat
    /\ hd_error (ci_title (chat resp)) = Some 39%N
    /\ hd_error (rev (ci_title (chat resp))) = Some 39%N
    /\ Text.isquote 39%N = true.
Proof.
  eexists. eexists. split.
  - vm_compute. reflexivity.
  - vm_compute. repeat split; reflexivity.
Qed.

(** ** Pagination *)

Lemma StronglySorted_weaken (A : Type) (R S : A -> A -> Prop) (l : list A) :
  (forall a b, R a b -> S a b) -> StronglySorted R l -> StronglySorted S l.
Proof.
  intros HRS. induction 1 as [|x l Hl IH Hx]; constructor.
  - exact IH.
  - eapply Forall_impl; [|exact Hx]. intros b. apply HRS.
Qed.

(** The pages of a sequence: page [p] holds the items at positions
    [(p - 1) * page_size] onwards, and the first [n] pages, in order, make
    up the sequence as soon as [n * page_size] reaches its length. *)
Lemma pages_cover (A : Type) (page_size : Z) (n : nat) (l : list A) :
  1 <= page_size ->
  Z.of_nat (List.length l) <= Z.of_nat n * page_size ->
  List.concat
    (List.map (fun p => offset_limit ((p - 1) * page_size) page_size l)
              (page_numbers n)) = l.
Proof.
  intros Hp Hn. unfold page_numbers, offset_limit.
  rewrite map_map.
  rewrite (map_ext_in _ (fun p => firstn (Z.to_nat page_size)
                           (skipn ((p - 1) * Z.to_nat page_size) l))).
  2:{ intros p Hin. apply in_seq in Hin.
      replace (Z.to_nat ((Z.of_nat p - 1) * page_size))
        with ((p - 1) * Z.to_nat page_size)%nat by nia.
      reflexivity. }
  rewrite <- seq_shift, map_map. simpl.
  rewrite (map_ext _ (fun i => firstn (Z.to_nat page_size)
                        (skipn (i * Z.to_nat page_size) l))).
  2:{ intros i. rewrite Nat.sub_0_r. reflexivity. }
  rewrite concat_windows. apply firstn_all2. nia.
Qed.

Lemma page_position (A : Type) (page page_size : Z) (i : nat) (l : list A) :
  1 <= page -> Z.of_nat i < page_size ->
  nth_error (offset_limit ((page - 1) * page_size) page_size l) i
  = nth_error l (Z.to_nat ((page - 1) * page_size) + i).
Proof.
  intros Hp Hi. unfold offset_limit. apply nth_error_window. lia.
Qed.

(** The ceiling of [total / page_size] pages reach the end. *)
Lemma ceiling_pages_reach (total page_size : Z) :
  0 <= total -> 1 <= page_size ->
  total <= Z.of_nat (Z.to_nat ((total + page_size - 1) / page_size))
           * page_size.
Proof.
  intros Ht Hp.
  pose proof (Z.div_mod (total + page_size - 1) page_size ltac:(lia)) as Hdm.
  pose proof (Z.mod_pos_bound (total + page_size - 1) page_size ltac:(lia))
    as Hr.
  assert (Hq : 0 <= (total + page_size - 1) / page_size)
    by (apply Z.div_pos; lia).
  rewrite Z2Nat.id by exact Hq. nia.
Qed.

Lemma is_page_count_ceiling (total page_size n : Z) :
  0 <= total -> 1 <= page_size ->
  is_page_count total page_size n ->
  n = (total + page_size - 1) / page_size.
Proof.
  intros Ht Hp [Hzero Hpos].
  destruct (Z.eq_dec total 0) as [->|Hne].
  - rewrite (Hzero eq_refl). symmetry. apply Z.div_small. lia.
  - specialize (Hpos ltac:(lia)).
    apply (Z.div_unique_pos _ _ n (total + page_size - 1 - n * page_size));
      lia.
Qed.

(** C7. The page count list_chats and list_messages report is the ceiling
    of total / page_size, and 0 when there is no item; total is the number
    of persisted items. *)
Theorem C7_total_pages_is_ceiling
    (ext : External) (c : Ctx) (user : User.t) (chat_id : UUID)
    (page page_size : Z) :
  truediv_correctly_rounded (truediv ext) ->
  1 <= page_size <= 100 ->
  Z.of_nat (List.length (chats (session c))) < 2 ^ 46 ->
  Z.of_nat (List.length (messages (session c))) < 2 ^ 46 ->
  (exists resp,
     Api.get_user_chats ext page page_size user c = (Return resp, c)
     /\ clr_total resp
        = Z.of_nat (List.length (chats_of (session c) (User.id user)))
     /\ is_page_count (clr_total resp) page_size (clr_total_pages resp)
     /\ clr_total_pages resp
        = (clr_total resp + page_size - 1) / page_size)
  /\ (forall ch,
        chat_by_id (session c) chat_id = Some ch ->
        Chat.user_id ch = User.id user ->
        exists resp,
          Api.get_chat_messages ext chat_id page page_size user c
          = (Return resp, c)
          /\ mlr_total resp
             = Z.of_nat (List.length (messages_of (session c) chat_id))
          /\ is_page_count (mlr_total resp) page_size (mlr_total_pages resp)
          /\ mlr_total_pages resp
             = (mlr_total resp + page_size - 1) / page_size).
Proof.
  intros Hdiv Hp Hchats Hmsgs.
  assert (Hcount : forall total, 0 <= total < 2 ^ 46 ->
            is_page_count total page_size (Api.total_pages ext total page_size)
            /\ Api.total_pages ext total page_size
               = (total + page_size - 1) / page_size).
  { intros total Ht.
    pose proof (@total_pages_is_page_count ext total page_size Hdiv Ht Hp) as H.
    split; [exact H|]. apply is_page_count_ceiling; [lia | lia | exact H]. }
  split.
  - eexists. split; [reflexivity|].
    cbn [clr_total clr_total_pages fst snd].
    split; [unfold chats_of; rewrite order_by_length; reflexivity|].
    apply Hcount. split; [lia|].
    eapply Z.le_lt_trans; [|exact Hchats].
    apply Nat2Z.inj_le, filter_length_le.
  - intros ch Hfind Hown.
    pose proof (chat_by_id_id _ _ Hfind) as Hid.
    unfold Api.get_chat_messages.
    erewrite guarded_owned;
      [ | exact Hfind | rewrite Hown; apply N.eqb_refl ].
    eexists. split; [reflexivity|].
    cbn [mlr_total mlr_total_pages fst snd]. rewrite Hid.
    split; [unfold messages_of; rewrite order_by_length; reflexivity|].
    apply Hcount. split; [lia|].
    eapply Z.le_lt_trans; [|exact Hmsgs].
    apply Nat2Z.inj_le, filter_length_le.
Qed.

Lemma exact_division_correctly_rounded :
  truediv_correctly_rounded (fun a b => (a # Z.to_pos b)%Q).
Proof.
  intros a b Ha Hb. split.
  - setoid_replace ((a # Z.to_pos b) - (a # Z.to_pos b))%Q with 0%Q by ring.
    simpl. apply Qmult_le_0_compat; [|discriminate].
    unfold Qle. simpl. lia.
  - intros k ->. destruct b as [|p|p]; try lia.
    unfold Qeq, inject_Z. simpl. lia.
Qed.

Lemma C7_total_pages_is_ceiling_witness :
  exists resp,
    Api.get_chat_messages
      (Sample.provider Sample.good_reply Sample.good_title)
      8%N 1 1 Sample.alice Sample.ctx = (Return resp, Sample.ctx)
    /\ mlr_total resp = 2
    /\ mlr_total_pages resp = 2.
Proof.
  destruct (@C7_total_pages_is_ceiling
              (Sample.provider Sample.good_reply Sample.good_title)
              Sample.ctx Sample.alice 8%N 1 1
              exact_division_correctly_rounded
              ltac:(lia) ltac:(vm_compute; reflexivity)
              ltac:(vm_compute; reflexivity))
    as [_ H].
  destruct (H Sample.old_chat eq_refl eq_refl) as (resp & Hrun & Ht & _ & Hn).
  exists resp. split; [exact Hrun|]. split; [exact Ht|].
  rewrite Hn, Ht. reflexivity.
Defined.

(** C8 (as amended). For a chat whose stored messages have pairwise
    distinct creation times and a page size in [1,100], the pages of
    list_messages taken in increasing page order are consecutive,
    non-overlapping stretches of the chat's messages in ascending creation
    order, the one arrangement of them in that order, and together make up
    that whole sequence, the pages being those up to the ceiling of
    total / page_size or any number of pages that reaches the total;
    likewise the pages of list_chats and the chats of a user with pairwise
    distinct update times, most recently updated first. *)
Theorem C8_pages_reproduce_sequence
    (ext : External) (c : Ctx) (chat : Chat.t) (user : User.t)
    (page_size : Z) (n : nat) :
  1 <= page_size <= 100 ->
  NoDup (List.map Message.created_at (chat_rows (session c) (Chat.id chat))) ->
  NoDup (List.map Chat.updated_at (user_rows (session c) (User.id user))) ->
  let all_messages := messages_of (session c) (Chat.id chat) in
  let all_chats := chats_of (session c) (User.id user) in
  let message_page p :=
    page_items (MessageService.get_chat_messages ext chat p page_size c) in
  let chat_page p :=
    page_items (ChatService.get_user_chats ext user p page_size c) in
  let page_count total :=
    Z.to_nat ((Z.of_nat total + page_size - 1) / page_size) in
  List.concat (List.map message_page
                 (page_numbers (page_count (List.length all_messages))))
  = all_messages
  /\ List.concat (List.map chat_page
                    (page_numbers (page_count (List.length all_chats))))
     = all_chats
  /\ (Z.of_nat (List.length all_messages) <= Z.of_nat n * page_size ->
        List.concat (List.map message_page (page_numbers n)) = all_messages)
  /\ (Z.of_nat (List.length all_chats) <= Z.of_nat n * page_size ->
        List.concat (List.map chat_page (page_numbers n)) = all_chats)
  /\ (forall p i, 1 <= p -> Z.of_nat i < page_size ->
        nth_error (message_page p) i
        = nth_error all_messages (Z.to_nat ((p - 1) * page_size) + i))
  /\ (forall p i, 1 <= p -> Z.of_nat i < page_size ->
        nth_error (chat_page p) i
        = nth_error all_chats (Z.to_nat ((p - 1) * page_size) + i))
  /\ (forall p, (List.length (message_page p) <= Z.to_nat page_size)%nat
                /\ (List.length (chat_page p) <= Z.to_nat page_size)%nat)
  /\ StronglySorted by_creation all_messages
  /\ Permutation all_messages (chat_rows (session c) (Chat.id chat))
  /\ (forall seq, Permutation seq (chat_rows (session c) (Chat.id chat)) ->
                  StronglySorted by_creation seq -> seq = all_messages)
  /\ StronglySorted by_recency all_chats
  /\ Permutation all_chats (user_rows (session c) (User.id user))
  /\ (forall seq, Permutation seq (user_rows (session c) (User.id user)) ->
                  StronglySorted by_recency seq -> seq = all_chats).
Proof.
  intros Hp Hmsgs Hchats. cbv zeta.
  assert (Hkeys : NoDup (List.map (fun ch => - Chat.updated_at ch)
                           (user_rows (session c) (User.id user)))).
  { rewrite <- (map_map Chat.updated_at Z.opp).
    apply Finite.Injective_map_NoDup; [|exact Hchats].
    intros x y H. lia. }
  assert (Hrecent : forall l,
            StronglySorted by_recency l <->
            StronglySorted (ascending (fun ch => - Chat.updated_at ch)) l).
  { intros l. split; apply StronglySorted_weaken;
      unfold by_recency, ascending; intros; lia. }
  unfold MessageService.get_chat_messages, ChatService.get_user_chats,
    page_items, bind, get_session, ret. cbn [fst snd].
  fold (chat_rows (session c) (Chat.id chat)).
  fold (user_rows (session c) (User.id user)).
  assert (Hm : forall p,
            order_by_ranked Message.created_at
              (fun m => tie_rank ext ((p - 1) * page_size) page_size
                          (Message.id m))
              (chat_rows (session c) (Chat.id chat))
            = messages_of (session c) (Chat.id chat))
    by (intros p; apply order_by_ranked_distinct, Hmsgs).
  assert (Hc : forall p,
            order_by_ranked (fun ch => - Chat.updated_at ch)
              (fun ch => tie_rank ext ((p - 1) * page_size) page_size
                           (Chat.id ch))
              (user_rows (session c) (User.id user))
            = chats_of (session c) (User.id user))
    by (intros p; apply order_by_ranked_distinct, Hkeys).
  rewrite !(map_ext _ _ (fun p => f_equal (offset_limit _ _) (Hm p))).
  rewrite !(map_ext _ _ (fun p => f_equal (offset_limit _ _) (Hc p))).
  split; [apply pages_cover; [lia | apply ceiling_pages_reach; lia]|].
  split; [apply pages_cover; [lia | apply ceiling_pages_reach; lia]|].
  split; [intros Hn; apply pages_cover; lia|].
  split; [intros Hn; apply pages_cover; lia|].
  split; [intros p i H1 H2; rewrite Hm; apply page_position; assumption|].
  split; [intros p i H1 H2; rewrite Hc; apply page_position; assumption|].
  split; [intros p; unfold offset_limit; split; apply firstn_le_length|].
  split; [apply messages_of_sorted|].
  split; [apply messages_of_perm|].
  split.
  { intros seq Hperm Hsorted.
    apply (@sorted_perm_unique _ Message.created_at).
    - apply (Permutation_NoDup (l := List.map Message.created_at
                                       (chat_rows (session c) (Chat.id chat))));
        [|exact Hmsgs].
      apply Permutation_map. symmetry. exact Hperm.
    - exact Hsorted.
    - apply messages_of_sorted.
    - rewrite Hperm. symmetry. apply messages_of_perm. }
  split; [apply Hrecent, (order_by_sorted (fun ch => - Chat.updated_at ch))|].
  split; [symmetry; apply order_by_perm|].
  intros seq Hperm Hsorted.
  apply (@sorted_perm_unique _ (fun ch => - Chat.updated_at ch)).
  - apply (Permutation_NoDup
             (l := List.map (fun ch => - Chat.updated_at ch)
                     (user_rows (session c) (User.id user))));
      [|exact Hkeys].
    apply Permutation_map. symmetry. exact Hperm.
  - apply Hrecent, Hsorted.
  - apply (order_by_sorted (fun ch => - Chat.updated_at ch)).
  - rewrite Hperm. apply order_by_perm.
Qed.

Lemma C8_pages_reproduce_sequence_witness :
  List.concat
    (List.map (fun p => page_items
                 (MessageService.get_chat_messages Sample.paging
                    Sample.old_chat p 1 Sample.ctx)) (page_numbers 2))
  = [Sample.m1; Sample.m2].
Proof.
  refine (proj1 (proj2 (proj2 (@C8_pages_reproduce_sequence Sample.paging
                                 Sample.ctx Sample.old_chat Sample.alice 1 2
                                 _ _ _))) _).
  - lia.
  - repeat constructor; simpl; intuition discriminate.
  - repeat constructor; simpl; intuition discriminate.
  - vm_compute. discriminate.
Defined.

(** C8 as stated fails: with three messages of a chat created at the same
    time and two items to the page, the first page holds the first two rows
    in the order the database chose for it, the second page the last row in
    the order it chose for that one; a message comes twice, another never,
    and no arrangement of the chat's messages is what the pages make up. *)
Lemma C8_tied_pages_overlap :
  chat_rows (session Sample.tied_ctx) 8%N
  = [Sample.tied 50; Sample.tied 51; Sample.tied 52]
  /\ page_items (MessageService.get_chat_messages Sample.paging
                   Sample.tied_chat 1 2 Sample.tied_ctx)
     = [Sample.tied 50; Sample.tied 51]
  /\ page_items (MessageService.get_chat_messages Sample.paging
                   Sample.tied_chat 2 2 Sample.tied_ctx)
     = [Sample.tied 50]
  /\ (forall p, StronglySorted by_creation
                  (page_items (MessageService.get_chat_messages Sample.paging
                                 Sample.tied_chat p 2 Sample.tied_ctx)))
  /\ ~ In (Sample.tied 52)
          (List.concat
             (List.map (fun p => page_items
                          (MessageService.get_chat_messages Sample.paging
                             Sample.tied_chat p 2 Sample.tied_ctx))
                       (page_numbers 2)))
  /\ forall seq,
       Permutation seq (chat_rows (session Sample.tied_ctx) 8%N) ->
       List.concat
         (List.map (fun p => page_items
                      (MessageService.get_chat_messages Sample.paging
                         Sample.tied_chat p 2 Sample.tied_ctx))
                   (page_numbers 2))
       <> seq.
Proof.
  split; [reflexivity|]. split; [reflexivity|]. split; [reflexivity|].
  split.
  { intros p.
    unfold MessageService.get_chat_messages, page_items, bind, get_session,
      ret, offset_limit. cbn [fst snd].
    set (l := order_by_ranked _ _ _).
    assert (Hs : StronglySorted by_creation l)
      by apply (order_by_ranked_sorted Message.created_at).
    rewrite <- (firstn_skipn (Z.to_nat ((p - 1) * 2)) l) in Hs.
    apply StronglySorted_app_r in Hs.
    rewrite <- (firstn_skipn (Z.to_nat 2) (skipn _ l)) in Hs.
    apply StronglySorted_app_l in Hs. exact Hs. }
  split.
  { vm_compute. intros [H|[H|[H|[]]]]; discriminate H. }
  intros seq Hperm Heq. rewrite <- Heq in Hperm.
  assert (Hin : In (Sample.tied 52)
                   (chat_rows (session Sample.tied_ctx) 8%N))
    by (right; right; left; reflexivity).
  apply (Permutation_in _ (Permutation_sym Hperm)) in Hin.
  vm_compute in Hin. destruct Hin as [H|[H|[H|[]]]]; discriminate H.
Qed.








(* ------------------------------------------------------------------ *)
(** * Further properties of the code *)

(** ** Configuration strings *)

Lemma startswith_app (p r : str) : PyStr.startswith p (p ++ r) = true.
Proof.
  induction p as [|x p IH]; simpl; [reflexivity|].
  rewrite N.eqb_refl. exact IH.
Qed.

Lemma startswith_split (p s : str) :
  PyStr.startswith p s = true -> s = p ++ skipn (List.length p) s.
Proof.
  revert s. induction p as [|x p IH]; intros s H; simpl in *.
  - reflexivity.
  - destruct s as [|y s]; [discriminate|].
    apply andb_true_iff in H. destruct H as [Hxy Hp].
    apply N.eqb_eq in Hxy. subst y. simpl. f_equal. apply IH, Hp.
Qed.

Lemma replace_first_prefix (old new rest : str) :
  PyStr.replace_first old new (old ++ rest) = new ++ rest.
Proof.
  destruct (old ++ rest) as [|c r] eqn:E; simpl.
  - rewrite <- E at 1. rewrite startswith_app.
    f_equal. rewrite <- E. rewrite skipn_app, skipn_all, Nat.sub_diag.
    reflexivity.
  - rewrite <- E at 1. rewrite startswith_app.
    f_equal. rewrite <- E. rewrite skipn_app, skipn_all, Nat.sub_diag.
    reflexivity.
Qed.

(** get_database_url turns the scheme postgres:// into postgresql:// and
    keeps the rest of the URL; any other URL is returned as it is; the
    result never has the scheme postgres://, so normalising twice is
    normalising once. *)
Theorem get_database_url_normalises (url : str) :
  (forall rest, url = lit "postgres://" ++ rest ->
                Config.get_database_url url = lit "postgresql://" ++ rest)
  /\ (PyStr.startswith (lit "postgres://") url = false ->
      Config.get_database_url url = url)
  /\ PyStr.startswith (lit "postgres://") (Config.get_database_url url)
     = false
  /\ Config.get_database_url (Config.get_database_url url)
     = Config.get_database_url url.
Proof.
  assert (H1 : forall rest, url = lit "postgres://" ++ rest ->
             Config.get_database_url url = lit "postgresql://" ++ rest).
  { intros rest ->. unfold Config.get_database_url.
    rewrite startswith_app. apply replace_first_prefix. }
  assert (H2 : PyStr.startswith (lit "postgres://") url = false ->
               Config.get_database_url url = url).
  { intros H. unfold Config.get_database_url. rewrite H. reflexivity. }
  assert (H3 : PyStr.startswith (lit "postgres://")
                 (Config.get_database_url url) = false).
  { destruct (PyStr.startswith (lit "postgres://") url) eqn:E.
    - rewrite (H1 _ (@startswith_split _ _ E)). reflexivity.
    - rewrite (H2 eq_refl). exact E. }
  repeat split; try assumption.
  unfold Config.get_database_url at 1. rewrite H3. reflexivity.
Qed.

Lemma get_database_url_normalises_witness :
  Config.get_database_url (lit "postgres://u:p@db:5432/nupat")
  = lit "postgresql://u:p@db:5432/nupat"
  /\ Config.get_database_url (lit "sqlite:///dev.db") = lit "sqlite:///dev.db".
Proof.
  split.
  - exact (proj1 (get_database_url_normalises
                    (lit "postgres://u:p@db:5432/nupat"))
             (lit "u:p@db:5432/nupat") eq_refl).
  - exact (proj1 (proj2 (get_database_url_normalises
                           (lit "sqlite:///dev.db"))) eq_refl).
Defined.

Lemma split_on_length (sep : char) (s cur : str) :
  List.length (PyStr.split_on sep cur s)
  = S (List.length (filter (fun c => N.eqb c sep) s)).
Proof.
  revert cur. induction s as [|c r IH]; intros cur; simpl; [reflexivity|].
  destruct (N.eqb c sep); simpl; rewrite IH; reflexivity.
Qed.

Lemma split_on_no_sep (sep : char) (s cur : str) :
  ~ In sep cur ->
  Forall (fun field => ~ In sep field) (PyStr.split_on sep cur s).
Proof.
  revert cur. induction s as [|c r IH]; intros cur Hcur; simpl.
  - constructor; [|constructor]. rewrite <- in_rev. exact Hcur.
  - destruct (N.eqb_spec c sep) as [->|Hne].
    + constructor; [rewrite <- in_rev; exact Hcur|].
      apply IH. intros [].
    + apply IH. intros [H|H]; [congruence | exact (Hcur H)].
Qed.

Lemma lstrip_with_In (p : char -> bool) (x : char) (s : str) :
  In x (Text.lstrip_with p s) -> In x s.
Proof.
  induction s as [|c r IH]; simpl; [tauto|].
  destruct (p c); [right; apply IH; assumption | tauto].
Qed.

Lemma strip_with_In (p : char -> bool) (x : char) (s : str) :
  In x (Text.strip_with p s) -> In x s.
Proof.
  unfold Text.strip_with, Text.rstrip_with. intros H.
  apply in_rev, lstrip_with_In, in_rev in H.
  apply lstrip_with_In in H. exact H.
Qed.

(** cors_origins_list yields one origin per comma-separated field, so
    never an empty list; no origin contains a comma, and none begins or
    ends with whitespace. *)
Theorem cors_origins_list_fields (CORS_ORIGINS : str) :
  List.length (Config.cors_origins_list CORS_ORIGINS)
  = S (List.length (filter (fun c => N.eqb c 44) CORS_ORIGINS))
  /\ Forall (fun origin =>
               ~ In 44%N origin
               /\ match origin with
                  | [] => True
                  | c :: _ => Text.isspace c = false
                  end
               /\ match rev origin with
                  | [] => True
                  | c :: _ => Text.isspace c = false
                  end)
            (Config.cors_origins_list CORS_ORIGINS).
Proof.
  unfold Config.cors_origins_list. split.
  - rewrite length_map. apply split_on_length.
  - apply Forall_forall. intros origin Hin.
    apply in_map_iff in Hin. destruct Hin as (field & <- & Hfield).
    pose proof (@split_on_no_sep 44%N CORS_ORIGINS [] (fun H => H)) as Hno.
    rewrite Forall_forall in Hno. specialize (Hno field Hfield).
    split.
    + intros H. apply Hno. eapply strip_with_In. exact H.
    + apply strip_with_ends.
Qed.

(** ** The phone validator *)

Lemma remove_separators (s : str) :
  PyStr.remove_char 43%N (PyStr.remove_char 45%N (PyStr.remove_char 32%N s))
  = filter (fun c => negb (phone_separator c)) s.
Proof.
  unfold PyStr.remove_char, phone_separator.
  induction s as [|c r IH]; simpl; [reflexivity|].
  destruct (N.eqb c 32) eqn:E1; simpl; [exact IH|].
  destruct (N.eqb c 45) eqn:E2; simpl; [exact IH|].
  destruct (N.eqb c 43) eqn:E3; simpl; [exact IH|].
  rewrite IH. reflexivity.
Qed.

Lemma isdigit_filtered (isd : char -> bool) (s : str) :
  PyStr.isdigit isd (filter (fun c => negb (phone_separator c)) s) = true
  <-> Forall (fun c => phone_separator c = true \/ isd c = true) s
      /\ Exists (fun c => phone_separator c = false) s.
Proof.
  unfold PyStr.isdigit. rewrite andb_true_iff.
  induction s as [|c r IH]; simpl.
  - split.
    + intros [H _]. discriminate.
    + intros [_ H]. inversion H.
  - destruct (phone_separator c) eqn:E; simpl.
    + rewrite IH. split.
      * intros [Hf He]. split; [constructor; auto | right; exact He].
      * intros [Hf He]. inversion Hf; subst. split; [assumption|].
        inversion He; subst; [congruence | assumption].
    + rewrite andb_true_iff, forallb_forall, Forall_forall. split.
      * intros [_ [Hc Hr]]. split; [|left; exact E].
        intros x [<-|Hx]; [right; exact Hc|].
        destruct (phone_separator x) eqn:Ex; [left; reflexivity|].
        right. apply Hr. apply filter_In. rewrite Ex. auto.
      * intros [Hf _]. split; [reflexivity|]. split.
        -- destruct (Hf c (or_introl eq_refl)); congruence.
        -- intros x Hx. apply filter_In in Hx. destruct Hx as [Hx Hs].
           destruct (Hf x (or_intror Hx)) as [H|H]; [|exact H].
           rewrite H in Hs. discriminate.
Qed.

(** validate_phone never alters the value it lets through, and it lets
    through exactly: no phone, a blank phone, and a phone made of digits,
    blanks, hyphens and plus signs with at least one digit and at least
    10 characters once blanks and hyphens are removed. *)
Theorem validate_phone_accepts (isd : char -> bool) (v : option str) :
  (forall v', UserSignup.validate_phone isd v = inr v' -> v' = v)
  /\ (UserSignup.validate_phone isd v = inr v <->
      match v with
      | None => True
      | Some s => Text.strip s = [] \/ phone_well_formed isd s
      end).
Proof.
  unfold UserSignup.validate_phone, phone_well_formed.
  destruct v as [s|]; [|split; [intros v' H; congruence | tauto]].
  rewrite remove_separators.
  destruct (Text.strip s) as [|x t] eqn:Hs; simpl.
  { split; [intros v' H; congruence|]. split; auto. }
  destruct (PyStr.isdigit isd _) eqn:Hd; simpl.
  - apply isdigit_filtered in Hd.
    destruct (Z.ltb_spec (Text.len (PyStr.remove_char 45%N
                            (PyStr.remove_char 32%N s))) 10) as [Hlt|Hge].
    + split; [intros v' H; discriminate|].
      split; [discriminate|]. intros [H|(_ & _ & H)]; [discriminate | lia].
    + split; [intros v' H; congruence|].
      split; [intros _; right; tauto | reflexivity].
  - split; [intros v' H; discriminate|].
    split; [discriminate|]. intros [H|(Hf & He & _)]; [discriminate|].
    assert (Ht : PyStr.isdigit isd
                   (filter (fun c => negb (phone_separator c)) s) = true)
      by (apply isdigit_filtered; auto).
    congruence.
Qed.

Lemma validate_phone_accepts_witness :
  UserSignup.validate_phone Sample2.ascii_digit
    (Some (lit "+234 801 234 5678")) = inr (Some (lit "+234 801 234 5678"))
  /\ phone_well_formed Sample2.ascii_digit (lit "+234 801 234 5678").
Proof.
  assert (H : UserSignup.validate_phone Sample2.ascii_digit
                (Some (lit "+234 801 234 5678"))
              = inr (Some (lit "+234 801 234 5678"))) by reflexivity.
  split; [exact H|].
  destruct (proj1 (proj2 (validate_phone_accepts Sample2.ascii_digit
                            (Some (lit "+234 801 234 5678")))) H)
    as [Hblank|Hok]; [discriminate Hblank | exact Hok].
Defined.

(** ** Accounts *)

Lemma user_by_email_None (d : Database) (e : str) :
  user_by_email d e = None -> ~ In e (List.map User.email (users d)).
Proof.
  unfold user_by_email. intros H Hin.
  apply in_map_iff in Hin. destruct Hin as (u & <- & Hu).
  pose proof (find_none _ _ H u Hu) as Hf. simpl in Hf.
  rewrite text_eqb_refl in Hf. discriminate.
Qed.

Lemma find_snoc_first (A : Type) (p : A -> bool) (l : list A) (x : A) :
  find p l = None -> p x = true -> find p (l ++ [x]) = Some x.
Proof.
  intros Hn Hx. induction l as [|y l IH]; simpl in *.
  - rewrite Hx. reflexivity.
  - destruct (p y); [discriminate | apply IH, Hn].
Qed.

Lemma find_by_distinct_id (l : list User.t) (u : User.t) :
  NoDup (List.map User.id l) -> In u l ->
  find (fun x => N.eqb (User.id x) (User.id u)) l = Some u.
Proof.
  induction l as [|y l IH]; intros Hnd Hin; [destruct Hin|].
  simpl in *. inversion Hnd as [|? ? Hy Hl]; subst.
  destruct Hin as [->|Hin]; [rewrite N.eqb_refl; reflexivity|].
  destruct (N.eqb_spec (User.id y) (User.id u)) as [E|_].
  - exfalso. apply Hy. rewrite E. apply in_map. exact Hin.
  - apply IH; assumption.
Qed.

Lemma accepted_row_checks (d : Database) (u : User.t) :
  user_row_accepted d u = true ->
  user_by_email d (User.email u) = None
  /\ forall x p, User.phone u = Some (x :: p) ->
                 user_by_phone d (x :: p) = None.
Proof.
  unfold user_row_accepted. intros H.
  repeat (apply andb_true_iff in H; destruct H as [H ?]).
  split.
  - destruct (user_by_email d (User.email u)); [discriminate | reflexivity].
  - intros x p Hp. rewrite Hp in *.
    match goal with
    | Hq : _ && _ = true |- _ => apply andb_true_iff in Hq; destruct Hq as [_ Hq]
    end.
    destruct (user_by_phone d (x :: p)); [discriminate | reflexivity].
Qed.

Lemma accepted_row_stored (d : Database) (u : User.t) :
  user_row_accepted d u = true ->
  varchar 255 (User.email u) = Some (User.email u)
  /\ varchar 255 (User.hashed_password u) = Some (User.hashed_password u)
  /\ match User.phone u with
     | Some p => varchar 20 p = Some p
     | None => True
     end.
Proof.
  unfold user_row_accepted. intros H.
  apply andb_true_iff in H. destruct H as [H Hphone].
  apply andb_true_iff in H. destruct H as [H _].
  apply andb_true_iff in H. destruct H as [Hemail Hhash].
  split; [apply varchar_fits, Z.leb_le; exact Hemail|].
  split; [apply varchar_fits, Z.leb_le; exact Hhash|].
  destruct (User.phone u) as [p|]; [|exact I].
  apply andb_true_iff in Hphone. destruct Hphone as [Hphone _].
  apply varchar_fits, Z.leb_le. exact Hphone.
Qed.

(** A signup the table accepts, step by step. *)
Lemma create_user_run (ext : External) (sec : Security)
    (data : UserSignup.t) (c : Ctx) :
  let u := User.Build (uuid4 ext (S (minted c))) (UserSignup.email data)
             (UserSignup.phone data)
             (get_password_hash sec (minted c) (UserSignup.password data))
             (clock c) (clock c) in
  let d := mkDatabase (users (session c) ++ [u]) (chats (session c))
                      (messages (session c)) in
  user_row_accepted (session c) u = true ->
  user_by_id (session c) (User.id u) = None ->
  Accounts.create_user ext sec data c
  = (Return u, mkCtx d d (clock c) (groq_calls c) (S (S (minted c)))).
Proof.
  cbv zeta. intros Hacc Hfresh.
  destruct (accepted_row_checks _ _ Hacc) as [Hemail Hphone].
  cbn [User.email User.phone] in Hemail, Hphone.
  unfold Accounts.create_user.
  unfold bind at 1. unfold get_session at 1.
  rewrite Hemail.
  assert (Hcheck :
    (match UserSignup.phone data with
     | Some ((_ :: _) as p) =>
         match user_by_phone (session c) p with
         | Some _ => ret true
         | None => ret false
         end
     | _ => ret false
     end) c = (Return false, c)).
  { destruct (UserSignup.phone data) as [[|x p]|] eqn:Ep; try reflexivity.
    rewrite (Hphone x p eq_refl). reflexivity. }
  erewrite bind_Return by exact Hcheck.
  unfold Accounts.hash_password at 1.
  erewrite bind_Return by reflexivity.
  destruct (accepted_row_stored _ _ Hacc) as (He & Hh & Hp).
  cbn [User.email User.phone User.hashed_password] in He, Hh, Hp.
  unfold Accounts.insert_user, bind, new_uuid, utcnow, get_session,
    put_session, ret, db_commit, Accounts.refresh_user.
  cbn [committed session clock groq_calls minted users chats messages].
  rewrite He, Hh.
  assert (Hphone' :
    match UserSignup.phone data with
    | Some p => option_map Some (varchar 20 p)
    | None => Some None
    end = Some (UserSignup.phone data)).
  { destruct (UserSignup.phone data) as [p|]; [|reflexivity].
    rewrite Hp. reflexivity. }
  rewrite Hphone'.
  rewrite Hacc.
  unfold bind, get_session, ret.
  cbn [committed session clock groq_calls minted users chats messages].
  unfold user_by_id in *. cbn [users User.id] in *.
  match goal with
  | |- context [find ?p (?l ++ [?x])] =>
      rewrite (@find_snoc_first _ p l x Hfresh (N.eqb_refl _))
  end.
  reflexivity.
Qed.

Lemma authenticate_user_run (sec : Security) (data : UserLogin.t) (c : Ctx) :
  Accounts.authenticate_user sec data c
  = match user_by_email (session c) (UserLogin.email data) with
    | Some u =>
        if verify_password sec (UserLogin.password data)
                           (User.hashed_password u)
        then (Return u, c)
        else (Raised (HTTPException HTTP_401_UNAUTHORIZED
                        (lit "Incorrect email or password")), c)
    | None =>
        (Raised (HTTPException HTTP_401_UNAUTHORIZED
                   (lit "Incorrect email or password")), c)
    end.
Proof.
  unfold Accounts.authenticate_user, bind, get_session.
  destruct (user_by_email (session c) (UserLogin.email data)) as [u|];
    [|reflexivity].
  destruct (verify_password sec _ _); reflexivity.
Qed.

Lemma create_user_token_run (sec : Security) (user : User.t) (c : Ctx) :
  Accounts.create_user_token sec user c
  = (Return (create_access_token sec (clock c) (Accounts.token_data sec user)),
     c).
Proof. reflexivity. Qed.

(** A signup that the users table accepts appends one user, whose stored
    password is what get_password_hash returned, and returns a token
    issued then for that user; a login with the same e-mail and password
    later returns the same user with a token over the same claims, issued
    at the time of the login, without writing. *)
Theorem signup_then_login
    (ext : External) (sec : Security) (w1 w2 : N) (c : Ctx)
    (data : UserSignup.t) :
  let u := User.Build (uuid4 ext (S (minted c))) (UserSignup.email data)
             (UserSignup.phone data)
             (get_password_hash sec (minted c) (UserSignup.password data))
             (clock c + Z.of_N w1) (clock c + Z.of_N w1) in
  let granted_at now :=
    mkLoginResponse
      (create_access_token sec now (Accounts.token_data sec u))
      (lit "bearer") u in
  hashes_verify sec ->
  user_row_accepted (committed c) u = true ->
  user_by_id (committed c) (User.id u) = None ->
  exists c1 c2,
    request w1 (Accounts.signup ext sec data) c
    = (Return (granted_at (clock c + Z.of_N w1)), c1)
    /\ users (committed c1) = users (committed c) ++ [u]
    /\ chats (committed c1) = chats (committed c)
    /\ messages (committed c1) = messages (committed c)
    /\ request w2 (Accounts.login sec
                     (UserLogin.Build (UserSignup.email data)
                                      (UserSignup.password data))) c1
       = (Return (granted_at (clock c + Z.of_N w1 + Z.of_N w2)), c2)
    /\ committed c2 = committed c1.
Proof.
  cbv zeta. intros Hhash Hacc Hfresh.
  set (u := User.Build _ _ _ _ _ _) in *.
  destruct (accepted_row_checks _ _ Hacc) as [Hemail _].
  cbn [User.email u] in Hemail.
  pose proof (@create_user_run ext sec data (begin_request w1 c) Hacc Hfresh)
    as Hrun.
  cbv zeta in Hrun.
  cbn [begin_request committed session clock groq_calls minted] in Hrun.
  fold u in Hrun.
  eexists. eexists.
  split.
  { rewrite request_run. unfold Accounts.signup.
    erewrite bind_Return by exact Hrun.
    erewrite bind_Return by apply create_user_token_run.
    reflexivity. }
  cbn [close_session snd ret committed users chats messages].
  split; [reflexivity|]. split; [reflexivity|]. split; [reflexivity|].
  rewrite request_run. unfold Accounts.login, bind.
  rewrite authenticate_user_run.
  cbn [begin_request close_session committed session users
       UserLogin.email UserLogin.password].
  unfold user_by_email in *. cbn [users].
  rewrite (@find_snoc_first _ _ (users (committed c)) u Hemail
             (text_eqb_refl _)).
  cbn [User.hashed_password u]. rewrite Hhash.
  rewrite create_user_token_run.
  cbn [bind fst snd ret clock committed close_session]. split; reflexivity.
Qed.

Lemma toy_hashes_verify : hashes_verify Sample2.security.
Proof.
  intros n p. unfold Sample2.security. cbn [verify_password get_password_hash].
  change (lit "h" ++ [(N.of_nat n + 48)%N] ++ rev p)
    with (N_of_ascii "h" :: (N.of_nat n + 48)%N :: rev p).
  cbn [skipn]. apply text_eqb_refl.
Qed.

Lemma signup_then_login_witness :
  exists first second c1 c2,
    request 1%N (Accounts.signup Sample2.world Sample2.security Sample2.carol)
      Sample.ctx = (Return first, c1)
    /\ request 5%N (Accounts.login Sample2.security
                      (UserLogin.Build (lit "carol@example.com")
                                       (lit "correct horse"))) c1
       = (Return second, c2)
    /\ login_user second = login_user first
    /\ access_token second <> access_token first
    /\ List.length (users (committed c2)) = 3%nat.
Proof.
  destruct (@signup_then_login Sample2.world Sample2.security 1%N 5%N
              Sample.ctx Sample2.carol toy_hashes_verify eq_refl eq_refl)
    as (c1 & c2 & H1 & Hu & _ & _ & H2 & Hc).
  eexists. eexists. exists c1, c2.
  split; [exact H1|]. split; [exact H2|].
  split; [reflexivity|].
  split; [vm_compute; discriminate|].
  rewrite Hc, Hu. reflexivity.
Defined.

(** Whatever made a login fail, an unknown e-mail or a wrong password, the
    failure is one and the same 401 exception, and a login, failed or not,
    writes nothing and returns the stored user the e-mail names. *)
Theorem login_failure_is_uniform
    (sec : Security) (data : UserLogin.t) (c : Ctx) :
  let r := Accounts.login sec data c in
  snd r = c
  /\ (forall e, fst r = Raised e ->
        e = HTTPException 401 (lit "Incorrect email or password")
        /\ (user_by_email (session c) (UserLogin.email data) = None
            \/ exists u,
                 user_by_email (session c) (UserLogin.email data) = Some u
                 /\ verify_password sec (UserLogin.password data)
                      (User.hashed_password u) = false))
  /\ (forall resp, fst r = Return resp ->
        user_by_email (session c) (UserLogin.email data)
        = Some (login_user resp)
        /\ verify_password sec (UserLogin.password data)
             (User.hashed_password (login_user resp)) = true
        /\ access_token resp
           = create_access_token sec (clock c)
               (Accounts.token_data sec (login_user resp))).
Proof.
  cbv zeta. unfold Accounts.login, bind. rewrite authenticate_user_run.
  unfold Accounts.create_user_token, bind, utcnow, ret.
  destruct (user_by_email (session c) (UserLogin.email data)) as [u|].
  - destruct (verify_password sec (UserLogin.password data)
                (User.hashed_password u)) eqn:Hv; cbn [fst snd ret].
    + split; [reflexivity|]. split; [intros e H; discriminate|].
      intros resp H. inversion H; subst. cbn. auto.
    + split; [reflexivity|]. split; [|intros resp H; discriminate].
      intros e H. inversion H; subst. split; [reflexivity|].
      right. exists u. auto.
  - cbn [fst snd]. split; [reflexivity|].
    split; [|intros resp H; discriminate].
    intros e H. inversion H; subst. auto.
Qed.

(** The token a login returns resolves, through get_current_user, to the
    user who logged in, provided issued tokens decode to their subject and
    user identifiers are distinct. *)
Theorem login_token_resolves
    (ext : External) (sec : Security) (data : UserLogin.t) (c : Ctx)
    (resp : LoginResponse) (c' : Ctx) :
  tokens_round_trip ext sec ->
  user_ids_distinct (session c) ->
  Accounts.login sec data c = (Return resp, c') ->
  Accounts.get_current_user_info ext (access_token resp) c'
  = (Return (login_user resp), c').
Proof.
  intros [Hdec Hid] Hnd Hlogin.
  unfold Accounts.login, bind in Hlogin.
  rewrite authenticate_user_run in Hlogin.
  destruct (user_by_email (session c) (UserLogin.email data)) as [u|] eqn:Hu;
    [|discriminate].
  destruct (verify_password sec _ _); [|discriminate].
  rewrite create_user_token_run in Hlogin.
  cbn [ret] in Hlogin. inversion Hlogin; subst resp c'. clear Hlogin.
  cbn [access_token login_user].
  unfold Accounts.get_current_user_info, Deps.get_current_user,
    Accounts.token_data.
  rewrite Hdec. cbn [sub claim_sub]. rewrite Hid.
  unfold AuthService.get_user_by_id, bind, get_session, user_by_id.
  unfold user_by_email in Hu. apply find_some in Hu. destruct Hu as [Hin _].
  rewrite (@find_by_distinct_id _ _ Hnd Hin). reflexivity.
Qed.

Lemma toy_tokens_round_trip :
  tokens_round_trip Sample2.world Sample2.security.
Proof.
  split.
  - intros now claims. reflexivity.
  - intros u. cbn. f_equal. lia.
Qed.

Lemma login_token_resolves_witness :
  exists resp,
    Accounts.login Sample2.security
      (UserLogin.Build (lit "alice@example.com") (lit "a-hs")) Sample.ctx
    = (Return resp, Sample.ctx)
    /\ Accounts.get_current_user_info Sample2.world (access_token resp)
         Sample.ctx = (Return Sample.alice, Sample.ctx).
Proof.
  assert (Hnd : user_ids_distinct (session Sample.ctx)).
  { unfold user_ids_distinct. cbn.
    repeat constructor; cbn; intuition discriminate. }
  exists (mkLoginResponse
            (create_access_token Sample2.security 10
               (Accounts.token_data Sample2.security Sample.alice))
            (lit "bearer") Sample.alice).
  split; [reflexivity|].
  exact (@login_token_resolves Sample2.world Sample2.security
           (UserLogin.Build (lit "alice@example.com") (lit "a-hs"))
           Sample.ctx _ Sample.ctx toy_tokens_round_trip Hnd eq_refl).
Defined.


Lemma login_failure_is_uniform_witness :
  fst (Accounts.login Sample2.security
         (UserLogin.Build (lit "alice@example.com") (lit "guess")) Sample.ctx)
  = fst (Accounts.login Sample2.security
           (UserLogin.Build (lit "nobody@example.com") (lit "guess"))
           Sample.ctx).
Proof.
  destruct (login_failure_is_uniform Sample2.security
              (UserLogin.Build (lit "alice@example.com") (lit "guess"))
              Sample.ctx) as (_ & H1 & _).
  destruct (login_failure_is_uniform Sample2.security
              (UserLogin.Build (lit "nobody@example.com") (lit "guess"))
              Sample.ctx) as (_ & H2 & _).
  cbv zeta in H1, H2.
  destruct (H1 _ eq_refl) as [E1 _]. destruct (H2 _ eq_refl) as [E2 _].
  reflexivity.
Defined.

(** A signup with an e-mail that is already registered, or with a
    non-empty phone that is already registered, fails with 400 before any
    hash or identifier is drawn, and leaves the store as it was. *)
Theorem signup_rejects_duplicates
    (ext : External) (sec : Security) (w : N) (c : Ctx)
    (data : UserSignup.t) :
  let r := request w (Accounts.signup ext sec data) c in
  (forall taken,
     user_by_email (committed c) (UserSignup.email data) = Some taken ->
     fst r = Raised (HTTPException 400 (lit "Email already registered"))
     /\ committed (snd r) = committed c /\ minted (snd r) = minted c)
  /\ (forall x p taken,
        user_by_email (committed c) (UserSignup.email data) = None ->
        UserSignup.phone data = Some (x :: p) ->
        user_by_phone (committed c) (x :: p) = Some taken ->
        fst r = Raised (HTTPException 400
                          (lit "Phone number already registered"))
        /\ committed (snd r) = committed c /\ minted (snd r) = minted c).
Proof.
  cbv zeta. rewrite request_run.
  set (c0 := begin_request w c).
  split.
  - intros taken Hemail.
    assert (Hrun : Accounts.signup ext sec data c0
                   = (Raised (HTTPException 400
                                (lit "Email already registered")), c0)).
    { unfold Accounts.signup, Accounts.create_user.
      unfold bind at 1 2. unfold get_session at 1.
      subst c0. cbn [begin_request session]. rewrite Hemail. reflexivity. }
    rewrite Hrun. subst c0. cbn. auto.
  - intros x p taken Hemail Hphone Htaken.
    assert (Hrun : Accounts.signup ext sec data c0
                   = (Raised (HTTPException 400
                                (lit "Phone number already registered")),
                      c0)).
    { unfold Accounts.signup, Accounts.create_user.
      unfold bind at 1 2. unfold get_session at 1.
      subst c0. cbn [begin_request session]. rewrite Hemail, Hphone.
      unfold bind at 1. rewrite Htaken. reflexivity. }
    rewrite Hrun. subst c0. cbn. auto.
Qed.

Lemma signup_rejects_duplicates_witness :
  fst (request 1%N
         (Accounts.signup Sample2.world Sample2.security
            (UserSignup.Build (lit "alice@example.com") None (lit "secret123")))
         Sample.ctx)
  = Raised (HTTPException 400 (lit "Email already registered")).
Proof.
  exact (proj1 (proj1 (signup_rejects_duplicates Sample2.world
                         Sample2.security 1%N Sample.ctx
                         (UserSignup.Build (lit "alice@example.com") None
                                           (lit "secret123")))
                  Sample.alice eq_refl)).
Defined.

Lemma NoDup_snoc (A : Type) (l : list A) (x : A) :
  NoDup l -> ~ In x l -> NoDup (l ++ [x]).
Proof.
  intros Hl Hx. induction Hl as [|y l Hy Hl IH]; simpl.
  - constructor; [intros [] | constructor].
  - constructor.
    + intros Hin. apply in_app_or in Hin. destruct Hin as [Hin|[->|[]]].
      * exact (Hy Hin).
      * apply Hx. left. reflexivity.
    + apply IH. intros Hin. apply Hx. right. exact Hin.
Qed.

(** What a signup commits: nothing, or one more user whose e-mail no
    stored user had. *)
Lemma create_user_commits (ext : External) (sec : Security)
    (data : UserSignup.t) (c : Ctx) :
  committed (snd (Accounts.create_user ext sec data c)) = committed c
  \/ exists u,
       user_by_email (session c) (User.email u) = None
       /\ committed (snd (Accounts.create_user ext sec data c))
          = mkDatabase (users (session c) ++ [u]) (chats (session c))
                       (messages (session c)).
Proof.
  generalize (eq_refl (Accounts.create_user ext sec data c)).
  generalize (Accounts.create_user ext sec data c) at 1 3 4.
  intros r.
  unfold Accounts.create_user.
  unfold bind at 1. unfold get_session at 1.
  destruct (user_by_email (session c) (UserSignup.email data)) as [u0|]
    eqn:Hemail; [intros ->; left; reflexivity|].
  assert (Hcheck : forall cc,
    exists b,
      (match UserSignup.phone data with
       | Some ((_ :: _) as p) =>
           match user_by_phone (session c) p with
           | Some _ => ret true
           | None => ret false
           end
       | _ => ret false
       end) cc = (Return b, cc)).
  { intros cc. destruct (UserSignup.phone data) as [[|x p]|];
      try (exists false; reflexivity).
    destruct (user_by_phone (session c) (x :: p));
      [exists true | exists false]; reflexivity. }
  match goal with
  | |- context [bind _ _ ?cc] => destruct (Hcheck cc) as [b Hb]
  end.
  erewrite bind_Return by exact Hb.
  destruct b; [intros ->; left; reflexivity|].
  unfold Accounts.hash_password at 1.
  erewrite bind_Return by reflexivity.
  unfold Accounts.insert_user, bind, new_uuid, utcnow, get_session,
    put_session, ret, db_commit, Accounts.refresh_user.
  cbn [committed session clock groq_calls minted users chats messages].
  destruct (varchar 255 (UserSignup.email data)) as [e|];
    [|intros ->; left; reflexivity].
  destruct (match UserSignup.phone data with
            | Some p => option_map Some (varchar 20 p)
            | None => Some None
            end) as [p|]; [|intros ->; left; reflexivity].
  destruct (varchar 255 (get_password_hash sec (minted c)
                           (UserSignup.password data))) as [h|];
    [|intros ->; left; reflexivity].
  match goal with
  | |- context [if user_row_accepted ?d ?u then _ else _] =>
      destruct (user_row_accepted d u) eqn:Hacc;
        [|intros ->; left; reflexivity]
  end.
  unfold bind, get_session, ret.
  cbn [committed session clock groq_calls minted users chats messages].
  intros ->. right. eexists. split.
  { apply accepted_row_checks in Hacc. apply Hacc. }
  match goal with
  | |- context [match ?t with Some _ => _ | None => _ end] => destruct t
  end; reflexivity.
Qed.

(** Signup keeps e-mail addresses distinct: whatever the request and its
    outcome, a store without two users of one e-mail stays so. *)
Theorem signup_keeps_emails_distinct
    (ext : External) (sec : Security) (w : N) (c : Ctx)
    (data : UserSignup.t) :
  emails_distinct (committed c) ->
  emails_distinct
    (committed (snd (request w (Accounts.signup ext sec data) c))).
Proof.
  intros Hnd. rewrite request_run. cbn [snd close_session committed].
  set (c0 := begin_request w c).
  assert (Hsignup : committed (snd (Accounts.signup ext sec data c0))
                    = committed (snd (Accounts.create_user ext sec data c0))).
  { unfold Accounts.signup, bind.
    destruct (Accounts.create_user ext sec data c0) as [[u|e] c1];
      reflexivity. }
  rewrite Hsignup.
  destruct (create_user_commits ext sec data c0) as [Hsame|(u & Hfree & Hnew)].
  - rewrite Hsame. exact Hnd.
  - rewrite Hnew. subst c0. cbn [begin_request session] in *.
    unfold emails_distinct. cbn [users]. rewrite map_app. cbn [List.map].
    apply NoDup_snoc; [exact Hnd | apply user_by_email_None, Hfree].
Qed.

Lemma signup_keeps_emails_distinct_witness :
  emails_distinct
    (committed (snd (request 1%N
       (Accounts.signup Sample2.world Sample2.security Sample2.carol)
       Sample.ctx))).
Proof.
  apply signup_keeps_emails_distinct.
  unfold emails_distinct. cbn.
  repeat constructor; cbn; intuition discriminate.
Defined.

(** ** Chats *)

Lemma find_filter_removed (rows : list Chat.t) (cid : UUID) :
  find (fun r => N.eqb (Chat.id r) cid)
       (filter (fun r => negb (N.eqb (Chat.id r) cid)) rows) = None.
Proof.
  induction rows as [|y rows IH]; simpl; [reflexivity|].
  destruct (N.eqb (Chat.id y) cid) eqn:E; simpl; [exact IH|].
  rewrite E. exact IH.
Qed.

Lemma find_filter_kept (rows : list Chat.t) (cid other : UUID) :
  other <> cid ->
  find (fun r => N.eqb (Chat.id r) other)
       (filter (fun r => negb (N.eqb (Chat.id r) cid)) rows)
  = find (fun r => N.eqb (Chat.id r) other) rows.
Proof.
  intros Hne. induction rows as [|y rows IH]; simpl; [reflexivity|].
  destruct (N.eqb_spec (Chat.id y) cid) as [E|E]; simpl.
  - destruct (N.eqb_spec (Chat.id y) other) as [E'|_]; [congruence|].
    exact IH.
  - rewrite IH. reflexivity.
Qed.

Lemma filter_chat_removed (msgs : list Message.t) (cid : UUID) :
  filter (fun m => N.eqb (Message.chat_id m) cid)
         (filter (fun m => negb (N.eqb (Message.chat_id m) cid)) msgs) = [].
Proof.
  induction msgs as [|m msgs IH]; simpl; [reflexivity|].
  destruct (N.eqb (Message.chat_id m) cid) eqn:E; simpl; [exact IH|].
  rewrite E. exact IH.
Qed.

Lemma filter_chat_kept (msgs : list Message.t) (cid other : UUID) :
  other <> cid ->
  filter (fun m => N.eqb (Message.chat_id m) other)
         (filter (fun m => negb (N.eqb (Message.chat_id m) cid)) msgs)
  = filter (fun m => N.eqb (Message.chat_id m) other) msgs.
Proof.
  intros Hne. induction msgs as [|m msgs IH]; simpl; [reflexivity|].
  destruct (N.eqb_spec (Message.chat_id m) cid) as [E|E]; simpl.
  - destruct (N.eqb_spec (Message.chat_id m) other) as [E'|_]; [congruence|].
    exact IH.
  - rewrite IH. reflexivity.
Qed.

(** The store a successful delete commits. *)
Lemma delete_chat_run (w : N) (c : Ctx) (cid : UUID) (user : User.t)
    (ch : Chat.t) :
  chat_by_id (committed c) cid = Some ch ->
  Chat.user_id ch = User.id user ->
  request w (Api.delete_chat cid user) c
  = (Return cid,
     let d := mkDatabase (users (committed c))
                (filter (fun r => negb (N.eqb (Chat.id r) cid))
                        (chats (committed c)))
                (filter (fun m => negb (N.eqb (Message.chat_id m) cid))
                        (messages (committed c))) in
     mkCtx d d (clock c + Z.of_N w) (groq_calls c) (minted c)).
Proof.
  intros Hfind Hown.
  pose proof (chat_by_id_id _ _ Hfind) as Hid. subst cid.
  rewrite request_run.
  set (c0 := begin_request w c).
  assert (Hrun : Api.delete_chat (Chat.id ch) user c0
                 = (Return (Chat.id ch),
                    let d := mkDatabase (users (committed c))
                      (filter (fun r => negb (N.eqb (Chat.id r) (Chat.id ch)))
                              (chats (committed c)))
                      (filter (fun m => negb (N.eqb (Message.chat_id m)
                                                    (Chat.id ch)))
                              (messages (committed c))) in
                    mkCtx d d (clock c + Z.of_N w) (groq_calls c)
                          (minted c))).
  { unfold Api.delete_chat, ChatService.delete_chat.
    unfold bind at 1.
    erewrite guarded_owned;
      [ | exact Hfind | rewrite Hown; apply N.eqb_refl ].
    reflexivity. }
  rewrite Hrun. reflexivity.
Qed.

(** Deleting a chat removes it and all of its messages and nothing else:
    the chat is then not found, it has no message left, and every other
    chat, with its messages, and every user is as before. *)
Theorem delete_chat_cascades (w : N) (c : Ctx) (cid : UUID) (user : User.t)
    (ch : Chat.t) :
  chat_by_id (committed c) cid = Some ch ->
  Chat.user_id ch = User.id user ->
  exists c',
    request w (Api.delete_chat cid user) c = (Return cid, c')
    /\ chat_by_id (committed c') cid = None
    /\ messages_of (committed c') cid = []
    /\ (forall w2, fails_with HTTP_404_NOT_FOUND
                     (request w2 (Api.get_chat_with_messages cid user) c'))
    /\ users (committed c') = users (committed c)
    /\ (forall other, other <> cid ->
          chat_by_id (committed c') other = chat_by_id (committed c) other
          /\ messages_of (committed c') other
             = messages_of (committed c) other).
Proof.
  intros Hfind Hown.
  eexists. split; [apply (@delete_chat_run w c cid user ch Hfind Hown)|].
  cbv zeta. cbn [committed].
  assert (Hgone : chat_by_id
            (mkDatabase (users (committed c))
               (filter (fun r => negb (N.eqb (Chat.id r) cid))
                       (chats (committed c)))
               (filter (fun m => negb (N.eqb (Message.chat_id m) cid))
                       (messages (committed c)))) cid = None)
    by apply find_filter_removed.
  split; [exact Hgone|].
  split; [unfold messages_of; cbn [messages];
          rewrite filter_chat_removed; reflexivity|].
  split.
  { intros w2. rewrite request_run. unfold Api.get_chat_with_messages.
    rewrite guarded_missing by exact Hgone.
    eexists; eexists; reflexivity. }
  split; [reflexivity|].
  intros other Hne. split.
  - apply find_filter_kept, Hne.
  - unfold messages_of. cbn [messages].
    rewrite filter_chat_kept by exact Hne. reflexivity.
Qed.

Lemma delete_chat_cascades_witness :
  exists c',
    request 1%N (Api.delete_chat 8%N Sample.alice) Sample.ctx
    = (Return 8%N, c')
    /\ messages (committed c') = []
    /\ chat_by_id (committed c') 7%N = Some Sample.fresh_chat.
Proof.
  destruct (@delete_chat_cascades 1%N Sample.ctx 8%N Sample.alice
              Sample.old_chat eq_refl eq_refl)
    as (c' & Hrun & _ & _ & _ & _ & Hother).
  exists c'. split; [exact Hrun|].
  rewrite (@delete_chat_run 1%N Sample.ctx 8%N Sample.alice
             Sample.old_chat eq_refl eq_refl) in Hrun.
  inversion Hrun; subst c'. split; reflexivity.
Defined.

(** The session after the UPDATE of a chat object, in full. *)
Lemma update_chat_shape (loaded new : Chat.t) (c : Ctx) :
  Chat.title new = Chat.title loaded \/ title_fits (Chat.title new) = true ->
  update_chat loaded new c
  = (Return tt,
     mkCtx (committed c)
       (mkDatabase (users (session c))
          (if Chat.same_columns loaded new then chats (session c)
           else List.map (fun row => if N.eqb (Chat.id row) (Chat.id new)
                                     then Chat.set_updated_at new (clock c)
                                     else row) (chats (session c)))
          (messages (session c)))
       (clock c) (groq_calls c) (minted c)).
Proof.
  intros Hfit.
  unfold update_chat, bind, utcnow, get_session, put_session, ret.
  destruct (Chat.same_columns loaded new) eqn:Hsame.
  - destruct c as [cm [us chs ms] ck calls mt]. reflexivity.
  - rewrite (update_chat_title_kept _ _ Hfit), set_title_same. reflexivity.
Qed.

Lemma find_map_other (rows : list Chat.t) (new : Chat.t) (other : UUID)
    (f : Chat.t -> Chat.t) :
  other <> Chat.id new ->
  (forall row, Chat.id (f row) = Chat.id new) ->
  find (fun r => N.eqb (Chat.id r) other)
       (List.map (fun row => if N.eqb (Chat.id row) (Chat.id new)
                             then f row else row) rows)
  = find (fun r => N.eqb (Chat.id r) other) rows.
Proof.
  intros Hne Hf. induction rows as [|y rows IH]; simpl; [reflexivity|].
  destruct (N.eqb_spec (Chat.id y) (Chat.id new)) as [E|E].
  - rewrite Hf.
    destruct (N.eqb_spec (Chat.id new) other) as [E'|_]; [congruence|].
    destruct (N.eqb_spec (Chat.id y) other) as [E'|_]; [congruence|].
    exact IH.
  - rewrite IH. reflexivity.
Qed.

(** Renaming a chat sets its title and keeps its owner, its message count
    and its creation time; its messages, the other chats and the users are
    as before. *)
Theorem rename_sets_title_only (w : N) (c : Ctx) (cid : UUID)
    (user : User.t) (ch : Chat.t) (update_data : ChatUpdate.t) :
  chat_by_id (committed c) cid = Some ch ->
  Chat.user_id ch = User.id user ->
  ChatUpdate.valid update_data = true ->
  exists row c',
    request w (Api.update_chat_title cid update_data user) c
    = (Return row, c')
    /\ chat_by_id (committed c') cid = Some row
    /\ Chat.title row = ChatUpdate.title update_data
    /\ Chat.id row = cid
    /\ Chat.user_id row = Chat.user_id ch
    /\ Chat.message_count row = Chat.message_count ch
    /\ Chat.created_at row = Chat.created_at ch
    /\ users (committed c') = users (committed c)
    /\ messages (committed c') = messages (committed c)
    /\ (forall other, other <> cid ->
          chat_by_id (committed c') other = chat_by_id (committed c) other).
Proof.
  intros Hfind Hown Hvalid.
  pose proof (chat_by_id_id _ _ Hfind) as Hid. subst cid.
  unfold ChatUpdate.valid in Hvalid. apply andb_true_iff in Hvalid.
  destruct Hvalid as [_ Hfit].
  set (renamed := Chat.set_title ch (ChatUpdate.title update_data)).
  set (c0 := begin_request w c).
  pose proof (@update_chat_shape ch renamed c0 (or_intror Hfit)) as Hupd.
  set (d := mkDatabase _ _ _) in Hupd.
  assert (Hrow : exists row,
            chat_by_id d (Chat.id ch) = Some row
            /\ Chat.title row = ChatUpdate.title update_data
            /\ Chat.id row = Chat.id ch
            /\ Chat.user_id row = Chat.user_id ch
            /\ Chat.message_count row = Chat.message_count ch
            /\ Chat.created_at row = Chat.created_at ch).
  { subst d. unfold chat_by_id. cbn [chats].
    destruct (Chat.same_columns ch renamed) eqn:Hsame.
    - exists ch. subst c0. cbn [begin_request session].
      split; [exact Hfind|].
      apply same_columns_eq in Hsame. destruct Hsame as [Ht _].
      split; [rewrite Ht; reflexivity | auto].
    - exists (Chat.set_updated_at renamed (clock c0)).
      split; [|cbn; auto].
      subst c0. cbn [begin_request session clock].
      apply (@find_after_update (chats (committed c)) ch
               (Chat.set_updated_at renamed (clock c + Z.of_N w)) Hfind
               eq_refl). }
  destruct Hrow as (row & Hrow & Ht & Hi & Hu & Hn & Hc).
  exists row.
  exists (mkCtx d d (clock c0) (groq_calls c0) (minted c0)).
  split.
  { rewrite request_run.
    assert (Hrun : Api.update_chat_title (Chat.id ch) update_data user c0
                   = (Return row,
                      mkCtx d d (clock c0) (groq_calls c0) (minted c0))).
    { unfold Api.update_chat_title, ChatService.update_chat_title.
      erewrite guarded_owned;
        [ | exact Hfind | rewrite Hown; apply N.eqb_refl ].
      fold renamed.
      erewrite bind_Return by exact Hupd.
      unfold db_commit, refresh_chat, bind, get_session, ret.
      cbn [committed session clock groq_calls minted Chat.id renamed
           Chat.set_title].
      rewrite Hrow. reflexivity. }
    fold c0. rewrite Hrun. reflexivity. }
  cbn [committed]. split; [exact Hrow|].
  repeat (split; [assumption|]).
  split; [reflexivity|]. split; [reflexivity|].
  intros other Hne. subst d. unfold chat_by_id. cbn [chats].
  destruct (Chat.same_columns ch renamed); [reflexivity|].
  subst c0. cbn [begin_request session].
  apply (@find_map_other (chats (committed c)) renamed other
           (fun _ => Chat.set_updated_at renamed (clock (begin_request w c))));
    [exact Hne | reflexivity].
Qed.

Lemma rename_sets_title_only_witness :
  exists row c',
    request 1%N (Api.update_chat_title 8%N
                   (ChatUpdate.Build (lit "AfCFTA basics")) Sample.alice)
      Sample.ctx = (Return row, c')
    /\ Chat.title row = lit "AfCFTA basics"
    /\ Chat.message_count row = 2.
Proof.
  destruct (@rename_sets_title_only 1%N Sample.ctx 8%N Sample.alice
              Sample.old_chat (ChatUpdate.Build (lit "AfCFTA basics"))
              eq_refl eq_refl eq_refl)
    as (row & c' & Hrun & _ & Ht & _ & _ & Hn & _).
  exists row, c'. repeat split; assumption.
Defined.

(** A chat creation, step by step, for a title the column stores as
    [stored]. *)
Lemma create_chat_stored (ext : External) (user : User.t)
    (chat_data : ChatCreate.t) (c : Ctx) (stored : str) :
  let title := ChatService.title_or_default (ChatCreate.title chat_data) in
  let created := Chat.Build (uuid4 ext (minted c)) (User.id user) stored 0
                            (clock c) (clock c) in
  let d := mkDatabase (users (session c)) (chats (session c) ++ [created])
                      (messages (session c)) in
  varchar 200 title = Some stored ->
  chat_by_id (session c) (uuid4 ext (minted c)) = None ->
  Api.create_chat ext chat_data user c
  = (Return created, mkCtx d d (clock c) (groq_calls c) (S (minted c))).
Proof.
  cbv zeta. intros Hfit Hfresh.
  unfold Api.create_chat, ChatService.create_chat, insert_chat.
  unfold bind, new_uuid, utcnow, get_session, put_session, ret, db_commit,
    refresh_chat.
  rewrite Hfit.
  unfold bind, get_session, ret.
  cbn [committed session clock groq_calls minted users chats messages].
  unfold chat_by_id in *.
  cbn [committed session clock groq_calls minted users chats messages Chat.id].
  match goal with
  | |- context [find ?p (?l ++ [?x])] =>
      rewrite (@find_snoc_first _ p l x Hfresh (N.eqb_refl _))
  end.
  reflexivity.
Qed.

(** A chat creation the store accepts as it is, step by step. *)
Lemma create_chat_run (ext : External) (user : User.t)
    (chat_data : ChatCreate.t) (c : Ctx) :
  let title := ChatService.title_or_default (ChatCreate.title chat_data) in
  let created := Chat.Build (uuid4 ext (minted c)) (User.id user) title 0
                            (clock c) (clock c) in
  let d := mkDatabase (users (session c)) (chats (session c) ++ [created])
                      (messages (session c)) in
  title_fits title = true ->
  chat_by_id (session c) (uuid4 ext (minted c)) = None ->
  Api.create_chat ext chat_data user c
  = (Return created, mkCtx d d (clock c) (groq_calls c) (S (minted c))).
Proof.
  cbv zeta. intros Hfit Hfresh.
  apply create_chat_stored; [apply varchar_title, Hfit | exact Hfresh].
Qed.

Lemma varchar_refused (n : nat) (s : str) :
  Z.of_nat n < Text.len s ->
  Exists (fun ch => ch <> 32%N) (skipn n s) ->
  varchar n s = None.
Proof.
  intros Hlong Hex. unfold varchar.
  apply Z.leb_gt in Hlong. rewrite Hlong.
  destruct (forallb (N.eqb 32) (skipn n s)) eqn:Hall; [|reflexivity].
  exfalso. rewrite forallb_forall in Hall.
  apply Exists_exists in Hex. destruct Hex as (ch & Hin & Hne).
  specialize (Hall ch Hin). apply N.eqb_eq in Hall. congruence.
Qed.

Lemma varchar_cut (n : nat) (s : str) :
  Z.of_nat n < Text.len s ->
  Forall (fun ch => ch = 32%N) (skipn n s) ->
  varchar n s = Some (firstn n s).
Proof.
  intros Hlong Hall. unfold varchar.
  apply Z.leb_gt in Hlong. rewrite Hlong.
  replace (forallb (N.eqb 32) (skipn n s)) with true; [reflexivity|].
  symmetry. apply forallb_forall. intros ch Hin.
  rewrite Forall_forall in Hall. rewrite (Hall ch Hin). reflexivity.
Qed.

(** A chat title of more than 200 characters passes the creation schema.
    When one of the characters beyond the 200th is not a space the store
    refuses it: the request ends in a 500 and no chat is created.  When
    they are all spaces the chat is created with the first 200 characters
    as its title. *)
Theorem create_chat_rejects_long_title
    (ext : External) (w : N) (c : Ctx) (user : User.t) (title : str) :
  200 < Text.len title ->
  let run :=
    request w (Api.create_chat ext (ChatCreate.parse (Given title)) user) c in
  (Exists (fun ch => ch <> 32%N) (skipn 200 title) ->
   exists e c',
     run = (Raised e, c')
     /\ response_status e = 500
     /\ committed c' = committed c)
  /\ (Forall (fun ch => ch = 32%N) (skipn 200 title) ->
      chat_by_id (committed c) (uuid4 ext (minted c)) = None ->
      exists created c',
        run = (Return created, c')
        /\ Chat.title created = firstn 200 title
        /\ Text.len (Chat.title created) = 200
        /\ Chat.user_id created = User.id user
        /\ chats (committed c') = chats (committed c) ++ [created]).
Proof.
  intros Hlong. cbv zeta.
  assert (Htitle : ChatService.title_or_default
                     (ChatCreate.title (ChatCreate.parse (Given title)))
                   = title).
  { destruct title as [|x s]; [cbn in Hlong; lia | reflexivity]. }
  rewrite request_run.
  split.
  - intros Hex.
    unfold Api.create_chat, ChatService.create_chat, insert_chat.
    rewrite Htitle.
    unfold bind, new_uuid, utcnow, get_session, put_session, ret.
    rewrite (@varchar_refused 200 title Hlong Hex).
    eexists. eexists. split; [reflexivity|]. split; reflexivity.
  - intros Hall Hfresh.
    assert (Hstored : varchar 200
                        (ChatService.title_or_default
                           (ChatCreate.title (ChatCreate.parse (Given title))))
                      = Some (firstn 200 title))
      by (rewrite Htitle; apply varchar_cut; assumption).
    rewrite (@create_chat_stored ext user _ (begin_request w c) _ Hstored
               Hfresh).
    eexists. eexists. split; [reflexivity|].
    cbn [Chat.title Chat.user_id close_session snd committed chats
         begin_request session].
    split; [reflexivity|].
    split; [|split; reflexivity].
    unfold Text.len in *. rewrite firstn_length_le; lia.
Qed.

Lemma create_chat_rejects_long_title_witness :
  (exists e c',
     request 1%N (Api.create_chat Sample2.world
                    (ChatCreate.parse (Given (repeat 65%N 201))) Sample.alice)
       Sample.ctx = (Raised e, c')
     /\ response_status e = 500
     /\ committed c' = Sample.store)
  /\ (exists created c',
        request 1%N (Api.create_chat Sample2.world
                       (ChatCreate.parse (Given (repeat 65%N 200 ++ [32%N])))
                       Sample.alice)
          Sample.ctx = (Return created, c')
        /\ Chat.title created = repeat 65%N 200).
Proof.
  split.
  - apply (proj1 (@create_chat_rejects_long_title Sample2.world 1%N Sample.ctx
                    Sample.alice (repeat 65%N 201)
                    ltac:(vm_compute; reflexivity))).
    apply Exists_cons_hd. discriminate.
  - destruct (proj2 (@create_chat_rejects_long_title Sample2.world 1%N
                       Sample.ctx Sample.alice (repeat 65%N 200 ++ [32%N])
                       ltac:(vm_compute; reflexivity)))
      as (created & c' & Hrun & Htitle & _).
    + repeat constructor.
    + reflexivity.
    + exists created, c'. split; [exact Hrun | exact Htitle].
Defined.

Lemma no_message_of_absent_chat (d : Database) (cid : UUID) :
  messages_reference_chats d -> chat_by_id d cid = None ->
  filter (fun m => N.eqb (Message.chat_id m) cid) (messages d) = [].
Proof.
  intros Href Habsent.
  unfold messages_reference_chats in Href. rewrite Forall_forall in Href.
  destruct (filter _ (messages d)) as [|m rest] eqn:E; [reflexivity|].
  exfalso.
  assert (Hin : In m (filter (fun m => N.eqb (Message.chat_id m) cid)
                             (messages d)))
    by (rewrite E; left; reflexivity).
  apply filter_In in Hin. destruct Hin as [Hin Heq].
  apply N.eqb_eq in Heq.
  destruct (Href m Hin) as (ch & Hch & Hid).
  unfold chat_by_id in Habsent.
  pose proof (find_none _ _ Habsent ch Hch) as Hf. simpl in Hf.
  rewrite Hid, Heq, N.eqb_refl in Hf. discriminate.
Qed.

(** A created chat can be fetched by its owner, empty, and by nobody else:
    the fetch by another user is refused with 403; the owner's list counts
    one chat more. *)
Theorem created_chat_belongs_to_creator
    (ext : External) (w1 w2 : N) (c : Ctx) (user other : User.t)
    (chat_data : ChatCreate.t) (page page_size : Z) :
  title_fits (ChatService.title_or_default (ChatCreate.title chat_data))
  = true ->
  chat_by_id (committed c) (uuid4 ext (minted c)) = None ->
  messages_reference_chats (committed c) ->
  User.id other <> User.id user ->
  exists created c1,
    request w1 (Api.create_chat ext chat_data user) c = (Return created, c1)
    /\ Chat.id created = uuid4 ext (minted c)
    /\ fst (request w2 (Api.get_chat_with_messages (Chat.id created) user)
              c1)
       = Return (mkChatWithMessages created [])
    /\ fails_with HTTP_403_FORBIDDEN
         (request w2 (Api.get_chat_with_messages (Chat.id created) other) c1)
    /\ (forall before after,
          fst (request w2 (Api.get_user_chats ext page page_size user) c)
          = Return before ->
          fst (request w2 (Api.get_user_chats ext page page_size user) c1)
          = Return after ->
          clr_total after = clr_total before + 1).
Proof.
  intros Hfit Hfresh Href Hother.
  pose proof (@create_chat_run ext user chat_data (begin_request w1 c)
                Hfit Hfresh) as Hrun.
  cbv zeta in Hrun.
  cbn [begin_request committed session clock groq_calls minted] in Hrun.
  set (created := Chat.Build _ _ _ _ _ _) in *.
  set (d := mkDatabase _ _ _) in *.
  exists created.
  exists (mkCtx d d (clock c + Z.of_N w1) (groq_calls c) (S (minted c))).
  split; [rewrite request_run, Hrun; reflexivity|].
  split; [reflexivity|].
  assert (Hfind : chat_by_id d (Chat.id created) = Some created).
  { subst d. unfold chat_by_id in *. cbn [chats].
    apply find_snoc_first; [exact Hfresh | apply N.eqb_refl]. }
  split; [|split].
  - rewrite request_run. unfold Api.get_chat_with_messages.
    erewrite guarded_owned;
      [ | exact Hfind | apply N.eqb_refl ].
    unfold bind, get_session, ret. cbn [fst begin_request session].
    unfold messages_of. subst d.
    cbn [messages committed session begin_request].
    change (Chat.id created) with (uuid4 ext (minted c)).
    rewrite (@no_message_of_absent_chat _ _ Href Hfresh). reflexivity.
  - rewrite request_run. unfold Api.get_chat_with_messages.
    erewrite guarded_foreign; [ | exact Hfind | ].
    + eexists; eexists; reflexivity.
    + cbn [Chat.user_id created]. apply N.eqb_neq. congruence.
  - intros before after Hb Ha.
    rewrite request_run in Hb, Ha. cbn [fst] in Hb, Ha.
    unfold Api.get_user_chats, ChatService.get_user_chats, bind, get_session,
      ret in Hb, Ha.
    cbn [fst snd begin_request session] in Hb, Ha.
    inversion Hb; inversion Ha; subst before after.
    cbn [clr_total]. subst d. cbn [chats].
    rewrite filter_app, length_app. cbn [filter Chat.user_id created].
    rewrite N.eqb_refl. cbn [List.length]. lia.
Qed.

Lemma toy_store_references : messages_reference_chats Sample.store.
Proof.
  unfold messages_reference_chats. cbn.
  repeat constructor; exists Sample.old_chat; cbn; auto.
Qed.

Lemma created_chat_belongs_to_creator_witness :
  exists created c1,
    request 1%N (Api.create_chat Sample2.world
                   (ChatCreate.parse (Given (lit "Budget plan")))
                   Sample.alice) Sample.ctx = (Return created, c1)
    /\ fails_with 403
         (request 2%N (Api.get_chat_with_messages (Chat.id created)
                         Sample.bob) c1).
Proof.
  destruct (@created_chat_belongs_to_creator Sample2.world 1%N 2%N Sample.ctx
              Sample.alice Sample.bob
              (ChatCreate.parse (Given (lit "Budget plan"))) 1 20
              eq_refl eq_refl toy_store_references
              ltac:(cbn; discriminate))
    as (created & c1 & Hrun & _ & _ & Hother & _).
  exists created, c1. split; assumption.
Defined.

(** ** The store invariant *)

Lemma flushed_rows_ids (loaded new : Chat.t) (stamp : datetime)
    (rows : list Chat.t) :
  List.map Chat.id (flushed_rows loaded new stamp rows) = List.map Chat.id rows.
Proof.
  unfold flushed_rows. destruct (Chat.same_columns loaded new); [reflexivity|].
  rewrite map_map. apply map_ext. intros row.
  destruct (N.eqb_spec (Chat.id row) (Chat.id new)) as [E|_];
    [symmetry; exact E | reflexivity].
Qed.

Lemma references_by_ids (d d' : Database) :
  List.map Chat.id (chats d') = List.map Chat.id (chats d) ->
  (forall m, In m (messages d') ->
             In m (messages d)
             \/ In (Message.chat_id m) (List.map Chat.id (chats d))) ->
  messages_reference_chats d -> messages_reference_chats d'.
Proof.
  intros Hids Hm Href. unfold messages_reference_chats in *.
  rewrite Forall_forall in *. intros m Hin.
  assert (Hid : In (Message.chat_id m) (List.map Chat.id (chats d))).
  { destruct (Hm m Hin) as [Hold|Hnew]; [|exact Hnew].
    destruct (Href m Hold) as (ch & Hch & E). rewrite <- E.
    apply in_map. exact Hch. }
  rewrite <- Hids in Hid. apply in_map_iff in Hid.
  destruct Hid as (ch & E & Hch). exists ch. auto.
Qed.

Lemma stored_count_snoc2 (d d' : Database) (u a : Message.t) (cid : UUID) :
  messages d' = messages d ++ [u; a] ->
  Message.chat_id u = cid -> Message.chat_id a = cid ->
  forall other,
    stored_count d' other
    = if N.eqb cid other then stored_count d other + 2
      else stored_count d other.
Proof.
  intros Hm Hu Ha other. unfold stored_count. rewrite Hm, filter_app.
  cbn [filter]. rewrite Hu, Ha.
  destruct (N.eqb cid other); rewrite length_app; cbn [List.length]; lia.
Qed.

(** The flush of a chat whose count was raised by the two messages added
    keeps every row's count right. *)
Lemma counts_after_send (d d' : Database) (ch updated : Chat.t)
    (stamp : datetime) (u a : Message.t) :
  counts_consistent d ->
  In ch (chats d) ->
  Chat.id updated = Chat.id ch ->
  Chat.message_count updated = stored_count d (Chat.id ch) + 2 ->
  messages d' = messages d ++ [u; a] ->
  Message.chat_id u = Chat.id ch -> Message.chat_id a = Chat.id ch ->
  chats d' = flushed_rows ch updated stamp (chats d) ->
  counts_consistent d'.
Proof.
  intros Hc Hin Hid Hn Hm Hu Ha Hrows.
  pose proof (@stored_count_snoc2 d d' u a _ Hm Hu Ha) as Hcount.
  unfold counts_consistent in *. rewrite Forall_forall in *.
  rewrite Hrows. unfold flushed_rows.
  destruct (Chat.same_columns ch updated) eqn:Hsame.
  - exfalso. apply same_columns_eq in Hsame. destruct Hsame as [_ Hsame].
    specialize (Hc ch Hin). lia.
  - intros row Hrow. apply in_map_iff in Hrow.
    destruct Hrow as (old & <- & Hold).
    rewrite Hcount.
    destruct (N.eqb_spec (Chat.id old) (Chat.id updated)) as [E|E].
    + cbn [Chat.id Chat.message_count Chat.set_updated_at].
      rewrite Hid, N.eqb_refl. exact Hn.
    + destruct (N.eqb_spec (Chat.id ch) (Chat.id old)) as [E'|_];
        [congruence|].
      apply Hc, Hold.
Qed.

(** The flush of a chat whose count is unchanged keeps every row's count
    right when the messages are those of before. *)
Lemma counts_after_rename (d d' : Database) (ch loaded updated : Chat.t)
    (stamp : datetime) :
  counts_consistent d ->
  In ch (chats d) ->
  Chat.id updated = Chat.id ch ->
  Chat.message_count updated = Chat.message_count ch ->
  messages d' = messages d ->
  chats d' = flushed_rows loaded updated stamp (chats d) ->
  counts_consistent d'.
Proof.
  intros Hc Hin Hid Hn Hm Hrows.
  unfold counts_consistent, stored_count in *. rewrite Forall_forall in *.
  rewrite Hrows, Hm. unfold flushed_rows.
  destruct (Chat.same_columns loaded updated); [exact Hc|].
  intros row Hrow. apply in_map_iff in Hrow.
  destruct Hrow as (old & <- & Hold).
  destruct (N.eqb_spec (Chat.id old) (Chat.id updated)) as [E|E].
  - cbn [Chat.id Chat.message_count Chat.set_updated_at].
    rewrite Hn, Hid. apply Hc, Hin.
  - apply Hc, Hold.
Qed.

Lemma update_chat_flushed (loaded new : Chat.t) (c : Ctx) :
  Chat.title new = Chat.title loaded \/ title_fits (Chat.title new) = true ->
  update_chat loaded new c
  = (Return tt,
     mkCtx (committed c)
       (mkDatabase (users (session c))
          (flushed_rows loaded new (clock c) (chats (session c)))
          (messages (session c)))
       (clock c) (groq_calls c) (minted c)).
Proof. apply update_chat_shape. Qed.

(** The store a send with a usable reply commits. *)
Lemma create_message_and_respond_store (ext : External) (c : Ctx)
    (ch : Chat.t) (content t : str) :
  chat_by_id (session c) (Chat.id ch) = Some ch ->
  usable_text (snd (groq ext (groq_calls c)
                      (reply_request ext content
                         (messages_of (session c) (Chat.id ch))))) = Some t ->
  exists updated stamp u a,
    Chat.id updated = Chat.id ch
    /\ Chat.message_count updated
       = Z.of_nat (List.length (messages_of (session c) (Chat.id ch))) + 2
    /\ Message.chat_id u = Chat.id ch /\ Message.chat_id a = Chat.id ch
    /\ committed (snd (MessageService.create_message_and_respond ext ch
                         (MessageCreate.Build content) c))
       = mkDatabase (users (session c))
           (flushed_rows ch updated stamp (chats (session c)))
           (messages (session c) ++ [u; a]).
Proof.
  intros Hfind Hus.
  set (prior := messages_of (session c) (Chat.id ch)) in *.
  set (rq1 := reply_request ext content prior) in *.
  set (rq2 := title_request ext content).
  set (k2 := groq ext (groq_calls c ++ [rq1]) rq2).
  set (counted := Chat.set_message_count ch (Z.of_nat (List.length prior) + 2)).
  set (first := Z.of_nat (List.length prior) =? 0).
  set (gen := first && MessageService.title_accepted (title_of (snd k2))).
  set (updated := if gen then Chat.set_title counted (title_of (snd k2))
                  else counted).
  set (t1 := clock c + Z.of_N (fst (groq ext (groq_calls c) rq1))).
  set (t2 := if first then t1 + Z.of_N (fst k2) else t1).
  exists updated, t2.
  exists (Message.Build (uuid4 ext (minted c)) (Chat.id ch) USER content
                        (clock c)).
  exists (Message.Build (uuid4 ext (S (minted c))) (Chat.id ch) ASSISTANT
                        (Text.strip t) t2).
  split; [unfold updated; destruct gen; reflexivity|].
  split; [unfold updated; destruct gen; reflexivity|].
  split; [reflexivity|]. split; [reflexivity|].
  assert (Hfit : Chat.title updated = Chat.title ch
                 \/ title_fits (Chat.title updated) = true).
  { unfold updated. destruct gen eqn:Hg; [right | left; reflexivity].
    apply title_of_accepted_fits. unfold gen in Hg.
    apply andb_true_iff in Hg. apply Hg. }
  unfold MessageService.create_message_and_respond.
  run_with get_session_run.
  run_with insert_message_run.
  erewrite bind_Return by (apply generate_response_usable; exact Hus).
  cbv beta zeta.
  cbn [committed session clock groq_calls minted users chats messages
       MessageCreate.content].
  fold prior rq1 t1 first counted.
  assert (Htail : forall cc gen',
    clock cc = t2 -> minted cc = S (minted c) ->
    session cc = mkDatabase (users (session c)) (chats (session c))
                   (messages (session c)
                    ++ [Message.Build (uuid4 ext (minted c)) (Chat.id ch)
                          USER content (clock c)]) ->
    committed
      (snd ((assistant_message <- insert_message ext (Chat.id ch) ASSISTANT
                                    (Text.strip t) ;;
             update_chat ch updated ;;;
             db_commit ;;;
             refreshed <- refresh_chat updated ;;
             ret (Message.Build (uuid4 ext (minted c)) (Chat.id ch) USER
                                content (clock c),
                  assistant_message, gen' : bool, refreshed)) cc))
    = mkDatabase (users (session c))
        (flushed_rows ch updated t2 (chats (session c)))
        (messages (session c)
         ++ [Message.Build (uuid4 ext (minted c)) (Chat.id ch) USER content
                           (clock c);
             Message.Build (uuid4 ext (S (minted c))) (Chat.id ch) ASSISTANT
                           (Text.strip t) t2])).
  { intros cc gen' Hclock Hminted Hsession.
    run_with insert_message_run.
    erewrite bind_Return by (apply update_chat_flushed; exact Hfit).
    cbn [committed session clock groq_calls minted users chats messages].
    unfold db_commit, refresh_chat, bind, get_session, ret.
    cbn [committed session clock groq_calls minted users chats messages].
    rewrite Hclock, Hminted, Hsession.
    cbn [users chats messages]. rewrite <- app_assoc. cbn [app].
    destruct (chat_by_id _ (Chat.id updated)); reflexivity. }
  destruct first eqn:Hfirst.
  - unfold bind at 1. unfold bind at 1.
    rewrite generate_chat_title_run.
    cbn [committed session clock groq_calls minted users chats messages].
    fold rq2 k2.
    change (true && MessageService.title_accepted (title_of (snd k2)))
      with (MessageService.title_accepted (title_of (snd k2))) in gen.
    destruct (MessageService.title_accepted (title_of (snd k2))) eqn:Hacc;
      cbn [ret fst snd]; apply Htail; reflexivity.
  - unfold bind at 1. cbn [ret fst snd].
    apply Htail; reflexivity.
Qed.

(** The committed store after a send, whatever its outcome: the store of
    before, or the store with the chat's row flushed and the two messages
    added. *)
Lemma send_message_commits (ext : External) (w : N) (c : Ctx)
    (cid : UUID) (data : MessageCreate.t) (user : User.t) :
  let after := committed (snd (request w (Api.send_message ext cid data user)
                                 c)) in
  after = committed c
  \/ exists ch updated stamp u a,
       chat_by_id (committed c) cid = Some ch
       /\ Chat.id updated = cid
       /\ Chat.message_count updated = stored_count (committed c) cid + 2
       /\ Message.chat_id u = cid /\ Message.chat_id a = cid
       /\ after = mkDatabase (users (committed c))
                    (flushed_rows ch updated stamp (chats (committed c)))
                    (messages (committed c) ++ [u; a]).
Proof.
  cbv zeta. rewrite (message_create_eta data).
  set (content := MessageCreate.content data).
  destruct (chat_by_id (committed c) cid) as [ch|] eqn:Hfind.
  2:{ left. rewrite request_run. unfold Api.send_message.
      rewrite guarded_missing by exact Hfind. reflexivity. }
  destruct (N.eqb (Chat.user_id ch) (User.id user)) eqn:Hown.
  2:{ left. rewrite request_run. unfold Api.send_message.
      erewrite guarded_foreign by eassumption. reflexivity. }
  apply N.eqb_eq in Hown.
  destruct (usable_text (snd (groq ext (groq_calls c)
              (reply_request ext content (messages_of (committed c) cid)))))
    as [t|] eqn:Hus.
  2:{ left.
      destruct (@send_message_unusable ext w c cid content user ch
                  Hfind Hown Hus) as (detail & c' & Hrun & Hc & _).
      rewrite Hrun. exact Hc. }
  right.
  pose proof (chat_by_id_id _ _ Hfind) as Hid. subst cid.
  destruct (@create_message_and_respond_store ext (begin_request w c) ch
              content t Hfind Hus)
    as (updated & stamp & u & a & H1 & H2 & H3 & H4 & H5).
  exists ch, updated, stamp, u, a.
  split; [reflexivity|]. split; [exact H1|].
  split.
  { rewrite H2. unfold stored_count, messages_of.
    rewrite order_by_length. reflexivity. }
  split; [exact H3|]. split; [exact H4|].
  rewrite request_run. unfold Api.send_message.
  erewrite guarded_owned;
    [ | exact Hfind | rewrite Hown; apply N.eqb_refl ].
  cbn [snd close_session committed].
  unfold bind at 1.
  destruct (MessageService.create_message_and_respond ext ch
              (MessageCreate.Build content) (begin_request w c))
    as [[[[[u' a'] g] row]|e] c1] eqn:Hrun;
    cbn [snd] in H5; cbn [ret snd]; exact H5.
Qed.

(** A send keeps the store consistent, whatever its outcome: afterwards
    every chat row still counts exactly its stored messages and every
    message still belongs to a stored chat. *)
Theorem send_keeps_store_consistent (ext : External) (w : N) (c : Ctx)
    (cid : UUID) (data : MessageCreate.t) (user : User.t) :
  store_consistent (committed c) ->
  store_consistent
    (committed (snd (request w (Api.send_message ext cid data user) c))).
Proof.
  intros [Hcount Href].
  destruct (send_message_commits ext w c cid data user) as [->|Hsent];
    [split; assumption|].
  destruct Hsent as (ch & updated & stamp & u & a & Hfind & Hid & Hn & Hu & Ha
                     & ->).
  pose proof (chat_by_id_id _ _ Hfind) as Hch.
  assert (Hin : In ch (chats (committed c)))
    by (unfold chat_by_id in Hfind; apply find_some in Hfind; apply Hfind).
  split.
  - apply (@counts_after_send (committed c) _ ch updated stamp u a);
      try assumption; try reflexivity; try congruence.
  - eapply references_by_ids; [ | | exact Href].
    + cbn [chats]. apply flushed_rows_ids.
    + cbn [messages]. intros m Hm. apply in_app_or in Hm.
      destruct Hm as [Hm|[<-|[<-|[]]]]; [left; exact Hm | right | right].
      * rewrite Hu, <- Hch. apply in_map. exact Hin.
      * rewrite Ha, <- Hch. apply in_map. exact Hin.
Qed.

Lemma toy_store_consistent : store_consistent Sample.store.
Proof.
  split; [|exact toy_store_references].
  unfold counts_consistent. cbn. repeat constructor.
Qed.

Lemma send_keeps_store_consistent_witness :
  store_consistent
    (committed (snd (request 2%N
       (Api.send_message (Sample.provider Sample.good_reply Sample.good_title)
          8%N Sample.hello Sample.alice) Sample.ctx))).
Proof.
  exact (@send_keeps_store_consistent
           (Sample.provider Sample.good_reply Sample.good_title)
           2%N Sample.ctx 8%N Sample.hello Sample.alice toy_store_consistent).
Defined.

(** A send touches one chat only: every other chat row, the messages of
    every other chat and the users are after the send what they were
    before, whatever the outcome. *)
Theorem send_leaves_other_chats (ext : External) (w : N) (c : Ctx)
    (cid other : UUID) (data : MessageCreate.t) (user : User.t) :
  other <> cid ->
  let after := committed (snd (request w (Api.send_message ext cid data user)
                                 c)) in
  chat_by_id after other = chat_by_id (committed c) other
  /\ messages_of after other = messages_of (committed c) other
  /\ users after = users (committed c).
Proof.
  intros Hne. cbv zeta.
  destruct (send_message_commits ext w c cid data user) as [->|Hsent];
    [auto|].
  destruct Hsent as (ch & updated & stamp & u & a & Hfind & Hid & Hn & Hu & Ha
                     & ->).
  split; [|split; [|reflexivity]].
  - unfold chat_by_id, flushed_rows. cbn [chats].
    destruct (Chat.same_columns ch updated); [reflexivity|].
    apply (@find_map_other (chats (committed c)) updated other
             (fun _ => Chat.set_updated_at updated stamp));
      [congruence | reflexivity].
  - unfold messages_of. cbn [messages]. rewrite filter_app.
    cbn [filter]. rewrite Hu, Ha.
    destruct (N.eqb_spec cid other) as [E|_]; [congruence|].
    rewrite app_nil_r. reflexivity.
Qed.

Lemma send_leaves_other_chats_witness :
  chat_by_id
    (committed (snd (request 2%N
       (Api.send_message (Sample.provider Sample.good_reply Sample.good_title)
          8%N Sample.hello Sample.alice) Sample.ctx))) 7%N
  = Some Sample.fresh_chat.
Proof.
  exact (proj1 (@send_leaves_other_chats
                  (Sample.provider Sample.good_reply Sample.good_title)
                  2%N Sample.ctx 8%N 7%N Sample.hello Sample.alice
                  ltac:(discriminate))).
Defined.

(** What the UPDATE of a chat does: nothing, an error, or the row
    rewritten with the title as its column stores it. *)
Lemma update_chat_outcome (loaded new : Chat.t) (c : Ctx) :
  update_chat loaded new c = (Return tt, c)
  \/ (exists e, update_chat loaded new c = (Raised e, c))
  \/ exists stored,
       update_chat loaded new c
       = (Return tt,
          mkCtx (committed c)
            (mkDatabase (users (session c))
               (List.map (fun row =>
                            if N.eqb (Chat.id row) (Chat.id new)
                            then Chat.set_updated_at
                                   (Chat.set_title new stored) (clock c)
                            else row) (chats (session c)))
               (messages (session c)))
            (clock c) (groq_calls c) (minted c)).
Proof.
  unfold update_chat, bind, utcnow, get_session, put_session, ret.
  destruct (Chat.same_columns loaded new); [left; reflexivity|].
  destruct (if Text.eqb (Chat.title loaded) (Chat.title new)
            then Some (Chat.title new) else varchar 200 (Chat.title new))
    as [stored|].
  - right. right. exists stored. reflexivity.
  - right. left. eexists. reflexivity.
Qed.

Lemma rename_commits (w : N) (c : Ctx) (cid : UUID) (user : User.t)
    (update_data : ChatUpdate.t) :
  let after := committed (snd (request w (Api.update_chat_title cid
                                            update_data user) c)) in
  after = committed c
  \/ exists ch loaded renamed stamp,
       chat_by_id (committed c) cid = Some ch
       /\ Chat.id renamed = Chat.id ch
       /\ Chat.message_count renamed = Chat.message_count ch
       /\ after = mkDatabase (users (committed c))
                    (flushed_rows loaded renamed stamp (chats (committed c)))
                    (messages (committed c)).
Proof.
  cbv zeta. rewrite request_run. cbn [snd close_session committed].
  unfold Api.update_chat_title, ChatService.update_chat_title.
  set (c0 := begin_request w c).
  destruct (chat_by_id (committed c) cid) as [ch|] eqn:Hfind.
  2:{ left. rewrite guarded_missing by exact Hfind. reflexivity. }
  destruct (N.eqb (Chat.user_id ch) (User.id user)) eqn:Hown.
  2:{ left. erewrite guarded_foreign by eassumption. reflexivity. }
  erewrite guarded_owned by eassumption.
  set (renamed := Chat.set_title ch (ChatUpdate.title update_data)).
  destruct (update_chat_outcome ch renamed c0)
    as [Hrun|[(e & Hrun)|(stored & Hrun)]].
  - left. erewrite bind_Return by exact Hrun.
    unfold db_commit, refresh_chat, bind, get_session, ret.
    subst c0. cbn [begin_request committed session].
    destruct (chat_by_id (committed c) (Chat.id renamed)); reflexivity.
  - left. erewrite bind_Raised by exact Hrun. reflexivity.
  - right.
    exists ch,
      (Chat.set_message_count (Chat.set_title renamed stored)
         (Chat.message_count ch + 1)),
      (Chat.set_title renamed stored), (clock c0).
    split; [reflexivity|]. split; [reflexivity|]. split; [reflexivity|].
    erewrite bind_Return by exact Hrun.
    unfold db_commit, refresh_chat, bind, get_session, ret.
    cbn [committed session clock groq_calls minted].
    unfold flushed_rows, Chat.same_columns.
    cbn [Chat.message_count Chat.set_message_count Chat.set_title renamed].
    replace (Chat.message_count ch + 1 =? Chat.message_count ch) with false
      by (symmetry; apply Z.eqb_neq; lia).
    rewrite andb_false_r.
    subst c0. cbn [begin_request committed session clock].
    destruct (chat_by_id _ (Chat.id renamed)); reflexivity.
Qed.

Lemma delete_commits (w : N) (c : Ctx) (cid : UUID) (user : User.t) :
  let after := committed (snd (request w (Api.delete_chat cid user) c)) in
  after = committed c
  \/ after = mkDatabase (users (committed c))
               (filter (fun r => negb (N.eqb (Chat.id r) cid))
                       (chats (committed c)))
               (filter (fun m => negb (N.eqb (Message.chat_id m) cid))
                       (messages (committed c))).
Proof.
  cbv zeta.
  destruct (chat_by_id (committed c) cid) as [ch|] eqn:Hfind.
  2:{ left. rewrite request_run. cbn [snd close_session committed].
      unfold Api.delete_chat, ChatService.delete_chat.
      unfold bind at 1. rewrite guarded_missing by exact Hfind.
      reflexivity. }
  destruct (N.eqb (Chat.user_id ch) (User.id user)) eqn:Hown.
  2:{ left. rewrite request_run. cbn [snd close_session committed].
      unfold Api.delete_chat, ChatService.delete_chat.
      unfold bind at 1. erewrite guarded_foreign by eassumption.
      reflexivity. }
  right. apply N.eqb_eq in Hown.
  rewrite (@delete_chat_run w c cid user ch Hfind Hown). reflexivity.
Qed.

Lemma create_commits (ext : External) (w : N) (c : Ctx) (user : User.t)
    (chat_data : ChatCreate.t) :
  let after := committed (snd (request w (Api.create_chat ext chat_data user)
                                 c)) in
  after = committed c
  \/ exists title stamp,
       after = mkDatabase (users (committed c))
                 (chats (committed c)
                  ++ [Chat.Build (uuid4 ext (minted c)) (User.id user) title 0
                                 stamp stamp])
                 (messages (committed c)).
Proof.
  cbv zeta. rewrite request_run. cbn [snd close_session committed].
  unfold Api.create_chat, ChatService.create_chat, insert_chat.
  unfold bind, new_uuid, utcnow, get_session, put_session, ret, db_commit,
    refresh_chat.
  destruct (varchar 200 _) as [stored|]; [|left; reflexivity].
  right. eexists. eexists.
  unfold bind, get_session, ret.
  cbn [begin_request committed session clock groq_calls minted users chats
       messages].
  destruct (chat_by_id _ _); reflexivity.
Qed.

(** Creating, renaming and deleting a chat keep the store consistent,
    whatever the outcome of the request: afterwards every chat row still
    counts exactly its stored messages and every message still belongs to
    a stored chat. *)
Theorem chat_operations_keep_store_consistent
    (ext : External) (w : N) (c : Ctx) (cid : UUID) (user : User.t)
    (chat_data : ChatCreate.t) (update_data : ChatUpdate.t) :
  store_consistent (committed c) ->
  chat_by_id (committed c) (uuid4 ext (minted c)) = None ->
  store_consistent
    (committed (snd (request w (Api.create_chat ext chat_data user) c)))
  /\ store_consistent
       (committed (snd (request w (Api.update_chat_title cid update_data
                                     user) c)))
  /\ store_consistent
       (committed (snd (request w (Api.delete_chat cid user) c))).
Proof.
  intros [Hcount Href] Hfresh. split; [|split].
  - destruct (create_commits ext w c user chat_data) as [->|(title & stamp & ->)];
      [split; assumption|].
    pose proof (no_message_of_absent_chat _ Href Hfresh) as Hnone.
    split.
    + unfold counts_consistent, stored_count in *. cbn [chats messages].
      apply Forall_app. split; [exact Hcount|].
      constructor; [|constructor].
      cbn [Chat.id Chat.message_count]. rewrite Hnone. reflexivity.
    + unfold messages_reference_chats in *. cbn [chats messages].
      eapply Forall_impl; [|exact Href].
      intros m (ch & Hin & E). exists ch. split; [|exact E].
      apply in_or_app. left. exact Hin.
  - destruct (rename_commits w c cid user update_data)
      as [->|(ch & loaded & renamed & stamp & Hfind & Hid & Hn & ->)];
      [split; assumption|].
    assert (Hin : In ch (chats (committed c)))
      by (unfold chat_by_id in Hfind; apply find_some in Hfind; apply Hfind).
    split.
    + apply (@counts_after_rename (committed c) _ ch loaded renamed stamp);
        try assumption; reflexivity.
    + eapply references_by_ids; [ | | exact Href].
      * cbn [chats]. apply flushed_rows_ids.
      * cbn [messages]. intros m Hm. left. exact Hm.
  - destruct (delete_commits w c cid user) as [->| ->];
      [split; assumption|].
    split.
    + unfold counts_consistent, stored_count in *. cbn [chats messages].
      rewrite Forall_forall in *. intros row Hrow.
      apply filter_In in Hrow. destruct Hrow as [Hrow Hkeep].
      apply negb_true_iff, N.eqb_neq in Hkeep.
      rewrite filter_chat_kept by exact Hkeep. apply Hcount, Hrow.
    + unfold messages_reference_chats in *. cbn [chats messages].
      rewrite Forall_forall in *. intros m Hm.
      apply filter_In in Hm. destruct Hm as [Hm Hkeep].
      destruct (Href m Hm) as (ch & Hin & E).
      exists ch. split; [|exact E].
      apply filter_In. split; [exact Hin|]. rewrite E. exact Hkeep.
Qed.

Lemma chat_operations_keep_store_consistent_witness :
  store_consistent
    (committed (snd (request 1%N (Api.delete_chat 8%N Sample.alice)
                       Sample.ctx))).
Proof.
  exact (proj2 (proj2 (@chat_operations_keep_store_consistent Sample2.world
                         1%N Sample.ctx 8%N Sample.alice
                         (ChatCreate.parse Missing)
                         (ChatUpdate.Build (lit "x"))
                         toy_store_consistent eq_refl))).
Defined.

(** update_chat_message_count sets the count of a chat to the number of
    its stored messages and commits; it changes nothing else, and on a chat
    whose count is already right it changes nothing at all. *)
Theorem update_chat_message_count_repairs (c : Ctx) (ch : Chat.t) :
  chat_by_id (session c) (Chat.id ch) = Some ch ->
  exists c' row,
    ChatCount.update_chat_message_count ch c = (Return tt, c')
    /\ session c' = committed c'
    /\ chat_by_id (committed c') (Chat.id ch) = Some row
    /\ Chat.message_count row = stored_count (committed c') (Chat.id ch)
    /\ Chat.title row = Chat.title ch
    /\ Chat.user_id row = Chat.user_id ch
    /\ users (committed c') = users (session c)
    /\ messages (committed c') = messages (session c)
    /\ (Chat.message_count ch = stored_count (session c) (Chat.id ch) ->
        committed c' = session c).
Proof.
  intros Hfind.
  set (n := Z.of_nat (List.length (messages_of (session c) (Chat.id ch)))).
  assert (Hn : n = stored_count (session c) (Chat.id ch))
    by (unfold n, stored_count, messages_of; rewrite order_by_length;
        reflexivity).
  set (counted := Chat.set_message_count ch n).
  set (d := mkDatabase (users (session c))
              (flushed_rows ch counted (clock c) (chats (session c)))
              (messages (session c))).
  assert (Hrun : ChatCount.update_chat_message_count ch c
                 = (Return tt,
                    mkCtx d d (clock c) (groq_calls c) (minted c))).
  { unfold ChatCount.update_chat_message_count.
    run_with get_session_run. fold n counted.
    erewrite bind_Return
      by (apply update_chat_flushed; left; reflexivity).
    reflexivity. }
  assert (Hrow : exists row,
            chat_by_id d (Chat.id ch) = Some row
            /\ Chat.message_count row = n
            /\ Chat.title row = Chat.title ch
            /\ Chat.user_id row = Chat.user_id ch).
  { subst d. unfold chat_by_id, flushed_rows in *. cbn [chats].
    destruct (Chat.same_columns ch counted) eqn:Hsame.
    - exists ch. split; [exact Hfind|].
      apply same_columns_eq in Hsame. destruct Hsame as [_ Hc].
      split; [exact Hc | auto].
    - exists (Chat.set_updated_at counted (clock c)).
      split; [|cbn; auto].
      apply (@find_after_update (chats (session c)) ch
               (Chat.set_updated_at counted (clock c)) Hfind eq_refl). }
  destruct Hrow as (row & Hrow & Hc & Ht & Hu).
  eexists. exists row. split; [exact Hrun|].
  cbn [committed session].
  split; [reflexivity|]. split; [exact Hrow|].
  split; [rewrite Hc, Hn; reflexivity|].
  split; [exact Ht|]. split; [exact Hu|].
  split; [reflexivity|]. split; [reflexivity|].
  intros Hright. subst d. unfold flushed_rows.
  assert (Hsame : Chat.same_columns ch counted = true).
  { unfold Chat.same_columns, counted. cbn [Chat.title Chat.message_count
      Chat.set_message_count].
    rewrite text_eqb_refl, Hn, Hright, Z.eqb_refl. reflexivity. }
  rewrite Hsame. destruct (session c); reflexivity.
Qed.

Lemma update_chat_message_count_repairs_witness :
  exists c' row,
    ChatCount.update_chat_message_count
      (Chat.Build 8%N 1%N (lit "Trade zones") 7 1 3)
      (mkCtx Sample.store
         (mkDatabase [Sample.alice]
                     [Chat.Build 8%N 1%N (lit "Trade zones") 7 1 3]
                     [Sample.m1; Sample.m2]) 10 [] 0)
    = (Return tt, c')
    /\ chat_by_id (committed c') 8%N = Some row
    /\ Chat.message_count row = 2.
Proof.
  destruct (@update_chat_message_count_repairs
              (mkCtx Sample.store
                 (mkDatabase [Sample.alice]
                    [Chat.Build 8%N 1%N (lit "Trade zones") 7 1 3]
                    [Sample.m1; Sample.m2]) 10 [] 0)
              (Chat.Build 8%N 1%N (lit "Trade zones") 7 1 3) eq_refl)
    as (c' & row & Hrun & _ & Hrow & Hn & _ & _ & _ & Hm & _).
  exists c', row. split; [exact Hrun|]. split; [exact Hrow|].
  rewrite Hn. unfold stored_count. rewrite Hm. reflexivity.
Defined.

(** ** Pages *)

Lemma offset_limit_length (A : Type) (page page_size : Z) (l : list A) :
  1 <= page -> 1 <= page_size ->
  Z.of_nat (List.length (offset_limit ((page - 1) * page_size) page_size l))
  = Z.max 0 (Z.min page_size
               (Z.of_nat (List.length l) - (page - 1) * page_size)).
Proof.
  intros Hp Hs. unfold offset_limit.
  rewrite length_firstn, length_skipn. nia.
Qed.

(** A page of messages or of chats holds page_size items while the
    sequence lasts, the remainder on the last page and nothing beyond it;
    the total reported does not depend on the page, and listing writes
    nothing; all this whatever order the database gives rows with equal
    sort keys. *)
Theorem page_sizes (ext : External) (c : Ctx) (chat : Chat.t) (user : User.t)
    (page page_size : Z) :
  1 <= page -> 1 <= page_size ->
  let size total := Z.max 0 (Z.min page_size (total - (page - 1) * page_size)) in
  (exists items,
     MessageService.get_chat_messages ext chat page page_size c
     = (Return (items, stored_count (session c) (Chat.id chat)), c)
     /\ Z.of_nat (List.length items)
        = size (stored_count (session c) (Chat.id chat)))
  /\ (exists items,
        ChatService.get_user_chats ext user page page_size c
        = (Return (items,
                   Z.of_nat (List.length (chats_of (session c) (User.id user)))),
           c)
        /\ Z.of_nat (List.length items)
           = size (Z.of_nat (List.length
                               (chats_of (session c) (User.id user))))).
Proof.
  intros Hp Hs. cbv zeta. split.
  - eexists. split; [reflexivity|].
    rewrite offset_limit_length by assumption.
    rewrite order_by_ranked_length. reflexivity.
  - eexists. split.
    + unfold ChatService.get_user_chats, bind, get_session, ret.
      unfold chats_of. rewrite order_by_length. reflexivity.
    + rewrite offset_limit_length by assumption.
      rewrite order_by_ranked_length. unfold chats_of.
      rewrite order_by_length. reflexivity.
Qed.

Lemma page_sizes_witness :
  exists items,
    MessageService.get_chat_messages Sample.paging Sample.old_chat 3 1
      Sample.ctx
    = (Return (items, 2), Sample.ctx)
    /\ List.length items = 0%nat.
Proof.
  destruct (proj1 (@page_sizes Sample.paging Sample.ctx Sample.old_chat
                     Sample.alice 3 1
                     ltac:(lia) ltac:(lia))) as (items & Hrun & Hlen).
  exists items. split; [exact Hrun|].
  change (stored_count (session Sample.ctx) (Chat.id Sample.old_chat))
    with 2 in Hlen.
  change (Z.max 0 (Z.min 1 (2 - (3 - 1) * 1))) with 0 in Hlen. lia.
Defined.

(** ** Conversations *)

Lemma skipn_keeps_tail (A : Type) (k : nat) (l tail : list A) :
  (k <= List.length l)%nat -> skipn k (l ++ tail) = skipn k l ++ tail.
Proof.
  intros Hk. rewrite skipn_app.
  replace (k - List.length l)%nat with 0%nat by lia. reflexivity.
Qed.

(** After a successful send, the next send on the chat passes the exchange
    just stored to the provider, right before the new message, and makes
    no title call, whether or not it succeeds. *)
Theorem next_send_continues_conversation
    (ext : External) (w1 w2 : N) (c : Ctx) (cid : UUID)
    (data1 data2 : MessageCreate.t) (user : User.t)
    (resp1 : MessageSendResponse) (c1 : Ctx) :
  stamps_in_past c ->
  request w1 (Api.send_message ext cid data1 user) c = (Return resp1, c1) ->
  let run2 := request w2 (Api.send_message ext cid data2 user) c1 in
  exists rq earlier,
    groq_calls (snd run2) = groq_calls c1 ++ [rq]
    /\ rq_messages rq
       = earlier
         ++ [ mkChatMessage (lit "user") (MessageCreate.content data1);
              mkChatMessage (lit "assistant")
                            (Message.content (assistant_message resp1));
              mkChatMessage (lit "user") (MessageCreate.content data2) ].
Proof.
  intros Hpast Hrun1. cbv zeta.
  rewrite (message_create_eta data1) in Hrun1.
  destruct (send_message_returns _ _ _ _ _ _ Hrun1)
    as (ch & t & Hfind & Hown & Hus).
  destruct (@send_message_ok ext w1 c cid _ user ch t Hfind Hown Hus)
    as (resp' & c'' & row & Hrun' & Hu & Ha & Hnow & _ & _ & _ & Hm
        & Hrow & Hruid & _ & _ & _).
  rewrite Hrun1 in Hrun'. inversion Hrun'; subst resp' c''. clear Hrun'.
  set (prior := messages_of (committed c) cid) in *.
  assert (Hprior : Forall (fun m => Message.created_at m
                                    <= clock c + Z.of_N w1)
                     (messages (committed c))).
  { eapply Forall_impl; [|exact Hpast]. simpl. intros; lia. }
  assert (Hof : messages_of (committed c1) cid
                = prior ++ [user_message resp1; assistant_message resp1]).
  { apply (@messages_of_append (committed c) (committed c1) cid _ _
             (clock c + Z.of_N w1) Hm Hprior);
      rewrite ?Hu, ?Ha; simpl; try reflexivity; lia. }
  set (content2 := MessageCreate.content data2).
  set (rq := reply_request ext content2 (messages_of (committed c1) cid)).
  assert (Hshape : exists earlier,
    rq_messages rq
    = earlier
      ++ [ mkChatMessage (lit "user") (MessageCreate.content data1);
           mkChatMessage (lit "assistant")
                         (Message.content (assistant_message resp1));
           mkChatMessage (lit "user") content2 ]).
  { unfold rq, reply_request. cbn [rq_messages].
    rewrite build_messages_window, Hof.
    rewrite skipn_keeps_tail by (rewrite length_app; simpl; lia).
    rewrite map_app. cbn [List.map]. unfold role_for_role at 2 3.
    rewrite Hu, Ha. cbn [Message.role Message.content role_value].
    exists (mkChatMessage (lit "system") Prompts.NUPAT_AI_SYSTEM_PROMPT
            :: List.map role_for_role
                 (skipn (List.length (prior ++ [user_message resp1;
                                                assistant_message resp1])
                         - 10) prior)).
    rewrite Hu, Ha. cbn [app]. rewrite <- app_assoc. reflexivity. }
  destruct Hshape as [earlier Hshape].
  exists rq, earlier. split; [|exact Hshape].
  assert (Hown' : Chat.user_id row = User.id user) by congruence.
  rewrite (message_create_eta data2). fold content2.
  destruct (usable_text (snd (groq ext (groq_calls c1) rq))) as [t2|] eqn:Hus2.
  - destruct (@send_message_ok ext w2 c1 cid content2 user row t2
                Hrow Hown' Hus2)
      as (resp2 & c2 & row2 & Hrun2 & _ & _ & _ & _ & _ & _ & _ & _ & _ & _
          & _ & Hcalls).
    rewrite Hrun2. cbn [snd]. rewrite Hcalls. fold rq.
    rewrite Hof, length_app. cbn [List.length].
    destruct (Z.eqb_spec (Z.of_nat (List.length prior + 2)) 0); [lia|].
    reflexivity.
  - destruct (@send_message_unusable ext w2 c1 cid content2 user row
                Hrow Hown' Hus2) as (detail & c2 & Hrun2 & _ & _ & Hcalls).
    rewrite Hrun2. cbn [snd]. exact Hcalls.
Qed.

Lemma next_send_continues_conversation_witness :
  exists resp1 c1 rq,
    request 2%N (Api.send_message
                   (Sample.provider Sample.good_reply Sample.good_title)
                   7%N Sample.hello Sample.alice) Sample.ctx
    = (Return resp1, c1)
    /\ groq_calls (snd (request 3%N
                          (Api.send_message
                             (Sample.provider Sample.good_reply
                                Sample.good_title)
                             7%N (MessageCreate.Build (lit "And then?"))
                             Sample.alice) c1))
       = groq_calls c1 ++ [rq].
Proof.
  assert (Hpast : stamps_in_past Sample.ctx).
  { unfold stamps_in_past. simpl. repeat constructor; simpl; lia. }
  destruct (request 2%N (Api.send_message
                   (Sample.provider Sample.good_reply Sample.good_title)
                   7%N Sample.hello Sample.alice) Sample.ctx)
    as [[resp1|e] c1] eqn:E.
  - destruct (@next_send_continues_conversation
                (Sample.provider Sample.good_reply Sample.good_title)
                2%N 3%N Sample.ctx 7%N Sample.hello
                (MessageCreate.Build (lit "And then?")) Sample.alice
                resp1 c1 Hpast E) as (rq & earlier & Hcalls & _).
    exists resp1, c1, rq. split; [reflexivity | exact Hcalls].
  - exfalso. vm_compute in E. discriminate E.
Defined.

(** ** The provider adapter *)

(** generate_chat_title never raises: whatever the provider does, it makes
    one call, returns a title that fits the 200-character column, and
    leaves the session alone. *)
Theorem generate_chat_title_never_fails
    (ext : External) (first_message : str) (c : Ctx) :
  exists title c',
    AIService.generate_chat_title ext first_message c = (Return title, c')
    /\ Text.len title <= 200
    /\ committed c' = committed c /\ session c' = session c
    /\ groq_calls c' = groq_calls c ++ [title_request ext first_message]
    /\ ((forall text rest,
           snd (groq ext (groq_calls c) (title_request ext first_message))
           <> ChatCompletion (Some text :: rest)) ->
        title = lit "New Chat").
Proof.
  eexists. eexists. split; [apply generate_chat_title_run|].
  cbn [committed session groq_calls].
  split.
  { unfold title_of.
    destruct (snd (groq ext (groq_calls c) (title_request ext first_message)))
      as [e|[|[content|] rest]]; try (vm_compute; discriminate).
    destruct (Text.truthy (Text.strip content));
      [|vm_compute; discriminate].
    apply Z.leb_le, clean_title_fits. }
  repeat (split; [reflexivity|]).
  intros Hno. unfold title_of.
  destruct (snd (groq ext (groq_calls c) (title_request ext first_message)))
    as [e|[|[content|] rest]]; try reflexivity.
  exfalso. apply (Hno content rest). reflexivity.
Qed.

Lemma generate_chat_title_never_fails_witness :
  exists c',
    AIService.generate_chat_title
      (Sample.provider (APIError (lit "timeout")) Sample.good_title)
      (lit "Hello") Sample.ctx = (Return (lit "New Chat"), c').
Proof.
  destruct (generate_chat_title_never_fails
              (Sample.provider (APIError (lit "timeout")) Sample.good_title)
              (lit "Hello") Sample.ctx)
    as (title & c' & Hrun & _ & _ & _ & _ & Hdefault).
  exists c'. rewrite Hrun. f_equal. f_equal.
  apply Hdefault. intros text rest. discriminate.
Defined.

(** generate_response makes one call and either returns the reply without
    leading or trailing whitespace or raises a 500 whose detail begins
    with the words AI service error; it never touches the session. *)
Theorem generate_response_outcomes
    (ext : External) (user_message : str) (chat_history : list Message.t)
    (c : Ctx) :
  let r := AIService.generate_response ext user_message chat_history c in
  committed (snd r) = committed c /\ session (snd r) = session c
  /\ groq_calls (snd r)
     = groq_calls c ++ [reply_request ext user_message chat_history]
  /\ match fst r with
     | Return text =>
         match text with
         | [] => True
         | ch :: _ => Text.isspace ch = false
         end
         /\ match rev text with
            | [] => True
            | ch :: _ => Text.isspace ch = false
            end
     | Raised e =>
         exists cause,
           e = HTTPException 500 (lit "AI service error: " ++ cause)
     end.
Proof.
  cbv zeta.
  unfold AIService.generate_response, try_except, bind,
    chat_completions_create.
  fold (reply_request ext user_message chat_history).
  destruct (groq ext (groq_calls c)
              (reply_request ext user_message chat_history)) as [lat k].
  destruct k as [e|[|[[|x s]|] rest]]; cbn;
    repeat (split; [reflexivity|]);
    try (eexists; reflexivity).
  apply (strip_with_ends Text.isspace (x :: s)).
Qed.

(** format_chat_history shows the last ten messages only: messages older
    than the last ten do not change the text. *)
Theorem format_chat_history_last_ten (older recent : list Message.t) :
  List.length recent = 10%nat ->
  History.format_chat_history (older ++ recent)
  = History.format_chat_history recent.
Proof.
  intros Hlen. unfold History.format_chat_history, AIService.last_items.
  destruct recent as [|r rest]; [discriminate Hlen|].
  destruct (older ++ r :: rest) as [|x l] eqn:E.
  { destruct older; discriminate E. }
  rewrite <- E. rewrite length_app, Hlen.
  replace (10 <? Z.of_nat 10) with false by reflexivity.
  destruct (Z.ltb_spec 10 (Z.of_nat (List.length older + 10)))
    as [Hlong|Hshort].
  - replace (List.length older + 10 - 10)%nat with (List.length older + 0)%nat
      by lia.
    rewrite skipn_app, Nat.add_0_r, skipn_all, Nat.sub_diag. reflexivity.
  - assert (older = []) as -> by (destruct older; [reflexivity|cbn in Hshort; lia]).
    reflexivity.
Qed.

Lemma format_chat_history_last_ten_witness :
  History.format_chat_history
    ([Sample.m2; Sample.m1] ++ repeat Sample.m1 10)
  = History.format_chat_history (repeat Sample.m1 10).
Proof.
  exact (@format_chat_history_last_ten [Sample.m2; Sample.m1]
           (repeat Sample.m1 10) eq_refl).
Defined.

(** ** Titles, on a sample *)

Lemma clean_title_short_witness :
  AIService.clean_title ([34%N] ++ lit "Greeting Exchange" ++ [34%N])
  = lit "Greeting Exchange".
Proof.
  refine (proj1 (@clean_title_short
                   ([34%N] ++ lit "Greeting Exchange" ++ [34%N]) _ _)).
  - vm_compute. lia.
  - vm_compute. discriminate.
Defined.

Lemma first_send_title_witness :
  exists resp,
    fst (request 2%N (Api.send_message
                        (Sample.provider Sample.good_reply Sample.good_title)
                        7%N Sample.hello Sample.alice) Sample.ctx)
    = Return resp
    /\ ((ci_title (chat resp) = lit "New Chat"
         /\ ci_title_generated (chat resp) = false)
        \/ (ci_title_generated (chat resp) = true
            /\ ci_title (chat resp) <> lit "New Chat"
            /\ ci_title (chat resp) <> []
            /\ Text.len (ci_title (chat resp)) <= 200)).
Proof.
  destruct (request 2%N (Api.send_message
                           (Sample.provider Sample.good_reply
                                            Sample.good_title)
                           7%N Sample.hello Sample.alice) Sample.ctx)
    as [[resp|e] c'] eqn:E.
  - exists resp. split; [reflexivity|].
    exact (@first_send_title _ _ _ _ _ _ resp c' Sample.fresh_chat E
             eq_refl eq_refl).
  - exfalso. vm_compute in E. discriminate E.
Defined.
